(** * The gumath call boundary of plures-ruby

    A shallow embedding of [gumath/ext/ruby_gumath/ruby_gumath.c]: the
    [Gumath::GufuncObject#call] method and the singleton methods of the
    [Gumath] class, together with the properties of the dispatch-and-apply
    pipeline that can be read off that file.

    The C functions are written in a small state-and-exception monad.  The
    state holds the class globals of the file and the history of the calls
    made into the collaborating libraries (libndtypes, libxnd, libgumath and
    the XND Ruby extension); a Ruby exception ([rb_raise], [raise_error]) and
    C undefined behaviour are the two ways a computation stops early. *)

From stdpp Require Import base option list strings gmap.
From Stdlib Require Import ZArith Lia.

Set Warnings "-register-all".

Local Open Scope Z_scope.
Local Open Scope nat_scope.

(** ** Data of the collaborating libraries *)

(** libndtypes: a type descriptor is either abstract or concrete. *)
Inductive ndt_access := Abstract | Concrete.

(** Modelled from the spec: [ndt_t] of libndtypes, reduced to the identity of
    the descriptor and "a notion of concrete vs abstract type". *)
Record ndt_t := { ndt_id : nat; access : ndt_access }.

(** [const ndt_t *]; [None] is the NULL pointer. *)
Abbreviation ndt_ptr := (option ndt_t).

Definition ndt_is_concrete (t : ndt_t) : bool :=
  match access t with Concrete => true | Abstract => false end.

Definition ndt_is_abstract (t : ndt_t) : bool :=
  match access t with Abstract => true | Concrete => false end.

(** [xnd_t] of libxnd, a typed view on memory, by the fields that matter
    here: this file reads and writes [type] only, and [ptr] tells the
    buffers apart. *)
Record xnd_t := { type : ndt_ptr; ptr : nat }.

Definition xnd_error : xnd_t := {| type := None; ptr := 0 |}.

(** [stack[i].type = t] *)
Definition set_type (x : xnd_t) (t : ndt_ptr) : xnd_t :=
  {| type := t; ptr := ptr x |}.

(** [ndt_context_t]: the error code and message a library call leaves. *)
Record ndt_context_t := { err : nat; msg : string }.

(** [NDT_STATIC_CONTEXT(ctx)] *)
Definition NDT_STATIC_CONTEXT : ndt_context_t := {| err := 0; msg := "" |}.

(** Modelled from the spec: the kernel table of libgumath ([gm_tbl_t]),
    "mapping from name to an ordered collection of KernelEntry sharing that
    name", a KernelEntry being
    [{ name, input_signature, function_pointer }]. *)
Record KernelEntry := {
  entry_name : string;
  input_signature : string;
  function_pointer : nat
}.

Abbreviation gm_tbl_t := (gmap string (list KernelEntry)).

(** [gm_kernel_t] of libgumath; [set] is NULL when the selection failed. *)
Record gm_kernel_t := { set : option KernelEntry; flag : nat }.

(** Modelled from the spec: [ndt_apply_spec_t] of libndtypes, the ApplySpec
    "{ broadcast_types, output_types, outer_dims, flags }", with the two
    counts [nout] and [nbroadcast] that this file reads next to the arrays
    [out] and [broadcast].  The counts are C [int]s that are never
    negative; an entry that a list does not reach is a NULL pointer. *)
Record ndt_apply_spec_t := {
  flags : Z;
  nout : nat;
  nbroadcast : nat;
  outer_dims : Z;
  out : list ndt_t;
  broadcast : list ndt_t
}.

Definition ndt_apply_spec_empty : ndt_apply_spec_t :=
  {| flags := 0; nout := 0; nbroadcast := 0; outer_dims := 0;
     out := []; broadcast := [] |}.

(** ** Ruby values *)

Inductive VALUE :=
| VNULL                       (* (VALUE)NULL *)
| Qnil
| RInteger (z : Z)
| RXnd (x : xnd_t)            (* an XND object and the xnd_t it wraps *)
| RObject (id : nat)          (* any other object *)
| RArray (elts : list VALUE).

Definition is_NULL (v : VALUE) : bool :=
  match v with VNULL => true | _ => false end.

(** [rb_xnd_check_type] and [rb_xnd_const_xnd] of the XND extension. *)
Definition rb_xnd_check_type (v : VALUE) : bool :=
  match v with RXnd _ => true | _ => false end.

Definition rb_xnd_const_xnd (v : VALUE) : xnd_t :=
  match v with RXnd x => x | _ => xnd_error end.

(** What a library call hands back as a new XND object, or NULL. *)
Definition wrap_xnd (o : option xnd_t) : VALUE :=
  match o with Some x => RXnd x | None => VNULL end.

(** [INT2NUM] takes a C [int]: a wider argument is converted first. *)
Definition to_int (z : Z) : Z := ((z + 2 ^ 31) mod 2 ^ 32 - 2 ^ 31)%Z.

Definition INT2NUM (z : Z) : VALUE := RInteger (to_int z).

(** [array_new(n)] gives an empty array with room for [n] elements and
    [rb_ary_store] writes one element, growing the array with [nil] when
    needed.  (Had [array_new] filled the array with [nil], the stores of
    lines 224-226, at 0 to [n-1] in this order, would leave the same
    array.) *)
Definition array_new (n : nat) : list VALUE := [].

Definition rb_ary_store (ary : list VALUE) (i : nat) (v : VALUE) : list VALUE :=
  if decide (i < length ary) then <[i:=v]> ary
  else ary ++ replicate (i - length ary) Qnil ++ [v].

(** ** Exceptions, events and the state *)

Inductive exn :=
| rb_eArgError (m : string)
| rb_eNoMemError (m : string)
| rb_eTypeError                (* raised by TypedData_Get_Struct *)
| rb_errinfo (e : option ndt_context_t).   (* what raise_error() raises *)

(** One entry per call into a collaborator, with what went in and out. *)
Inductive event :=
| Ev_gm_select (name : string) (in_types : list ndt_ptr) (nin : nat)
    (kernel : gm_kernel_t) (spec : ndt_apply_spec_t)
| Ev_rb_xnd_empty_from_type (t : ndt_t) (x : option xnd_t)
| Ev_ndt_apply_spec_clear (spec : ndt_apply_spec_t)
| Ev_gm_apply (threaded : bool) (stack : list xnd_t) (rc : Z)
| Ev_seterr (ctx : ndt_context_t)
| Ev_ndt_del (t : ndt_ptr)
| Ev_rb_xnd_from_xnd (slot : nat) (x : xnd_t) (v : option xnd_t)
| Ev_xnd_del_buffer (slot : nat) (x : xnd_t).

(** The class globals that the methods read or write, and the history. *)
Record world := {
  table : gm_tbl_t;
  max_threads : Z;
  trace : list event
}.

Definition log (e : event) (w : world) : world :=
  {| table := table w; max_threads := max_threads w;
     trace := trace w ++ [e] |}.

(** The collaborators whose code is not in this file.  Each answer may depend
    on everything that happened before. *)
Record collaborators := {
  gm_select : list event -> gm_tbl_t -> string -> list ndt_ptr -> nat ->
              list xnd_t -> gm_kernel_t * ndt_apply_spec_t * ndt_context_t;
  rb_xnd_empty_from_type : list event -> ndt_t -> option xnd_t;
  gm_apply : list event -> gm_kernel_t -> list xnd_t -> Z ->
             Z * list (nat * xnd_t) * ndt_context_t;
  gm_apply_thread : list event -> gm_kernel_t -> list xnd_t -> Z -> Z -> Z ->
                    Z * list (nat * xnd_t) * ndt_context_t;
  rb_xnd_from_xnd : list event -> xnd_t -> option xnd_t
}.

(** ** The monad *)

Inductive stop := Raise (e : exn) | Undefined.

Inductive outcome (A : Type) :=
| Return (a : A)
| Stop (s : stop).
Arguments Return {A} a.
Arguments Stop {A} s.

Definition M (A : Type) : Type := world -> outcome A * world.

#[export] Instance M_ret : MRet M := fun A a w => (Return a, w).

#[export] Instance M_bind : MBind M := fun A B f m w =>
  match m w with
  | (Return a, w') => f a w'
  | (Stop s, w') => (Stop s, w')
  end.

Definition rb_raise {A} (e : exn) : M A := fun w => (Stop (Raise e), w).

Definition undefined {A} : M A := fun w => (Stop Undefined, w).

Definition emit (e : event) : M unit := fun w => (Return (), log e w).

Definition history : M (list event) := fun w => (Return (trace w), w).

Definition when (c : bool) (m : M unit) : M unit :=
  if c then m else mret ().

(** [for (i = lo; i < lo + n; i++) body] *)
Fixpoint for_loop {St} (i n : nat) (body : nat -> St -> M St) (s : St) : M St :=
  match n with
  | 0 => mret s
  | S n' => s' ← body i s; for_loop (S i) n' body s'
  end.

(** Array accesses; an index outside the array is undefined behaviour. *)
Definition load {A} (a : list A) (i : nat) : M A :=
  match a !! i with Some x => mret x | None => undefined end.

Definition store {A} (a : list A) (i : nat) (x : A) : M (list A) :=
  if decide (i < length a) then mret (<[i:=x]> a) else undefined.

(** The error last recorded by [seterr]. *)
Fixpoint errinfo (tr : list event) : option ndt_context_t :=
  match tr with
  | [] => None
  | e :: tr' =>
      match errinfo tr' with
      | Some c => Some c
      | None => match e with Ev_seterr c => Some c | _ => None end
      end
  end.

Definition seterr (ctx : ndt_context_t) : M unit := emit (Ev_seterr ctx).

Definition raise_error {A} : M A :=
  fun w => (Stop (Raise (rb_errinfo (errinfo (trace w)))), w).

(** [ndt_del(t)] of libndtypes frees the descriptor [t], which must not be
    read afterwards.  The descriptors in the slots of an ApplySpec being
    different objects, this file reads a freed descriptor in one place only:
    [spec.out[k]] on line 204 when [k] is the [i] of line 199, see
    [cleanup_body]. *)
Definition ndt_del (t : ndt_ptr) : M unit := emit (Ev_ndt_del t).

Definition ndt_apply_spec_clear (spec : ndt_apply_spec_t) : M unit :=
  emit (Ev_ndt_apply_spec_clear spec).

Definition xnd_del_buffer (slot : nat) (x : xnd_t) : M unit :=
  emit (Ev_xnd_del_buffer slot x).

(** [typedef struct { const gm_tbl_t *table; char *name; } GufuncObject] *)
Record GufuncObject := { guobj_table : gm_tbl_t; guobj_name : string }.

(** ** The initialisation and the registration of functions *)

(** [int]: what [NUM2INT] yields and [INT2NUM] takes without change. *)
Definition int_range (z : Z) : Prop := (- 2 ^ 31 <= z < 2 ^ 31)%Z.

(** The class globals at initialisation, where [table] may still be NULL,
    with the Ruby definitions and the calls of [gm_init] made so far. *)
Inductive definition :=
| Def_class (name : string)
| Def_class_under (outer name : string)
| Def_singleton_method (class name : string) (argc : Z)
| Def_method (class name : string) (argc : Z)
| Def_Init_gumath_functions.

Record process := {
  proc_dummy : bool;                 (* dummy != NULL *)
  proc_table : option gm_tbl_t;      (* table, None when NULL *)
  proc_max_threads : Z;
  proc_initialized : bool;           (* initialized != 0 *)
  proc_gm_inits : nat;               (* calls of gm_init() *)
  proc_defined : list definition
}.

(** The state of the file before [Init_ruby_gumath] has run. *)
Definition process_start : process :=
  {| proc_dummy := false; proc_table := None; proc_max_threads := 1;
     proc_initialized := false; proc_gm_inits := 0; proc_defined := [] |}.

(** What the collaborators answer during one initialisation: [xnd_exists()],
    [ndt_exists()], [gm_tbl_new(&ctx)] with the context it leaves,
    [Etc.nprocessors], and [NUM2INT], which raises for [None]. *)
Record init_answers := {
  xnd_exists : bool;
  ndt_exists : bool;
  gm_tbl_new : option gm_tbl_t * ndt_context_t;
  nprocessors : VALUE;
  NUM2INT : VALUE -> option Z
}.

Inductive init_error :=
| rb_eLoadError (m : string)
| init_errinfo (ctx : ndt_context_t)     (* seterr(&ctx); raise_error() *)
| NUM2INT_raised.

(** [init_max_threads(void)] *)
Definition init_max_threads (a : init_answers) (p : process)
    : option init_error * process :=
  match NUM2INT a (nprocessors a) with
  | Some n =>
      (None,
       {| proc_dummy := proc_dummy p; proc_table := proc_table p;
          proc_max_threads := n; proc_initialized := proc_initialized p;
          proc_gm_inits := proc_gm_inits p;
          proc_defined := proc_defined p |})
  | None => (Some NUM2INT_raised, p)
  end.

(** Lines 310-332 of [Init_ruby_gumath]: the block under
    [if (!initialized)]. *)
Definition initialize_once (a : init_answers) (p : process)
    : option init_error * process :=
  let p1 :=
    {| proc_dummy := true; proc_table := proc_table p;
       proc_max_threads := proc_max_threads p;
       proc_initialized := proc_initialized p;
       proc_gm_inits := S (proc_gm_inits p);
       proc_defined := proc_defined p |} in
  if negb (xnd_exists a) then (Some (rb_eLoadError "Need XND for gumath."), p1)
  else if negb (ndt_exists a)
  then (Some (rb_eLoadError "Need NDT for gumath."), p1)
  else
    let '(t, ctx) := gm_tbl_new a in
    let p2 :=
      {| proc_dummy := proc_dummy p1; proc_table := t;
         proc_max_threads := proc_max_threads p1;
         proc_initialized := proc_initialized p1;
         proc_gm_inits := proc_gm_inits p1;
         proc_defined := proc_defined p1 |} in
    match t with
    | None => (Some (init_errinfo ctx), p2)
    | Some _ =>
        match init_max_threads a p2 with
        | (Some e, p3) => (Some e, p3)
        | (None, p3) =>
            (None,
             {| proc_dummy := proc_dummy p3; proc_table := proc_table p3;
                proc_max_threads := proc_max_threads p3;
                proc_initialized := true;
                proc_gm_inits := proc_gm_inits p3;
                proc_defined := proc_defined p3 |})
        end
    end.

(** Lines 339-354: the classes, the methods with their arities, and the
    functions of the library. *)
Definition gumath_definitions : list definition :=
  [Def_class "Gumath";
   Def_class_under "Gumath" "GufuncObject";
   Def_singleton_method "Gumath" "unsafe_add_kernel" (-1);
   Def_singleton_method "Gumath" "get_max_threads" 0;
   Def_singleton_method "Gumath" "set_max_threads" 1;
   Def_method "GufuncObject" "call" (-1);
   Def_Init_gumath_functions].

(** [Init_ruby_gumath(void)] *)
Definition Init_ruby_gumath (a : init_answers) (p : process)
    : option init_error * process :=
  let '(e, p) :=
    if negb (proc_initialized p) then initialize_once a p else (None, p) in
  match e with
  | Some e => (Some e, p)
  | None =>
      (None,
       {| proc_dummy := proc_dummy p; proc_table := proc_table p;
          proc_max_threads := proc_max_threads p;
          proc_initialized := proc_initialized p;
          proc_gm_inits := proc_gm_inits p;
          proc_defined := proc_defined p ++ gumath_definitions |})
  end.

(** What [Init_ruby_gumath] keeps true of the class globals. *)
Definition process_ok (p : process) : Prop :=
  (proc_initialized p = true -> is_Some (proc_table p))
  /\ int_range (proc_max_threads p).

(** The world in which the methods run once the file is initialised. *)
Definition process_world (p : process) (tr : list event) : option world :=
  match proc_table p with
  | Some t =>
      Some {| table := t; max_threads := proc_max_threads p; trace := tr |}
  | None => None
  end.

(** [gm_func_t] of libgumath, by its name, and [struct map_args], the
    module being an object with a hash of functions. *)
Record gm_func_t := { func_name : string }.

Record map_args := { module : nat; map_table : gm_tbl_t }.

(** The data of a GufuncObject: its [name] may be NULL after a failed
    [ndt_strdup]. *)
Inductive guobj_data :=
| Named (g : GufuncObject)
| Unnamed (t : gm_tbl_t).

(** The receiver [self] of a method, with what [TypedData_Get_Struct] finds
    behind it: the data of a GufuncObject, or a value that is not typed data
    of [GufuncObject_type], such as the result of
    [Gumath::GufuncObject.new]. *)
Inductive receiver :=
| typed (self_p : guobj_data)
| untyped (self : VALUE).

Coercion Named : GufuncObject >-> guobj_data.
Coercion typed : guobj_data >-> receiver.

(** The Ruby objects that the registration touches: the GufuncObjects, the
    function hash of each module (the instance variable
    [GUMATH_FUNCTION_HASH]), keyed by the name behind the symbol, and the
    errors recorded by [seterr]. *)
Record interp := {
  guobjs : gmap nat guobj_data;
  function_hash : gmap nat (gmap string VALUE);
  recorded : list ndt_context_t
}.

(** [GufuncObject_alloc(const gm_tbl_t *table, const char *name)], given the
    object that [MAKE_GUOBJ] makes and the answer of [ndt_strdup]. *)
Definition GufuncObject_alloc (new_obj : nat)
    (ndt_strdup : string -> option string * ndt_context_t)
    (tbl : gm_tbl_t) (name : string) (r : interp) : VALUE * interp :=
  let guobj := RObject new_obj in
  match ndt_strdup name with
  | (Some n, _) =>
      (guobj,
       {| guobjs := <[new_obj := Named {| guobj_table := tbl;
                                          guobj_name := n |}]> (guobjs r);
          function_hash := function_hash r;
          recorded := recorded r |})
  | (None, ctx) =>
      (guobj,
       {| guobjs := <[new_obj := Unnamed tbl]> (guobjs r);
          function_hash := function_hash r;
          recorded := recorded r ++ [ctx] |})
  end.

(** [add_function(const gm_func_t *f, void *args)]; [None] when the module
    has no hash of functions to store into. *)
Definition add_function (new_obj : nat)
    (ndt_strdup : string -> option string * ndt_context_t)
    (f : gm_func_t) (a : map_args) (r : interp) : option (Z * interp) :=
  let '(func, r) :=
    GufuncObject_alloc new_obj ndt_strdup (map_table a) (func_name f) r in
  if is_NULL func then Some ((-1)%Z, r)
  else
    match function_hash r !! module a with
    | Some func_hash =>
        Some (0%Z,
              {| guobjs := guobjs r;
                 function_hash :=
                   <[module a := <[func_name f := func]> func_hash]>
                     (function_hash r);
                 recorded := recorded r |})
    | None => None
    end.

(** [Init_ruby_gumath] run once for each of the answers, whether it returns
    or raises: after a [LoadError] the extension can be required again, and
    the class globals are as the failed run has left them. *)
Fixpoint run_inits (answers : list init_answers) (p : process) : process :=
  match answers with
  | [] => p
  | a :: rest => run_inits rest (Init_ruby_gumath a p).2
  end.

(** ** Sample collaborators and inputs

    A kernel table with one function, a selector that always answers with a
    given kernel and ApplySpec, an allocator that fails on chosen
    allocations, a kernel run with a given return code and stores, and a
    conversion that fails on chosen buffers. *)

Definition is_allocation (e : event) : bool :=
  match e with Ev_rb_xnd_empty_from_type _ _ => true | _ => false end.

Definition allocations (h : list event) : nat :=
  length (List.filter is_allocation h).

Definition kernel_context (rc : Z) : ndt_context_t :=
  if (rc <? 0)%Z then {| err := 2; msg := "kernel failed" |}
  else NDT_STATIC_CONTEXT.

Definition sample_lib (kernel : gm_kernel_t) (spec : ndt_apply_spec_t)
    (alloc_fails : nat -> bool) (rc : Z) (ws : list (nat * xnd_t))
    (conv_fails : nat -> bool) : collaborators :=
  {| gm_select := fun _ _ _ _ _ _ =>
       (kernel, spec,
        match set kernel with
        | Some _ => NDT_STATIC_CONTEXT
        | None => {| err := 1; msg := "no kernel" |}
        end);
     rb_xnd_empty_from_type := fun h t =>
       if alloc_fails (allocations h) then None
       else Some {| type := Some t; ptr := 100 + allocations h |};
     gm_apply := fun _ _ _ _ => (rc, ws, kernel_context rc);
     gm_apply_thread := fun _ _ _ _ _ _ => (rc, ws, kernel_context rc);
     rb_xnd_from_xnd := fun _ x => if conv_fails (ptr x) then None else Some x
  |}.

Definition abstract_type (n : nat) : ndt_t :=
  {| ndt_id := n; access := Abstract |}.

Definition concrete_type (n : nat) : ndt_t :=
  {| ndt_id := n; access := Concrete |}.

Definition sample_buffer (n : nat) : xnd_t :=
  {| type := Some (concrete_type n); ptr := n |}.

Definition sample_kernel : gm_kernel_t :=
  {| set := Some {| entry_name := "f"; input_signature := "... -> ...";
                    function_pointer := 1 |};
     flag := 0 |}.

Definition sample_self : GufuncObject :=
  {| guobj_table := {["f" := [{| entry_name := "f";
                                 input_signature := "... -> ...";
                                 function_pointer := 1 |}]]};
     guobj_name := "f" |}.

Definition sample_world : world :=
  {| table := guobj_table sample_self; max_threads := 1; trace := [] |}.

(** Four abstract outputs; the kernel leaves buffers 21 to 24 for them. *)
Definition spec_four_abstract : ndt_apply_spec_t :=
  {| flags := 0; nout := 4; nbroadcast := 0; outer_dims := 1;
     out := [abstract_type 1; abstract_type 2; abstract_type 3;
             abstract_type 4];
     broadcast := [] |}.

Definition writes_four : list (nat * xnd_t) :=
  [(1, sample_buffer 21); (2, sample_buffer 22); (3, sample_buffer 23);
   (4, sample_buffer 24)].

(** Two concrete outputs. *)
Definition spec_two_concrete : ndt_apply_spec_t :=
  {| flags := 0; nout := 2; nbroadcast := 0; outer_dims := 1;
     out := [concrete_type 1; concrete_type 2]; broadcast := [] |}.

(** One concrete output, two inputs with broadcast types. *)
Definition spec_broadcast : ndt_apply_spec_t :=
  {| flags := 0; nout := 1; nbroadcast := 2; outer_dims := 3;
     out := [concrete_type 1];
     broadcast := [concrete_type 31; concrete_type 32] |}.

(** A concrete and an abstract output, two inputs with broadcast types. *)
Definition spec_mixed : ndt_apply_spec_t :=
  {| flags := 0; nout := 2; nbroadcast := 2; outer_dims := 3;
     out := [concrete_type 1; abstract_type 2];
     broadcast := [concrete_type 31; concrete_type 32] |}.

(** The conversion of buffer 23, the third output, fails. *)
Definition lib_conversion_fails : collaborators :=
  sample_lib sample_kernel spec_four_abstract (fun _ => false) 0 writes_four
             (Nat.eqb 23).

(** The second allocation fails. *)
Definition lib_allocation_fails : collaborators :=
  sample_lib sample_kernel spec_two_concrete (Nat.eqb 1) 0 [] (fun _ => false).

(** The kernel run fails. *)
Definition lib_apply_fails : collaborators :=
  sample_lib sample_kernel spec_broadcast (fun _ => false) (-1) []
             (fun _ => false).

(** Nothing fails. *)
Definition lib_succeeds : collaborators :=
  sample_lib sample_kernel spec_mixed (fun _ => false) 0
             [(3, sample_buffer 23)] (fun _ => false).

(** The buffer of the first allocation of the sample allocator, for an
    output of type [n]. *)
Definition first_allocated (n : nat) : xnd_t :=
  {| type := Some (concrete_type n); ptr := 100 |}.

(** The stack that the kernel is run on with [spec_broadcast] and two
    arguments that wrap the buffers 10 and 11. *)
Definition broadcast_apply_stack : list xnd_t :=
  [ {| type := Some (concrete_type 31); ptr := 10 |};
    {| type := Some (concrete_type 32); ptr := 11 |};
    first_allocated 1 ] ++ replicate 125 xnd_error.

(** The selector finds no kernel. *)
Definition lib_no_kernel : collaborators :=
  sample_lib {| set := None; flag := 0 |} ndt_apply_spec_empty
             (fun _ => false) 0 [] (fun _ => false).


(** The conversion of buffer 21, the first output, fails. *)
Definition lib_first_conversion_fails : collaborators :=
  sample_lib sample_kernel spec_four_abstract (fun _ => false) 0 writes_four
             (Nat.eqb 21).

(** Answers at initialisation: all is there and there are eight
    processors; and the same without libxnd. *)
Definition sample_NUM2INT (v : VALUE) : option Z :=
  match v with
  | RInteger z =>
      if bool_decide (- 2 ^ 31 <= z < 2 ^ 31)%Z then Some z else None
  | _ => None
  end.

Definition answers_ok : init_answers :=
  {| xnd_exists := true; ndt_exists := true;
     gm_tbl_new := (Some (guobj_table sample_self), NDT_STATIC_CONTEXT);
     nprocessors := RInteger 8; NUM2INT := sample_NUM2INT |}.

Definition answers_no_xnd : init_answers :=
  {| xnd_exists := false; ndt_exists := true;
     gm_tbl_new := (Some (guobj_table sample_self), NDT_STATIC_CONTEXT);
     nprocessors := RInteger 8; NUM2INT := sample_NUM2INT |}.

(** A copy of names that works, one that fails, and a module, object 1,
    with an empty hash of functions. *)
Definition strdup_ok (name : string) : option string * ndt_context_t :=
  (Some name, NDT_STATIC_CONTEXT).

Definition strdup_fails (name : string) : option string * ndt_context_t :=
  (None, {| err := 3; msg := "out of memory" |}).

Definition sample_interp : interp :=
  {| guobjs := ∅; function_hash := {[1 := ∅]}; recorded := [] |}.

Definition sample_map_args : map_args :=
  {| module := 1; map_table := guobj_table sample_self |}.

Definition one_argument : list VALUE := [RXnd (sample_buffer 10)].

Definition two_arguments : list VALUE :=
  [RXnd (sample_buffer 10); RXnd (sample_buffer 11)].

(** ** The methods *)

Section Gumath.

(** [NDT_MAX_ARGS] of ndtypes.h, whether the build has [HAVE_PTHREAD_H],
    the collaborators, and the indeterminate contents of the automatic
    arrays [stack], [in_types] and [result]. *)
Variable NDT_MAX_ARGS : nat.
Variable HAVE_PTHREAD_H : bool.
Variable lib : collaborators.
Variable stack_indet : xnd_t.
Variable in_types_indet : ndt_ptr.
Variable result_indet : VALUE.

(** [spec.out[i]], dereferenced. *)
Definition spec_out (spec : ndt_apply_spec_t) (i : nat) : M ndt_t :=
  match out spec !! i with Some t => mret t | None => undefined end.

(** Lines 145-152: the body of the loop over the arguments. *)
Definition args_body (argv : list VALUE) (i : nat)
    (s : list xnd_t * list ndt_ptr) : M (list xnd_t * list ndt_ptr) :=
  let '(stack, in_types) := s in
  a ← load argv i;
  when (negb (rb_xnd_check_type a))
       (rb_raise (rb_eArgError "Args must be XND."));;
  stack ← store stack i (rb_xnd_const_xnd a);
  x ← load stack i;
  in_types ← store in_types i (type x);
  mret (stack, in_types).

(** Line 154: [GET_GUOBJ(self, self_p)], that is [TypedData_Get_Struct],
    raises [TypeError] when [self] is not typed data of
    [GufuncObject_type]. *)
Definition GET_GUOBJ (self : receiver) : M guobj_data :=
  match self with
  | typed self_p => mret self_p
  | untyped _ => rb_raise rb_eTypeError
  end.

(** Line 156.  [gm_select] looks the function up by [self_p->name], a C
    string: with the NULL that a failed [ndt_strdup] has left there the call
    is undefined. *)
Definition call_gm_select (self_p : guobj_data)
    (in_types : list ndt_ptr) (nin : nat) (stack : list xnd_t)
    : M (gm_kernel_t * ndt_apply_spec_t * ndt_context_t) :=
  match self_p with
  | Named g =>
      h ← history;
      let '(kernel, spec, ctx) :=
        gm_select lib h (guobj_table g) (guobj_name g) in_types nin stack in
      emit (Ev_gm_select (guobj_name g) in_types nin kernel spec);;
      mret (kernel, spec, ctx)
  | Unnamed _ => undefined
  end.

(** Lines 163-165. *)
Definition broadcast_body (spec : ndt_apply_spec_t) (i : nat)
    (stack : list xnd_t) : M (list xnd_t) :=
  x ← load stack i;
  store stack i (set_type x (broadcast spec !! i)).

(** Line 170. *)
Definition call_rb_xnd_empty_from_type (t : ndt_t) : M VALUE :=
  h ← history;
  let x := rb_xnd_empty_from_type lib h t in
  emit (Ev_rb_xnd_empty_from_type t x);;
  mret (wrap_xnd x).

(** Lines 168-182: the body of the loop that plans the outputs. *)
Definition plan_body (spec : ndt_apply_spec_t) (nin : nat) (i : nat)
    (s : list xnd_t * list VALUE) : M (list xnd_t * list VALUE) :=
  let '(stack, result) := s in
  t ← spec_out spec i;
  if ndt_is_concrete t then
    x ← call_rb_xnd_empty_from_type t;
    when (is_NULL x)
         (ndt_apply_spec_clear spec;;
          rb_raise (rb_eNoMemError "could not allocate empty XND object."));;
    result ← store result i x;
    stack ← store stack (nin + i) (rb_xnd_const_xnd x);
    mret (stack, result)
  else
    result ← store result i VNULL;
    stack ← store stack (nin + i) xnd_error;
    mret (stack, result).

(** What a kernel run leaves in the stack: its stores, in order. *)
Definition apply_writes (ws : list (nat * xnd_t)) (stack : list xnd_t)
    : list xnd_t :=
  foldl (fun st '(j, x) => <[j:=x]> st) stack ws.

(** Lines 184-195, up to the test of the return code. *)
Definition call_gm_apply (kernel : gm_kernel_t) (stack : list xnd_t)
    (spec : ndt_apply_spec_t)
    : M (Z * list xnd_t * ndt_context_t) :=
  h ← history;
  mt ← (fun w => (Return (max_threads w), w));
  let '(rc, ws, ctx) :=
    if HAVE_PTHREAD_H
    then gm_apply_thread lib h kernel stack (outer_dims spec) (flags spec) mt
    else gm_apply lib h kernel stack (outer_dims spec) in
  emit (Ev_gm_apply HAVE_PTHREAD_H stack rc);;
  mret (rc, apply_writes ws stack, ctx).

(** Line 200. *)
Definition call_rb_xnd_from_xnd (slot : nat) (x : xnd_t) : M VALUE :=
  h ← history;
  let v := rb_xnd_from_xnd lib h x in
  emit (Ev_rb_xnd_from_xnd slot x v);;
  mret (wrap_xnd v).

(** Lines 204-206, in round [i] of the resolving loop.  Line 199 of that
    round has freed [spec.out[i]], so asking it for its kind is undefined;
    the descriptors freed in the rounds before are below [i + i]. *)
Definition cleanup_body (spec : ndt_apply_spec_t) (nin i : nat)
    (stack : list xnd_t) (k : nat) (_ : unit) : M unit :=
  if decide (k = i) then undefined
  else
    t ← spec_out spec k;
    if ndt_is_abstract t then
      x ← load stack (nin + k);
      xnd_del_buffer (nin + k) x
    else mret ().

(** Lines 197-211: the body of the loop that resolves abstract outputs.
    As in the source, nothing is raised when the conversion fails, and the
    cleanup starts at [k = i + i]. *)
Definition resolve_body (spec : ndt_apply_spec_t) (nin : nat) (i : nat)
    (s : list xnd_t * list VALUE) : M (list xnd_t * list VALUE) :=
  let '(stack, result) := s in
  t ← spec_out spec i;
  if ndt_is_abstract t then
    ndt_del (Some t);;
    x0 ← load stack (nin + i);
    x ← call_rb_xnd_from_xnd (nin + i) x0;
    stack ← store stack (nin + i) xnd_error;
    (if is_NULL x
     then for_loop (i + i) (nout spec - (i + i))
                   (cleanup_body spec nin i stack) ()
     else mret ());;
    result ← store result i x;
    mret (stack, result)
  else mret (stack, result).

(** Lines 224-226. *)
Definition tuple_body (result : list VALUE) (i : nat) (tuple : list VALUE)
    : M (list VALUE) :=
  r ← load result i;
  mret (rb_ary_store tuple i r).

(** [Gumath_GufuncObject_call(int argc, VALUE *argv, VALUE self)] *)
Definition Gumath_GufuncObject_call (argv : list VALUE)
    (self : receiver) : M VALUE :=
  let argc := length argv in
  let ctx := NDT_STATIC_CONTEXT in
  let spec := ndt_apply_spec_empty in
  let stack := replicate NDT_MAX_ARGS stack_indet in
  let in_types := replicate NDT_MAX_ARGS in_types_indet in
  let result := replicate NDT_MAX_ARGS result_indet in
  let nin := argc in
  when (bool_decide (NDT_MAX_ARGS < argc))
       (rb_raise (rb_eArgError "too many arguments."));;
  '(stack, in_types) ← for_loop 0 argc (args_body argv) (stack, in_types);
  self_p ← GET_GUOBJ self;
  '(kernel, spec, ctx) ← call_gm_select self_p in_types argc stack;
  when (bool_decide (set kernel = None))
       (seterr ctx;; raise_error);;
  stack ← (if bool_decide (0 < nbroadcast spec)
           then for_loop 0 argc (broadcast_body spec) stack
           else mret stack);
  '(stack, result) ←
    for_loop 0 (nout spec) (plan_body spec nin) (stack, result);
  '(rc, stack, ctx) ← call_gm_apply kernel stack spec;
  when (bool_decide (rc < 0)%Z)
       (seterr ctx;; raise_error);;
  '(stack, result) ←
    for_loop 0 (nout spec) (resolve_body spec nin) (stack, result);
  (if bool_decide (0 < nbroadcast spec)
   then for_loop 0 nin (fun i _ => ndt_del (broadcast spec !! i)) ()
   else mret ());;
  match nout spec with
  | 0 => mret Qnil
  | 1 => load result 0
  | _ =>
      tuple ← for_loop 0 (nout spec) (tuple_body result)
                       (array_new (nout spec));
      mret (RArray tuple)
  end.

(** [Gumath_s_unsafe_add_kernel(int argc, VALUE *argv, VALUE klass)]: the
    body is empty, control reaches the closing brace at once and no value
    is returned. *)
Definition Gumath_s_unsafe_add_kernel (argv : list VALUE) (klass : VALUE)
    : M (option VALUE) :=
  mret None.

(** [Gumath_s_get_max_threads(VALUE klass)] *)
Definition Gumath_s_get_max_threads (klass : VALUE) : M (option VALUE) :=
  fun w => (Return (Some (INT2NUM (max_threads w))), w).

(** [Gumath_s_set_max_threads(VALUE klass, VALUE threads)]: the body is
    empty as well. *)
Definition Gumath_s_set_max_threads (klass threads : VALUE)
    : M (option VALUE) :=
  mret None.


(** ** Notions used to state the properties *)

(** The world after a run that made the calls [evs] and nothing else. *)
Definition extend (w : world) (evs : list event) : world :=
  {| table := table w; max_threads := max_threads w;
     trace := trace w ++ evs |}.

(** The buffers passed to [xnd_del_buffer], those obtained from
    [rb_xnd_empty_from_type], and the descriptors passed to [ndt_del]. *)
Definition released (evs : list event) : list xnd_t :=
  omap (fun e => match e with Ev_xnd_del_buffer _ x => Some x | _ => None end)
       evs.

Definition allocated (evs : list event) : list xnd_t :=
  omap (fun e => match e with
                 | Ev_rb_xnd_empty_from_type _ x => x
                 | _ => None
                 end) evs.

Definition deleted_types (evs : list event) : list ndt_ptr :=
  omap (fun e => match e with Ev_ndt_del t => Some t | _ => None end) evs.

Definition cleared_specs (evs : list event) : list ndt_apply_spec_t :=
  omap (fun e => match e with
                 | Ev_ndt_apply_spec_clear s => Some s
                 | _ => None
                 end) evs.

Definition is_alloc_ok (e : event) : bool :=
  match e with Ev_rb_xnd_empty_from_type _ (Some _) => true | _ => false end.

Definition is_resolve_event (e : event) : bool :=
  match e with
  | Ev_ndt_del _ | Ev_rb_xnd_from_xnd _ _ _ | Ev_xnd_del_buffer _ _ => true
  | _ => false
  end.


(** [stack] and [in_types] when the loop over the arguments is done. *)
Definition stack_of (argv : list VALUE) : list xnd_t :=
  (rb_xnd_const_xnd <$> argv)
    ++ replicate (NDT_MAX_ARGS - length argv) stack_indet.

Definition in_types_of (argv : list VALUE) : list ndt_ptr :=
  ((fun a => type (rb_xnd_const_xnd a)) <$> argv)
    ++ replicate (NDT_MAX_ARGS - length argv) in_types_indet.

(** What [gm_select] answers to the call of line 156. *)
Definition selection (argv : list VALUE) (self : GufuncObject) (w : world)
    : gm_kernel_t * ndt_apply_spec_t * ndt_context_t :=
  gm_select lib (trace w) (guobj_table self) (guobj_name self)
            (in_types_of argv) (length argv) (stack_of argv).

Definition call_outcome (argv : list VALUE) (self : receiver)
    (w : world) : outcome VALUE :=
  (Gumath_GufuncObject_call argv self w).1.

(** The calls into the collaborators that one call of the method makes. *)
Definition call_events (argv : list VALUE) (self : receiver)
    (w : world) : list event :=
  drop (length (trace w))
    (trace (Gumath_GufuncObject_call argv self w).2).

(** [stack] after lines 162-166 when [spec.nbroadcast > 0]. *)
Definition broadcast_stack (spec : ndt_apply_spec_t) (argc : nat)
    (stack : list xnd_t) : list xnd_t :=
  imap (fun i x => if decide (i < argc)
                   then set_type x (broadcast spec !! i) else x) stack.

(** [stack] as the planning loop finds it. *)
Definition rewritten_stack (spec : ndt_apply_spec_t) (argv : list VALUE)
    : list xnd_t :=
  if bool_decide (0 < nbroadcast spec)
  then broadcast_stack spec (length argv) (stack_of argv)
  else stack_of argv.


(** What the planning loop leaves for an output of type [t]: the stack slot
    [x] and the result slot [r]. *)
Definition planned_slot (evs : list event) (t : ndt_t)
    (x : option xnd_t) (r : option VALUE) : Prop :=
  if ndt_is_concrete t
  then exists b, Ev_rb_xnd_empty_from_type t (Some b) ∈ evs
                 /\ r = Some (RXnd b) /\ x = Some b
  else r = Some VNULL /\ x = Some xnd_error.

(** ** Properties *)

(** What the planning loop of lines 168-182, run from output [i] for [n]
    rounds on [stack] and [result], can end in, [evs] being its calls. *)
Definition plan_post (spec : ndt_apply_spec_t) (nin i n : nat)
    (stack : list xnd_t) (result : list VALUE) (evs : list event)
    (o : outcome (list xnd_t * list VALUE)) : Prop :=
  match o with
  | Return (stack', result') =>
      Forall is_alloc_ok evs
      /\ length stack' = NDT_MAX_ARGS /\ length result' = NDT_MAX_ARGS
      /\ (n = 0 \/ nin + i + n <= NDT_MAX_ARGS)
      /\ (forall j, j < nin + i -> stack' !! j = stack !! j)
      /\ (forall j, j < i -> result' !! j = result !! j)
      /\ (forall j, i <= j < i + n ->
            exists t, out spec !! j = Some t
              /\ planned_slot evs t (stack' !! (nin + j)) (result' !! j))
  | Stop (Raise e) =>
      exists oks t,
        e = rb_eNoMemError "could not allocate empty XND object."
        /\ evs = oks ++ [Ev_rb_xnd_empty_from_type t None;
                         Ev_ndt_apply_spec_clear spec]
        /\ Forall is_alloc_ok oks
  | Stop Undefined => Forall is_alloc_ok evs
  end.

(** A call of [xnd_del_buffer] on a slot from [lo] on. *)
Definition is_release_from (lo : nat) (e : event) : Prop :=
  match e with Ev_xnd_del_buffer slot _ => lo <= slot | _ => False end.

(** What the resolving loop of lines 197-211 leaves in the result slot of an
    output of type [t]: [r] before, [r'] after. *)
Definition resolved_slot (evs : list event) (slot : nat) (t : ndt_t)
    (r r' : option VALUE) : Prop :=
  if ndt_is_abstract t
  then exists x v, Ev_rb_xnd_from_xnd slot x v ∈ evs /\ r' = Some (wrap_xnd v)
  else r' = r.

(** What the resolving loop, run from output [i] for [n] rounds, ends in. *)
Definition resolve_post (spec : ndt_apply_spec_t) (nin i n : nat)
    (result : list VALUE) (evs : list event)
    (o : outcome (list xnd_t * list VALUE)) : Prop :=
  exists stack' result',
    o = Return (stack', result')
    /\ Forall is_resolve_event evs
    /\ deleted_types evs
       = Some <$> List.filter ndt_is_abstract (take n (drop i (out spec)))
    /\ length stack' = NDT_MAX_ARGS /\ length result' = NDT_MAX_ARGS
    /\ (forall j, j < i \/ i + n <= j -> result' !! j = result !! j)
    /\ (forall j, i <= j < i + n ->
          exists t, out spec !! j = Some t
            /\ resolved_slot evs (nin + j) t (result !! j) (result' !! j)).

(** The answer of the kernel run of lines 184-195. *)
Definition apply_answer (h : list event) (kernel : gm_kernel_t)
    (stack : list xnd_t) (spec : ndt_apply_spec_t) (mt : Z)
    : Z * list (nat * xnd_t) * ndt_context_t :=
  if HAVE_PTHREAD_H
  then gm_apply_thread lib h kernel stack (outer_dims spec) (flags spec) mt
  else gm_apply lib h kernel stack (outer_dims spec).

(** Whether the first output is abstract and its conversion fails, [stack]
    and [h] being the stack and the history at the start of the resolving
    loop.  The cleanup of lines 203-207 then starts at [k = 0] and reads the
    descriptor that line 199 has just freed. *)
Definition first_conversion_fails (spec : ndt_apply_spec_t) (nin : nat)
    (stack : list xnd_t) (h : list event) : bool :=
  match nout spec, out spec !! 0, stack !! nin with
  | S _, Some t, Some x =>
      ndt_is_abstract t
      && match rb_xnd_from_xnd lib (h ++ [Ev_ndt_del (Some t)]) x with
         | None => true
         | Some _ => false
         end
  | _, _, _ => false
  end.

(** The calls of the resolving loop up to that read. *)
Definition first_conversion_events (spec : ndt_apply_spec_t) (nin : nat)
    (stack : list xnd_t) : list event :=
  match out spec !! 0, stack !! nin with
  | Some t, Some x => [Ev_ndt_del (Some t); Ev_rb_xnd_from_xnd nin x None]
  | _, _ => []
  end.

(** The calls of lines 213-217. *)
Definition broadcast_dels (spec : ndt_apply_spec_t) (nin : nat)
    : list event :=
  if bool_decide (0 < nbroadcast spec)
  then (fun j => Ev_ndt_del (broadcast spec !! j)) <$> seq 0 nin
  else [].

(** The value of lines 219-229. *)
Definition pack_result (n : nat) (result : list VALUE) : option VALUE :=
  match n with
  | 0 => Some Qnil
  | 1 => result !! 0
  | _ => Some (RArray (take n result))
  end.

(** The ways through [Gumath_GufuncObject_call]: how a call on [argv] and
    [self] in the world [w] ends and which calls it makes on the way. *)
Inductive call_path (argv : list VALUE) (self : GufuncObject) (w : world)
    : outcome VALUE -> list event -> Prop :=
| path_too_many :
    NDT_MAX_ARGS < length argv ->
    call_path argv self w
      (Stop (Raise (rb_eArgError "too many arguments."))) []
| path_not_xnd :
    length argv <= NDT_MAX_ARGS ->
    forallb rb_xnd_check_type argv = false ->
    call_path argv self w
      (Stop (Raise (rb_eArgError "Args must be XND."))) []
| path_no_kernel kernel spec ctx :
    length argv <= NDT_MAX_ARGS ->
    forallb rb_xnd_check_type argv = true ->
    selection argv self w = (kernel, spec, ctx) ->
    set kernel = None ->
    call_path argv self w
      (Stop (Raise (rb_errinfo (Some ctx))))
      [Ev_gm_select (guobj_name self) (in_types_of argv) (length argv)
         kernel spec;
       Ev_seterr ctx]
| path_plan_stopped kernel spec ctx s oks :
    length argv <= NDT_MAX_ARGS ->
    forallb rb_xnd_check_type argv = true ->
    selection argv self w = (kernel, spec, ctx) ->
    set kernel <> None ->
    plan_post spec (length argv) 0 (nout spec) (rewritten_stack spec argv)
      (replicate NDT_MAX_ARGS result_indet) oks (Stop s) ->
    call_path argv self w (Stop s)
      (Ev_gm_select (guobj_name self) (in_types_of argv) (length argv)
         kernel spec :: oks)
| path_apply_failed kernel spec ctx oks stack result rc ws ctx' :
    length argv <= NDT_MAX_ARGS ->
    forallb rb_xnd_check_type argv = true ->
    selection argv self w = (kernel, spec, ctx) ->
    set kernel <> None ->
    plan_post spec (length argv) 0 (nout spec) (rewritten_stack spec argv)
      (replicate NDT_MAX_ARGS result_indet) oks (Return (stack, result)) ->
    apply_answer
      (trace w ++ Ev_gm_select (guobj_name self) (in_types_of argv)
                    (length argv) kernel spec :: oks)
      kernel stack spec (max_threads w) = (rc, ws, ctx') ->
    (rc < 0)%Z ->
    call_path argv self w
      (Stop (Raise (rb_errinfo (Some ctx'))))
      (Ev_gm_select (guobj_name self) (in_types_of argv) (length argv)
         kernel spec
       :: oks ++ [Ev_gm_apply HAVE_PTHREAD_H stack rc; Ev_seterr ctx'])
| path_completed kernel spec ctx oks stack result rc ws ctx' res
    stack' result' v :
    length argv <= NDT_MAX_ARGS ->
    forallb rb_xnd_check_type argv = true ->
    selection argv self w = (kernel, spec, ctx) ->
    set kernel <> None ->
    plan_post spec (length argv) 0 (nout spec) (rewritten_stack spec argv)
      (replicate NDT_MAX_ARGS result_indet) oks (Return (stack, result)) ->
    apply_answer
      (trace w ++ Ev_gm_select (guobj_name self) (in_types_of argv)
                    (length argv) kernel spec :: oks)
      kernel stack spec (max_threads w) = (rc, ws, ctx') ->
    (0 <= rc)%Z ->
    resolve_post spec (length argv) 0 (nout spec) result res
      (Return (stack', result')) ->
    pack_result (nout spec) result' = Some v ->
    call_path argv self w (Return v)
      (Ev_gm_select (guobj_name self) (in_types_of argv) (length argv)
         kernel spec
       :: oks ++ [Ev_gm_apply HAVE_PTHREAD_H stack rc] ++ res
            ++ broadcast_dels spec (length argv))
| path_freed_read kernel spec ctx oks stack result rc ws ctx' :
    length argv <= NDT_MAX_ARGS ->
    forallb rb_xnd_check_type argv = true ->
    selection argv self w = (kernel, spec, ctx) ->
    set kernel <> None ->
    plan_post spec (length argv) 0 (nout spec) (rewritten_stack spec argv)
      (replicate NDT_MAX_ARGS result_indet) oks (Return (stack, result)) ->
    apply_answer
      (trace w ++ Ev_gm_select (guobj_name self) (in_types_of argv)
                    (length argv) kernel spec :: oks)
      kernel stack spec (max_threads w) = (rc, ws, ctx') ->
    (0 <= rc)%Z ->
    first_conversion_fails spec (length argv) (apply_writes ws stack)
      (trace w ++ Ev_gm_select (guobj_name self) (in_types_of argv)
                    (length argv) kernel spec
                  :: oks ++ [Ev_gm_apply HAVE_PTHREAD_H stack rc]) = true ->
    call_path argv self w (Stop Undefined)
      (Ev_gm_select (guobj_name self) (in_types_of argv) (length argv)
         kernel spec
       :: oks ++ [Ev_gm_apply HAVE_PTHREAD_H stack rc]
            ++ first_conversion_events spec (length argv)
                 (apply_writes ws stack)).

(** How a list of result slots is handed back by lines 219-229. *)
Definition pack_values (rs : list VALUE) : VALUE :=
  match rs with
  | [] => Qnil
  | [r] => r
  | _ => RArray rs
  end.

(** Where the value [r] handed back for output [i], of type [t], comes from:
    the allocation of line 170 or the conversion of line 200. *)
Definition output_slot (evs : list event) (nin i : nat) (t : ndt_t)
    (r : option VALUE) : Prop :=
  if ndt_is_concrete t
  then exists b, Ev_rb_xnd_empty_from_type t (Some b) ∈ evs
                 /\ r = Some (RXnd b)
  else exists x v, Ev_rb_xnd_from_xnd (nin + i) x v ∈ evs
                   /\ r = Some (wrap_xnd v).

(** The types asked of [rb_xnd_empty_from_type] and the slots handed to
    [rb_xnd_from_xnd], in the order of the calls. *)
Definition allocation_types (evs : list event) : list ndt_t :=
  omap (fun e => match e with
                 | Ev_rb_xnd_empty_from_type t _ => Some t
                 | _ => None
                 end) evs.

Definition conversion_slots (evs : list event) : list nat :=
  omap (fun e => match e with
                 | Ev_rb_xnd_from_xnd slot _ _ => Some slot
                 | _ => None
                 end) evs.

(** Whether [spec.out[k]] is there and abstract. *)
Definition abstract_at (spec : ndt_apply_spec_t) (k : nat) : bool :=
  match out spec !! k with Some t => ndt_is_abstract t | None => false end.

(** The planning loop and the resolving loop as the call runs them. *)
Definition plan_run (argv : list VALUE) (spec : ndt_apply_spec_t)
    : M (list xnd_t * list VALUE) :=
  for_loop 0 (nout spec) (plan_body spec (length argv))
    (rewritten_stack spec argv, replicate NDT_MAX_ARGS result_indet).

Definition resolve_run (argv : list VALUE) (spec : ndt_apply_spec_t)
    (stack : list xnd_t) (result : list VALUE)
    : M (list xnd_t * list VALUE) :=
  for_loop 0 (nout spec) (resolve_body spec (length argv)) (stack, result).

(** The stages of a call whose arguments have passed the checks and for
    which the selector has found [kernel] and [spec]: [o] and [evs] are the
    outcome of the call and its calls after the one of [gm_select]. *)
Inductive call_stage (argv : list VALUE) (w : world) (kernel : gm_kernel_t)
    (spec : ndt_apply_spec_t) (sel : event)
    : outcome VALUE -> list event -> Prop :=
| stage_plan_stopped s oks :
    plan_run argv spec (extend w [sel]) = (Stop s, extend w (sel :: oks)) ->
    call_stage argv w kernel spec sel (Stop s) oks
| stage_apply_failed oks stack result rc ws ctx' :
    plan_run argv spec (extend w [sel])
      = (Return (stack, result), extend w (sel :: oks)) ->
    apply_answer (trace w ++ sel :: oks) kernel stack spec (max_threads w)
      = (rc, ws, ctx') ->
    (rc < 0)%Z ->
    call_stage argv w kernel spec sel
      (Stop (Raise (rb_errinfo (Some ctx'))))
      (oks ++ [Ev_gm_apply HAVE_PTHREAD_H stack rc; Ev_seterr ctx'])
| stage_completed oks stack result rc ws ctx' res stack' result' v :
    plan_run argv spec (extend w [sel])
      = (Return (stack, result), extend w (sel :: oks)) ->
    apply_answer (trace w ++ sel :: oks) kernel stack spec (max_threads w)
      = (rc, ws, ctx') ->
    (0 <= rc)%Z ->
    resolve_run argv spec (apply_writes ws stack) result
      (extend w (sel :: oks ++ [Ev_gm_apply HAVE_PTHREAD_H stack rc]))
      = (Return (stack', result'),
         extend w (sel :: oks ++ [Ev_gm_apply HAVE_PTHREAD_H stack rc]
                     ++ res)) ->
    pack_result (nout spec) result' = Some v ->
    call_stage argv w kernel spec sel (Return v)
      (oks ++ [Ev_gm_apply HAVE_PTHREAD_H stack rc] ++ res
         ++ broadcast_dels spec (length argv))
| stage_freed_read oks stack result rc ws ctx' :
    plan_run argv spec (extend w [sel])
      = (Return (stack, result), extend w (sel :: oks)) ->
    apply_answer (trace w ++ sel :: oks) kernel stack spec (max_threads w)
      = (rc, ws, ctx') ->
    (0 <= rc)%Z ->
    first_conversion_fails spec (length argv) (apply_writes ws stack)
      (trace w ++ sel :: oks ++ [Ev_gm_apply HAVE_PTHREAD_H stack rc])
      = true ->
    call_stage argv w kernel spec sel (Stop Undefined)
      (oks ++ [Ev_gm_apply HAVE_PTHREAD_H stack rc]
         ++ first_conversion_events spec (length argv)
              (apply_writes ws stack)).

(** What the calls [evs] of the resolving loop, run from output [i] for [n]
    rounds to its end, look like: one conversion per abstract output, in
    order; a release only of an abstract output [k] after the failed
    conversion of an output [j] other than the first with [j + j <= k];
    every such output released; and no failed conversion of the first
    output. *)
Definition resolve_calls (spec : ndt_apply_spec_t) (nin i n : nat)
    (evs : list event) : Prop :=
  conversion_slots evs
    = (fun j => nin + j) <$> List.filter (abstract_at spec) (seq i n)
  /\ (forall slot x, Ev_xnd_del_buffer slot x ∈ evs ->
        exists k j x0,
          slot = nin + k /\ k < nout spec /\ abstract_at spec k = true
          /\ i <= j < i + n /\ 0 < j /\ j + j <= k
          /\ Ev_rb_xnd_from_xnd (nin + j) x0 None ∈ evs)
  /\ (forall j x0 k,
        Ev_rb_xnd_from_xnd (nin + j) x0 None ∈ evs ->
        0 < j -> j + j <= k < nout spec -> abstract_at spec k = true ->
        exists x, Ev_xnd_del_buffer (nin + k) x ∈ evs)
  /\ (forall x0, Ev_rb_xnd_from_xnd nin x0 None ∉ evs).

(** The ApplySpecs that [gm_select] has answered with and the return codes
    of the kernel runs, in the order of the calls. *)
Definition selected_specs (evs : list event) : list ndt_apply_spec_t :=
  omap (fun e => match e with
                 | Ev_gm_select _ _ _ _ spec => Some spec
                 | _ => None
                 end) evs.

Definition kernel_runs (evs : list event) : list Z :=
  omap (fun e => match e with Ev_gm_apply _ _ rc => Some rc | _ => None end)
       evs.

(** A call other than a conversion or a release of a buffer. *)
Definition no_resolve_call (e : event) : Prop :=
  match e with
  | Ev_rb_xnd_from_xnd _ _ _ | Ev_xnd_del_buffer _ _ => False
  | _ => True
  end.

Lemma extend_nil w : extend w [] = w.
Proof. destruct w; unfold extend; simpl. by rewrite app_nil_r. Qed.

Lemma extend_extend w a b : extend (extend w a) b = extend w (a ++ b).
Proof. unfold extend; simpl. by rewrite <- app_assoc. Qed.

Lemma log_extend e w : log e w = extend w [e].
Proof. reflexivity. Qed.

Lemma drop_extend w evs : drop (length (trace w)) (trace (extend w evs)) = evs.
Proof. simpl. by rewrite drop_app_length. Qed.

Lemma bind_run {A B} (m : M A) (f : A -> M B) w :
  (m ≫= f) w =
  match m w with
  | (Return a, w') => f a w'
  | (Stop s, w') => (Stop s, w')
  end.
Proof. reflexivity. Qed.

Lemma ret_run {A} (a : A) w : (mret a : M A) w = (Return a, w).
Proof. reflexivity. Qed.

Lemma when_false m w : when false m w = (Return (), w).
Proof. reflexivity. Qed.

Lemma load_lookup {A} (a : list A) i x w :
  a !! i = Some x -> load a i w = (Return x, w).
Proof. unfold load. by intros ->. Qed.

Lemma store_lt {A} (a : list A) i x w :
  i < length a -> store a i x w = (Return (<[i:=x]> a), w).
Proof. unfold store. intros. by rewrite decide_True. Qed.

Lemma store_ge {A} (a : list A) i x w :
  length a <= i -> store a i x w = (Stop Undefined, w).
Proof. unfold store. intros. rewrite decide_False; [done | lia]. Qed.


(** Runs the monadic code as far as the known answers allow. *)
Ltac mrun :=
  repeat first
    [ rewrite bind_run
    | rewrite ret_run
    | progress cbn beta iota zeta delta
        [undefined rb_raise emit history raise_error seterr ndt_del
         ndt_apply_spec_clear xnd_del_buffer when] ].

(** The loop over the arguments, from argument [i] on. *)
Lemma args_loop_from argv n : forall i w,
  i + n = length argv -> length argv <= NDT_MAX_ARGS ->
  for_loop i n (args_body argv)
    ((rb_xnd_const_xnd <$> take i argv)
       ++ replicate (NDT_MAX_ARGS - i) stack_indet,
     ((fun a => type (rb_xnd_const_xnd a)) <$> take i argv)
       ++ replicate (NDT_MAX_ARGS - i) in_types_indet) w
  = if forallb rb_xnd_check_type (drop i argv)
    then (Return (stack_of argv, in_types_of argv), w)
    else (Stop (Raise (rb_eArgError "Args must be XND.")), w).
Proof.
  induction n as [|n IH]; intros i w Hi Hmax.
  - assert (i = length argv) as -> by lia.
    rewrite drop_all, firstn_all. reflexivity.
  - destruct (lookup_lt_is_Some_2 argv i) as [a Ha]; [lia|].
    rewrite (drop_S _ _ _ Ha). simpl.
    mrun. rewrite (load_lookup _ _ _ _ Ha). mrun.
    destruct (rb_xnd_check_type a) eqn:Hck; simpl; [|reflexivity].
    assert (NDT_MAX_ARGS - i = S (NDT_MAX_ARGS - S i)) as Hs by lia.
    assert (length (rb_xnd_const_xnd <$> take i argv) = i) as Hl1.
    { rewrite length_fmap, length_take. lia. }
    assert (length ((fun a => type (rb_xnd_const_xnd a)) <$> take i argv) = i)
      as Hl2.
    { rewrite length_fmap, length_take. lia. }
    mrun.
    rewrite store_lt by (rewrite length_app, length_replicate; lia).
    rewrite Hs. simpl replicate.
    rewrite insert_app_r_alt by lia. rewrite Hl1, Nat.sub_diag. simpl insert.
    mrun. rewrite (load_lookup _ _ (rb_xnd_const_xnd a))
      by (by apply list_lookup_middle).
    mrun. rewrite store_lt by (rewrite length_app; simpl; lia).
    rewrite insert_app_r_alt by lia. rewrite Hl2, Nat.sub_diag. simpl insert.
    mrun.
    specialize (IH (S i) w ltac:(lia) Hmax).
    rewrite (take_S_r _ _ _ Ha), !fmap_app, <- !app_assoc in IH.
    simpl in IH. simpl. exact IH.
Qed.

Lemma args_loop argv w :
  length argv <= NDT_MAX_ARGS ->
  for_loop 0 (length argv) (args_body argv)
    (replicate NDT_MAX_ARGS stack_indet,
     replicate NDT_MAX_ARGS in_types_indet) w
  = if forallb rb_xnd_check_type argv
    then (Return (stack_of argv, in_types_of argv), w)
    else (Stop (Raise (rb_eArgError "Args must be XND.")), w).
Proof.
  intros Hmax.
  pose proof (args_loop_from argv (length argv) 0 w eq_refl Hmax) as H.
  rewrite Nat.sub_0_r in H. exact H.
Qed.

Lemma length_stack_of argv :
  length argv <= NDT_MAX_ARGS -> length (stack_of argv) = NDT_MAX_ARGS.
Proof.
  intros. unfold stack_of.
  rewrite length_app, length_fmap, length_replicate. lia.
Qed.

Lemma lookup_stack_of argv i a :
  argv !! i = Some a -> stack_of argv !! i = Some (rb_xnd_const_xnd a).
Proof.
  intros Ha. unfold stack_of.
  rewrite lookup_app_l by (rewrite length_fmap; by eapply lookup_lt_Some).
  by rewrite list_lookup_fmap, Ha.
Qed.

Lemma lookup_in_types_of argv i a :
  argv !! i = Some a ->
  in_types_of argv !! i = Some (type (rb_xnd_const_xnd a)).
Proof.
  intros Ha. unfold in_types_of.
  rewrite lookup_app_l by (rewrite length_fmap; by eapply lookup_lt_Some).
  by rewrite list_lookup_fmap, Ha.
Qed.

(** The loop of lines 163-165, from argument [i] on. *)
Lemma broadcast_loop_from spec argc stack n : forall i st w,
  i + n = argc -> argc <= length stack ->
  (forall j, st !! j =
     (fun x => if decide (j < i)
               then set_type x (broadcast spec !! j) else x) <$> stack !! j) ->
  for_loop i n (broadcast_body spec) st w
  = (Return (broadcast_stack spec argc stack), w).
Proof.
  induction n as [|n IH]; intros i st w Hi Hlen Hst.
  - simpl. mrun. do 2 f_equal. apply list_eq. intros j.
    unfold broadcast_stack. rewrite list_lookup_imap, Hst.
    assert (i = argc) as -> by lia. done.
  - simpl. mrun.
    destruct (lookup_lt_is_Some_2 stack i) as [x Hx]; [lia|].
    assert (st !! i = Some x) as Hsi.
    { rewrite Hst, Hx. simpl. rewrite decide_False; [done|lia]. }
    unfold broadcast_body at 1. mrun. rewrite (load_lookup _ _ _ _ Hsi). mrun.
    rewrite store_lt by (by eapply lookup_lt_Some).
    apply IH; [lia|done|]. intros j.
    destruct (decide (j = i)) as [->|Hne].
    + rewrite list_lookup_insert_eq by (by eapply lookup_lt_Some).
      rewrite Hx. simpl. rewrite decide_True; [done|lia].
    + rewrite list_lookup_insert_ne by done. rewrite Hst.
      destruct (stack !! j); simpl; [|done].
      destruct (decide (j < i)), (decide (j < S i)); try done; lia.
Qed.

Lemma broadcast_loop spec argc stack w :
  argc <= length stack ->
  for_loop 0 argc (broadcast_body spec) stack w
  = (Return (broadcast_stack spec argc stack), w).
Proof.
  intros Hlen. apply broadcast_loop_from; [done|done|].
  intros j. by destruct (stack !! j).
Qed.

Lemma planned_slot_mono evs evs' t x r :
  planned_slot evs t x r -> evs ⊆ evs' -> planned_slot evs' t x r.
Proof.
  unfold planned_slot. destruct (ndt_is_concrete t); [|done].
  intros (b & Hb & ? & ?) Hsub. exists b. split; [by apply Hsub|done].
Qed.

Lemma for_loop_S {St} i n (body : nat -> St -> M St) s w :
  for_loop i (S n) body s w =
  match body i s w with
  | (Return s', w') => for_loop (S i) n body s' w'
  | (Stop x, w') => (Stop x, w')
  end.
Proof. reflexivity. Qed.

(** One round of the planning loop. *)
Lemma plan_body_run spec nin i stack result w o w' :
  length stack = NDT_MAX_ARGS -> length result = NDT_MAX_ARGS ->
  plan_body spec nin i (stack, result) w = (o, w') ->
  exists evs, w' = extend w evs /\ plan_post spec nin i 1 stack result evs o.
Proof.
  intros Hls Hlr. unfold plan_body, spec_out.
  destruct (out spec !! i) as [t|] eqn:Ht; mrun.
  2:{ intros [= <- <-]. exists []. rewrite extend_nil.
      split; [done|constructor]. }
  destruct (ndt_is_concrete t) eqn:Hc.
  - unfold call_rb_xnd_empty_from_type, history, emit. mrun.
    destruct (rb_xnd_empty_from_type lib (trace w) t) as [b|] eqn:Hb;
      simpl; mrun.
    + unfold store.
      destruct (decide (i < length result)); mrun.
      2:{ intros [= <- <-]. eexists [_]. split; [done|]. simpl.
          by repeat constructor. }
      destruct (decide (nin + i < length stack)); mrun.
      2:{ intros [= <- <-]. eexists [_]. split; [done|]. simpl.
          by repeat constructor. }
      intros [= <- <-]. eexists [_]. split; [done|]. simpl.
      rewrite !length_insert.
      split; [by repeat constructor|]. split; [done|]. split; [done|].
      split; [right; lia|].
      split; [intros j ?; apply list_lookup_insert_ne; lia|].
      split; [intros j ?; apply list_lookup_insert_ne; lia|].
      intros j ?. assert (j = i) as -> by lia. exists t. split; [done|].
      unfold planned_slot. rewrite Hc. exists b.
      rewrite !list_lookup_insert_eq by lia.
      split; [apply list_elem_of_singleton; done|done].
    + unfold ndt_apply_spec_clear, emit, rb_raise. mrun.
      intros [= <- <-]. rewrite !log_extend, extend_extend.
      eexists. split; [done|]. simpl.
      exists [], t. by repeat constructor.
  - unfold store.
    destruct (decide (i < length result)); mrun.
    2:{ intros [= <- <-]. exists []. rewrite extend_nil.
      split; [done|constructor]. }
    destruct (decide (nin + i < length stack)); mrun.
    2:{ intros [= <- <-]. exists []. rewrite extend_nil.
      split; [done|constructor]. }
    intros [= <- <-]. exists []. rewrite extend_nil. split; [done|]. simpl.
    rewrite !length_insert.
    split; [constructor|]. split; [done|]. split; [done|].
    split; [right; lia|].
    split; [intros j ?; apply list_lookup_insert_ne; lia|].
    split; [intros j ?; apply list_lookup_insert_ne; lia|].
    intros j ?. assert (j = i) as -> by lia. exists t. split; [done|].
    unfold planned_slot. rewrite Hc.
    by rewrite !list_lookup_insert_eq by lia.
Qed.

(** The planning loop, from output [i] on. *)
Lemma plan_loop_from spec nin n : forall i stack result w o w',
  length stack = NDT_MAX_ARGS -> length result = NDT_MAX_ARGS ->
  for_loop i n (plan_body spec nin) (stack, result) w = (o, w') ->
  exists evs, w' = extend w evs /\ plan_post spec nin i n stack result evs o.
Proof.
  induction n as [|n IH]; intros i stack result w o w' Hls Hlr Hrun.
  - inversion Hrun; subst. exists []. rewrite extend_nil.
    split; [done|]. simpl. repeat split; auto. intros j ?; lia.
  - rewrite for_loop_S in Hrun.
    destruct (plan_body spec nin i (stack, result) w) as [o1 w1] eqn:Hb.
    apply plan_body_run in Hb as (ev1 & -> & H1); [|done..].
    destruct o1 as [[stack1 result1]|s1].
    + destruct H1 as (Hok1 & Hls1 & Hlr1 & Hb1 & Hst1 & Hre1 & Hsl1).
      apply IH in Hrun as (ev2 & -> & H2); [|done..].
      exists (ev1 ++ ev2). rewrite extend_extend. split; [done|].
      destruct o as [[stack' result']|[e|]]; simpl in *.
      * destruct H2 as (Hok2 & Hls2 & Hlr2 & Hb2 & Hst2 & Hre2 & Hsl2).
        split; [by apply Forall_app|]. split; [done|]. split; [done|].
        split; [right; lia|].
        split; [intros j ?; rewrite Hst2, Hst1 by lia; done|].
        split; [intros j ?; rewrite Hre2, Hre1 by lia; done|].
        intros j Hj. destruct (decide (j = i)) as [->|Hne].
        -- destruct (Hsl1 i ltac:(lia)) as (t & Ht & Hp). exists t.
           split; [done|]. rewrite Hst2, Hre2 by lia.
           eapply planned_slot_mono; [done|].
           intros e ?. apply elem_of_app. by left.
        -- destruct (Hsl2 j ltac:(lia)) as (t & Ht & Hp). exists t.
           split; [done|]. eapply planned_slot_mono; [done|].
           intros e ?. apply elem_of_app. by right.
      * destruct H2 as (oks & t & -> & -> & Hoks).
        exists (ev1 ++ oks), t. rewrite <- app_assoc.
        split; [done|]. split; [done|]. by apply Forall_app.
      * by apply Forall_app.
    + inversion Hrun; subst. exists ev1. split; [done|].
      destruct s1; exact H1.
Qed.

(** The inner loop of lines 203-207 only releases, and only from its first
    slot on. *)
Lemma cleanup_loop spec nin i stack m : forall k w,
  i < k ->
  m = 0 \/ k + m <= nout spec ->
  (forall j, j < nout spec -> is_Some (out spec !! j)) ->
  nin + nout spec <= length stack ->
  exists evs,
    for_loop k m (cleanup_body spec nin i stack) () w
      = (Return (), extend w evs)
    /\ Forall (is_release_from (nin + k)) evs.
Proof.
  induction m as [|m IH]; intros k w Hik Hk Hout Hlen.
  - exists []. rewrite extend_nil. split; [done|constructor].
  - rewrite for_loop_S. unfold cleanup_body at 1, spec_out.
    rewrite decide_False by lia.
    destruct (Hout k ltac:(lia)) as [t Ht]. rewrite Ht. mrun.
    destruct (ndt_is_abstract t).
    + destruct (lookup_lt_is_Some_2 stack (nin + k)) as [x Hx]; [lia|].
      mrun. rewrite (load_lookup _ _ _ _ Hx). mrun. rewrite log_extend.
      destruct (IH (S k) (extend w [Ev_xnd_del_buffer (nin + k) x])
                  ltac:(lia) ltac:(lia) Hout Hlen) as (evs' & Hrun' & Hev').
      rewrite Hrun', extend_extend. eexists. split; [done|].
      constructor; [simpl; lia|].
      eapply Forall_impl; [exact Hev'|]. intros [] ?; simpl in *; lia.
    + destruct (IH (S k) w ltac:(lia) ltac:(lia) Hout Hlen)
        as (evs & Hrun & Hev).
      mrun. rewrite Hrun. exists evs. split; [done|].
      eapply Forall_impl; [exact Hev|]. intros [] ?; simpl in *; lia.
Qed.

Lemma release_is_resolve lo evs :
  Forall (is_release_from lo) evs ->
  Forall is_resolve_event evs /\ deleted_types evs = []
  /\ forall slot x v, Ev_rb_xnd_from_xnd slot x v ∉ evs.
Proof.
  induction 1 as [|e evs He _ (IH1 & IH2 & IH3)].
  - split; [constructor|]. split; [done|]. intros ??? H. inversion H.
  - destruct e; try done. split; [by constructor|]. split; [done|].
    intros ??? H. inversion H; subst. by eapply IH3.
Qed.

Lemma deleted_types_app evs evs' :
  deleted_types (evs ++ evs') = deleted_types evs ++ deleted_types evs'.
Proof. apply omap_app. Qed.

(** Writes the history of the conversion that follows [ndt_del(t)] in one
    way. *)
Ltac same_history w t x :=
  repeat match goal with
  | |- context [rb_xnd_from_xnd _ ?h x] =>
      progress change h with (trace w ++ [Ev_ndt_del (Some t)])
  end.

(** The conversion of a round, unless it is that of the first output when
    that one fails. *)
Lemma conversion_of_round spec nin i stack w t x :
  i < nout spec ->
  out spec !! i = Some t -> ndt_is_abstract t = true ->
  stack !! (nin + i) = Some x ->
  0 < i \/ first_conversion_fails spec nin stack (trace w) = false ->
  0 < i \/ rb_xnd_from_xnd lib (trace w ++ [Ev_ndt_del (Some t)]) x <> None.
Proof.
  intros Hi Ht Ha Hx [?|Hf]; [by left|].
  destruct (decide (i = 0)) as [->|]; [|left; lia]. right.
  unfold first_conversion_fails in Hf. rewrite Nat.add_0_r in Hx.
  rewrite Ht, Hx, Ha in Hf. destruct (nout spec); [lia|].
  by destruct (rb_xnd_from_xnd lib _ x).
Qed.

(** One round of the resolving loop. *)
Lemma resolve_body_run spec nin i stack result w :
  i < nout spec ->
  (forall j, j < nout spec -> is_Some (out spec !! j)) ->
  nin + nout spec <= NDT_MAX_ARGS ->
  length stack = NDT_MAX_ARGS -> length result = NDT_MAX_ARGS ->
  0 < i \/ first_conversion_fails spec nin stack (trace w) = false ->
  exists evs o,
    resolve_body spec nin i (stack, result) w = (o, extend w evs)
    /\ resolve_post spec nin i 1 result evs o.
Proof.
  intros Hi Hout Hmax Hls Hlr Hfirst. unfold resolve_body, spec_out.
  destruct (Hout i Hi) as [t Ht]. rewrite Ht. mrun.
  assert (take 1 (drop i (out spec)) = [t]) as Htk.
  { rewrite (drop_S _ _ _ Ht). simpl. by rewrite take_0. }
  destruct (ndt_is_abstract t) eqn:Ha.
  - mrun. destruct (lookup_lt_is_Some_2 stack (nin + i)) as [x Hx]; [lia|].
    rewrite (load_lookup _ _ _ _ Hx). unfold call_rb_xnd_from_xnd. mrun.
    pose proof (conversion_of_round _ _ _ _ _ _ _ Hi Ht Ha Hx Hfirst) as Hv.
    revert Hv. same_history w t x.
    generalize (rb_xnd_from_xnd lib (trace w ++ [Ev_ndt_del (Some t)]) x).
    intros v Hv.
    rewrite store_lt by lia. mrun.
    rewrite !log_extend, extend_extend. simpl app.
    set (ev0 := [Ev_ndt_del (Some t); Ev_rb_xnd_from_xnd (nin + i) x v]).
    assert (exists cl,
      (if is_NULL (wrap_xnd v)
       then for_loop (i + i) (nout spec - (i + i))
              (cleanup_body spec nin i (<[nin + i:=xnd_error]> stack)) ()
       else mret ()) (extend w ev0) = (Return (), extend w (ev0 ++ cl))
      /\ Forall (is_release_from (nin + (i + i))) cl) as (cl & -> & Hcl).
    { destruct v; simpl.
      - exists []. split; [done|constructor].
      - destruct Hv as [Hpos|?]; [|done].
        destruct (cleanup_loop spec nin i (<[nin + i:=xnd_error]> stack)
                    (nout spec - (i + i)) (i + i) (extend w ev0))
          as (cl & Hrun & Hcl); [lia|lia|done|rewrite length_insert; lia|].
        exists cl. by rewrite Hrun, extend_extend. }
    mrun. rewrite store_lt by lia. mrun.
    apply release_is_resolve in Hcl as (Hcl1 & Hcl2 & Hcl3).
    eexists _, _. split; [done|].
    eexists _, _. split; [done|].
    split; [by repeat constructor|].
    split; [rewrite deleted_types_app, Hcl2, Htk; simpl; by rewrite Ha|].
    rewrite !length_insert.
    split; [done|]. split; [done|].
    split; [intros j ?; apply list_lookup_insert_ne; lia|].
    intros j ?. assert (j = i) as -> by lia. exists t. split; [done|].
    unfold resolved_slot. rewrite Ha. exists x, v.
    rewrite list_lookup_insert_eq by lia. split; [|done].
    apply elem_of_app. left. apply list_elem_of_In. simpl. auto.
  - exists [], (Return (stack, result)). rewrite extend_nil. split; [done|].
    eexists _, _. split; [done|].
    split; [constructor|].
    split; [rewrite Htk; simpl; by rewrite Ha|].
    split; [done|]. split; [done|]. split; [done|].
    intros j ?. assert (j = i) as -> by lia. exists t. split; [done|].
    unfold resolved_slot. by rewrite Ha.
Qed.

Lemma resolved_slot_mono evs evs' slot t r r' :
  resolved_slot evs slot t r r' -> evs ⊆ evs' ->
  resolved_slot evs' slot t r r'.
Proof.
  unfold resolved_slot. destruct (ndt_is_abstract t); [|done].
  intros (x & v & Hin & ?) Hsub. exists x, v. split; [by apply Hsub|done].
Qed.

(** The resolving loop, from output [i] on: it runs to its end unless the
    conversion of the first output fails. *)
Lemma resolve_loop_from spec nin n : forall i stack result w,
  i + n <= nout spec ->
  (forall j, j < nout spec -> is_Some (out spec !! j)) ->
  n = 0 \/ nin + nout spec <= NDT_MAX_ARGS ->
  length stack = NDT_MAX_ARGS -> length result = NDT_MAX_ARGS ->
  0 < i \/ first_conversion_fails spec nin stack (trace w) = false ->
  exists evs o,
    for_loop i n (resolve_body spec nin) (stack, result) w
      = (o, extend w evs)
    /\ resolve_post spec nin i n result evs o.
Proof.
  induction n as [|n IH]; intros i stack result w Hi Hout Hmax Hls Hlr Hfirst.
  - exists [], (Return (stack, result)). rewrite extend_nil. split; [done|].
    exists stack, result. rewrite take_0.
    repeat split; auto; try constructor. intros j ?; lia.
  - destruct Hmax as [|Hmax]; [done|].
    destruct (resolve_body_run spec nin i stack result w)
      as (ev1 & o1 & Hb & (stack1 & result1 & -> & Hr1 & Hd1 & Hls1 & Hlr1
                           & Hre1 & Hsl1)); [lia|done..|].
    destruct (IH (S i) stack1 result1 (extend w ev1))
      as (ev2 & o2 & Hrun & (stack2 & result2 & -> & Hr2 & Hd2 & Hls2 & Hlr2
                             & Hre2 & Hsl2));
      [lia|done|by right|done|done|left; lia|].
    rewrite for_loop_S, Hb, Hrun, extend_extend.
    eexists _, _. split; [done|]. exists stack2, result2.
    split; [done|]. split; [by apply Forall_app|].
    destruct (Hout i ltac:(lia)) as [t Ht].
    split.
    { rewrite deleted_types_app, Hd1, Hd2, (drop_S _ _ _ Ht).
      simpl. destruct (ndt_is_abstract t); done. }
    split; [done|]. split; [done|].
    split; [intros j ?; rewrite Hre2, Hre1 by lia; done|].
    intros j Hj. destruct (decide (j = i)) as [->|Hne].
    + destruct (Hsl1 i ltac:(lia)) as (t' & Ht' & Hp). exists t'.
      split; [done|]. rewrite Hre2 by lia.
      eapply resolved_slot_mono; [done|].
      intros e ?. apply elem_of_app. by left.
    + destruct (Hsl2 j ltac:(lia)) as (t' & Ht' & Hp). exists t'.
      split; [done|]. rewrite <- (Hre1 j) by lia.
      eapply resolved_slot_mono; [done|].
      intros e ?. apply elem_of_app. by right.
Qed.

(** The resolving loop when the conversion of the first output fails: the
    cleanup reads the descriptor that has just been freed. *)
Lemma resolve_freed_read spec nin stack result w :
  length stack = NDT_MAX_ARGS ->
  first_conversion_fails spec nin stack (trace w) = true ->
  for_loop 0 (nout spec) (resolve_body spec nin) (stack, result) w
  = (Stop Undefined, extend w (first_conversion_events spec nin stack)).
Proof.
  intros Hls. unfold first_conversion_fails, first_conversion_events.
  destruct (nout spec) as [|n] eqn:Hn; [done|].
  destruct (out spec !! 0) as [t|] eqn:Ht; [|done].
  destruct (stack !! nin) as [x|] eqn:Hx; [|done].
  destruct (ndt_is_abstract t) eqn:Ha; [|done]. cbn [andb].
  destruct (rb_xnd_from_xnd lib (trace w ++ [Ev_ndt_del (Some t)]) x)
    eqn:Hv; [done|]. intros _.
  rewrite for_loop_S. unfold resolve_body, spec_out.
  rewrite Ht. mrun. rewrite Ha. mrun. rewrite Nat.add_0_r.
  rewrite (load_lookup _ _ _ _ Hx). unfold call_rb_xnd_from_xnd. mrun.
  same_history w t x. rewrite Hv. simpl wrap_xnd.
  rewrite store_lt by (by eapply lookup_lt_Some). mrun.
  rewrite !log_extend, extend_extend. cbn [is_NULL app].
  rewrite Nat.sub_0_r, Hn, for_loop_S. unfold cleanup_body at 1.
  rewrite decide_True by done. by mrun.
Qed.

(** The loop of lines 214-216. *)
Lemma free_loop spec n : forall i w,
  for_loop i n (fun i _ => ndt_del (broadcast spec !! i)) () w
  = (Return (),
     extend w ((fun j => Ev_ndt_del (broadcast spec !! j)) <$> seq i n)).
Proof.
  induction n as [|n IH]; intros i w.
  - simpl. by rewrite extend_nil.
  - rewrite for_loop_S. mrun. rewrite log_extend, IH, extend_extend. done.
Qed.

(** The loop of lines 224-226, from element [i] on. *)
Lemma tuple_loop_from result n : forall i w,
  i + n <= length result ->
  for_loop i n (tuple_body result) (take i result) w
  = (Return (take (i + n) result), w).
Proof.
  induction n as [|n IH]; intros i w Hi.
  - simpl. by rewrite Nat.add_0_r.
  - rewrite for_loop_S. unfold tuple_body at 1.
    destruct (lookup_lt_is_Some_2 result i) as [r Hr]; [lia|].
    mrun. rewrite (load_lookup _ _ _ _ Hr). mrun.
    assert (rb_ary_store (take i result) i r = take (S i) result) as ->.
    { unfold rb_ary_store. rewrite length_take, decide_False by lia.
      replace (i - i `min` length result) with 0 by lia. simpl.
      by rewrite (take_S_r _ _ _ Hr). }
    rewrite IH by lia. do 3 f_equal. lia.
Qed.

Lemma errinfo_seterr tr ctx : errinfo (tr ++ [Ev_seterr ctx]) = Some ctx.
Proof.
  induction tr as [|e tr IH]; simpl; [done|]. by rewrite IH.
Qed.

Lemma errinfo_app tr tr' :
  errinfo (tr ++ tr') =
  match errinfo tr' with Some c => Some c | None => errinfo tr end.
Proof.
  induction tr as [|e tr IH]; simpl.
  - by destruct (errinfo tr').
  - rewrite IH. by destruct (errinfo tr').
Qed.

Lemma length_apply_writes ws : forall stack,
  length (apply_writes ws stack) = length stack.
Proof.
  unfold apply_writes. induction ws as [|[j x] ws IH]; intros stack; [done|].
  simpl. by rewrite IH, length_insert.
Qed.

Lemma length_rewritten_stack spec argv :
  length argv <= NDT_MAX_ARGS ->
  length (rewritten_stack spec argv) = NDT_MAX_ARGS.
Proof.
  intros. unfold rewritten_stack, broadcast_stack.
  destruct (bool_decide _); rewrite ?length_imap; by apply length_stack_of.
Qed.

Lemma rewrite_run spec argv w :
  length argv <= NDT_MAX_ARGS ->
  (if bool_decide (0 < nbroadcast spec)
   then for_loop 0 (length argv) (broadcast_body spec) (stack_of argv)
   else mret (stack_of argv)) w
  = (Return (rewritten_stack spec argv), w).
Proof.
  intros. unfold rewritten_stack. destruct (bool_decide _); [|done].
  apply broadcast_loop. rewrite length_stack_of; done.
Qed.

Lemma first_conversion_events_are spec nin stack e :
  e ∈ first_conversion_events spec nin stack ->
  (exists t, e = Ev_ndt_del (Some t))
  \/ (exists x, stack !! nin = Some x /\ e = Ev_rb_xnd_from_xnd nin x None).
Proof.
  unfold first_conversion_events.
  destruct (out spec !! 0) as [t|]; [|by intros ?%not_elem_of_nil].
  destruct (stack !! nin) as [x|]; [|by intros ?%not_elem_of_nil].
  intros [->|[->|?%not_elem_of_nil]%elem_of_cons]%elem_of_cons; [| |done].
  - left. by eexists.
  - right. by eexists.
Qed.

(** Every call goes one of the ways of [call_path]. *)
Lemma call_run argv (self : GufuncObject) w :
  exists o evs,
    Gumath_GufuncObject_call argv self w = (o, extend w evs)
    /\ call_path argv self w o evs.
Proof.
  unfold Gumath_GufuncObject_call. mrun.
  destruct (bool_decide (NDT_MAX_ARGS < length argv)) eqn:Hargc.
  { apply bool_decide_eq_true in Hargc. mrun.
    eexists _, []. rewrite extend_nil. split; [done|].
    by apply path_too_many. }
  apply bool_decide_eq_false in Hargc.
  assert (length argv <= NDT_MAX_ARGS) as Hmax by lia. clear Hargc.
  mrun. rewrite args_loop by done.
  destruct (forallb rb_xnd_check_type argv) eqn:Hxnd.
  2:{ eexists _, []. rewrite extend_nil. split; [done|].
      by apply path_not_xnd. }
  mrun. unfold GET_GUOBJ, call_gm_select. mrun.
  destruct (gm_select lib (trace w) (guobj_table self) (guobj_name self)
              (in_types_of argv) (length argv) (stack_of argv))
    as [[kernel spec] ctx] eqn:Hsel.
  mrun. rewrite log_extend.
  destruct (bool_decide (set kernel = None)) eqn:Hset.
  { apply bool_decide_eq_true in Hset. mrun.
    rewrite log_extend, extend_extend. simpl.
    rewrite errinfo_app. cbn [errinfo].
    eexists _, _. split; [done|]. by eapply path_no_kernel. }
  apply bool_decide_eq_false in Hset.
  mrun. rewrite rewrite_run by done. mrun.
  match goal with
  | |- context [for_loop 0 (nout spec) (plan_body spec (length argv)) ?s ?w1] =>
      destruct (for_loop 0 (nout spec) (plan_body spec (length argv)) s w1)
        as [o1 w2] eqn:Hplan
  end.
  apply plan_loop_from in Hplan as (oks & -> & Hpost);
    [|by apply length_rewritten_stack|by apply length_replicate].
  rewrite extend_extend. simpl app.
  destruct o1 as [[stack result]|s].
  2:{ eexists _, _. split; [done|]. by eapply path_plan_stopped. }
  pose proof Hpost as (Hoks & Hls & Hlr & Hb & Hst & Hre & Hsl).
  mrun. unfold call_gm_apply. mrun.
  match goal with
  | |- context [gm_apply lib (trace ?w1)] =>
      change (if HAVE_PTHREAD_H
              then gm_apply_thread lib (trace w1) kernel stack
                     (outer_dims spec) (flags spec) (max_threads w1)
              else gm_apply lib (trace w1) kernel stack (outer_dims spec))
        with (apply_answer
                (trace w ++ Ev_gm_select (guobj_name self) (in_types_of argv)
                              (length argv) kernel spec :: oks)
                kernel stack spec (max_threads w))
  end.
  destruct (apply_answer _ kernel stack spec (max_threads w))
    as [[rc ws] ctx'] eqn:Hap.
  mrun. rewrite log_extend, extend_extend.
  destruct (bool_decide (rc < 0)%Z) eqn:Hrc.
  { apply bool_decide_eq_true in Hrc. mrun.
    rewrite log_extend, extend_extend. simpl trace.
    rewrite <- !app_assoc. simpl app.
    rewrite errinfo_app. cbn [errinfo]. rewrite errinfo_app. cbn [errinfo].
    eexists _, _. split; [done|by eapply path_apply_failed]. }
  apply bool_decide_eq_false in Hrc.
  mrun.
  assert (forall j, j < nout spec -> is_Some (out spec !! j)) as Hout.
  { intros j ?. destruct (Hsl j ltac:(lia)) as (t & -> & _). by eexists. }
  assert (0 <= rc)%Z by lia.
  destruct (first_conversion_fails spec (length argv) (apply_writes ws stack)
              (trace
                 (extend w
                    ((Ev_gm_select (guobj_name self) (in_types_of argv)
                        (length argv) kernel spec :: oks)
                     ++ [Ev_gm_apply HAVE_PTHREAD_H stack rc])))) eqn:Hfirst.
  { rewrite resolve_freed_read;
      [|by rewrite length_apply_writes|done].
    rewrite extend_extend. eexists _, _. split; [done|].
    rewrite <- !app_assoc. simpl app.
    by eapply path_freed_read. }
  destruct (resolve_loop_from spec (length argv) (nout spec) 0
              (apply_writes ws stack) result
              (extend w
                 ((Ev_gm_select (guobj_name self) (in_types_of argv)
                     (length argv) kernel spec :: oks)
                  ++ [Ev_gm_apply HAVE_PTHREAD_H stack rc])))
    as (res & o2 & -> & Hres);
    [lia|done|destruct Hb; [by left|right; lia]
    |by rewrite length_apply_writes|done|by right|].
  pose proof Hres as (stack' & result' & -> & Hr & Hd & Hls' & Hlr' & _).
  rewrite extend_extend. mrun.
  assert (exists v, pack_result (nout spec) result' = Some v
    /\ forall w1,
         match nout spec with
         | 0 => mret Qnil
         | 1 => load result' 0
         | S (S _) =>
             for_loop 0 (nout spec) (tuple_body result')
               (array_new (nout spec))
             ≫= λ tuple : list VALUE, mret (RArray tuple)
         end w1 = (Return v, w1)) as (v & Hv & Hpack).
  { unfold pack_result. destruct (nout spec) as [|[|n]] eqn:Hn.
    - by exists Qnil.
    - destruct (lookup_lt_is_Some_2 result' 0) as [r Hr0]; [lia|].
      exists r. split; [done|]. intros w1. by apply load_lookup.
    - eexists. split; [done|]. intros w1. mrun.
      unfold array_new. change (@nil VALUE) with (take 0 result').
      rewrite tuple_loop_from by lia. done. }
  assert ((if bool_decide (0 < nbroadcast spec)
           then for_loop 0 (length argv)
                  (λ (i : nat) (_ : ()), ndt_del (broadcast spec !! i)) ()
           else mret ())
            (extend w
               (((Ev_gm_select (guobj_name self) (in_types_of argv)
                    (length argv) kernel spec :: oks)
                 ++ [Ev_gm_apply HAVE_PTHREAD_H stack rc]) ++ res))
          = (Return (),
             extend w
               ((((Ev_gm_select (guobj_name self) (in_types_of argv)
                    (length argv) kernel spec :: oks)
                 ++ [Ev_gm_apply HAVE_PTHREAD_H stack rc]) ++ res)
                ++ broadcast_dels spec (length argv)))) as ->.
  { unfold broadcast_dels. destruct (bool_decide _).
    - by rewrite free_loop, extend_extend.
    - by rewrite app_nil_r. }
  mrun. rewrite Hpack.
  eexists _, _. split; [done|].
  rewrite <- !app_assoc. simpl app.
  by eapply path_completed.
Qed.

Lemma call_path_of argv (self : GufuncObject) w :
  Gumath_GufuncObject_call argv self w
    = (call_outcome argv self w, extend w (call_events argv self w))
  /\ call_path argv self w (call_outcome argv self w)
       (call_events argv self w).
Proof.
  destruct (call_run argv self w) as (o & evs & Hrun & Hpath).
  unfold call_outcome, call_events. rewrite Hrun. simpl.
  by rewrite drop_app_length.
Qed.

(** A call on a receiver that is not a GufuncObject with a name makes no
    call into a collaborator. *)
Lemma call_other_receiver argv (self : receiver) w :
  (forall g : GufuncObject, self <> g) ->
  Gumath_GufuncObject_call argv self w
  = (if bool_decide (NDT_MAX_ARGS < length argv)
     then Stop (Raise (rb_eArgError "too many arguments."))
     else if forallb rb_xnd_check_type argv
          then match self with
               | untyped _ => Stop (Raise rb_eTypeError)
               | typed _ => Stop Undefined
               end
          else Stop (Raise (rb_eArgError "Args must be XND.")), w)
  /\ call_events argv self w = [].
Proof.
  intros Hself.
  unfold call_events, Gumath_GufuncObject_call. mrun.
  destruct (bool_decide (NDT_MAX_ARGS < length argv)) eqn:Hargc.
  { mrun. split; [done|apply drop_all]. }
  apply bool_decide_eq_false in Hargc.
  mrun. rewrite args_loop by lia.
  destruct (forallb rb_xnd_check_type argv); [|split; [done|apply drop_all]].
  mrun. destruct self as [[g|tbl]|v].
  - by destruct (Hself g).
  - split; [done|apply drop_all].
  - split; [done|apply drop_all].
Qed.

Lemma not_all_xnd argv :
  (exists a, a ∈ argv /\ rb_xnd_check_type a = false) ->
  forallb rb_xnd_check_type argv = false.
Proof.
  intros (a & Hin & Ha). destruct (forallb _ argv) eqn:Hall; [|done].
  rewrite forallb_forall in Hall. apply list_elem_of_In in Hin.
  rewrite (Hall a Hin) in Ha. done.
Qed.

(** C6: a call with more than [NDT_MAX_ARGS] arguments raises the argument 
    error "too many arguments." at once: the world it ends in is the one it
    started in, so the kernel table was not consulted ([gm_select] was not
    called), no other collaborator was called and no global was written. *)
Theorem too_many_arguments_checked_first argv self w :
  NDT_MAX_ARGS < length argv ->
  Gumath_GufuncObject_call argv self w
    = (Stop (Raise (rb_eArgError "too many arguments.")), w)
  /\ call_events argv self w = [].
Proof.
  intros Hargc.
  assert (Gumath_GufuncObject_call argv self w
          = (Stop (Raise (rb_eArgError "too many arguments.")), w)) as Hrun.
  { unfold Gumath_GufuncObject_call. mrun.
    rewrite bool_decide_eq_true_2 by done. by mrun. }
  split; [done|]. unfold call_events. rewrite Hrun. simpl.
  by rewrite drop_all.
Qed.

(** C10: when some argument is not an XND object the call raises the argument
    error (with the message "Args must be XND." unless there are too many
    arguments) and ends in the world it started in: [gm_select] was not
    called and nothing was allocated.  And whenever [gm_select] is called, it
    is given the number of arguments and, at each index below it, the type of
    that argument. *)
Theorem arguments_checked_before_selection argv self w :
  ((exists a, a ∈ argv /\ rb_xnd_check_type a = false) ->
   exists m,
     Gumath_GufuncObject_call argv self w
       = (Stop (Raise (rb_eArgError m)), w)
     /\ call_events argv self w = []
     /\ (length argv <= NDT_MAX_ARGS -> m = "Args must be XND."))
  /\ (forall name in_types nin kernel spec,
        Ev_gm_select name in_types nin kernel spec ∈ call_events argv self w ->
        Forall (fun a => rb_xnd_check_type a = true) argv
        /\ nin = length argv
        /\ take nin in_types
           = (fun a => type (rb_xnd_const_xnd a)) <$> argv).
Proof.
  destruct self as [[self|tbl]|v];
    [|destruct (call_other_receiver argv (Unnamed tbl) w) as [-> ->]; [done|]
     |destruct (call_other_receiver argv (untyped v) w) as [-> ->]; [done|]].
  2,3: split; [|by intros ????? ?%not_elem_of_nil];
       intros Hbad%not_all_xnd; rewrite Hbad;
       case_bool_decide; eexists; (split; [done|]); (split; [done|]);
       intros; try done; lia.
  destruct (call_path_of argv self w) as [Hrun Hpath]. split.
  - intros Hbad%not_all_xnd. rewrite Hrun.
    destruct Hpath; try congruence.
    + exists "too many arguments.". rewrite extend_nil.
      repeat split; auto. lia.
    + exists "Args must be XND.". by rewrite extend_nil.
  - intros name in_types nin kernel spec Hin.
    assert (forallb rb_xnd_check_type argv = true
            /\ nin = length argv /\ in_types = in_types_of argv)
      as (Hall & -> & ->).
    { destruct Hpath as [| |k s c ? ? ? ?|k s c st oks ? ? ? ? Hp
                         |k s c oks st re rc ws c' ? ? ? ? Hp
                         |k s c oks st re rc ws c' res st' re' v ? ? ? ? Hp
                            ? ? Hr
                         |k s c oks st re rc ws c' ? ? ? ? Hp ? ? Hf];
        try (by inversion Hin).
      - apply elem_of_cons in Hin as [[= -> -> -> -> ->]|Hin]; [done|].
        apply elem_of_cons in Hin as [?|Hin]; [done|inversion Hin].
      - apply elem_of_cons in Hin as [[= -> -> -> -> ->]|Hin]; [done|].
        exfalso. destruct st as [e|]; simpl in Hp.
        + destruct Hp as (oks' & t & _ & -> & Hoks).
          apply elem_of_app in Hin as [Hin|Hin].
          * rewrite Forall_forall in Hoks. by apply Hoks in Hin.
          * apply elem_of_cons in Hin as [?|Hin]; [done|].
            apply elem_of_cons in Hin as [?|Hin]; [done|inversion Hin].
        + rewrite Forall_forall in Hp. by apply Hp in Hin.
      - apply elem_of_cons in Hin as [[= -> -> -> -> ->]|Hin]; [done|].
        exfalso. destruct Hp as (Hoks & _).
        apply elem_of_app in Hin as [Hin|Hin].
        + rewrite Forall_forall in Hoks. by apply Hoks in Hin.
        + apply elem_of_cons in Hin as [?|Hin]; [done|].
          apply elem_of_cons in Hin as [?|Hin]; [done|inversion Hin].
      - apply elem_of_cons in Hin as [[= -> -> -> -> ->]|Hin]; [done|].
        exfalso. destruct Hp as (Hoks & _).
        destruct Hr as (? & ? & _ & Hres & _).
        apply elem_of_app in Hin as [Hin|Hin].
        { rewrite Forall_forall in Hoks. by apply Hoks in Hin. }
        apply elem_of_cons in Hin as [?|Hin]; [done|].
        apply elem_of_app in Hin as [Hin|Hin].
        { rewrite Forall_forall in Hres. by apply Hres in Hin. }
        unfold broadcast_dels in Hin. destruct (bool_decide _).
        + apply list_elem_of_fmap in Hin as (? & ? & _). done.
        + inversion Hin.
      - apply elem_of_cons in Hin as [[= -> -> -> -> ->]|Hin]; [done|].
        exfalso. destruct Hp as (Hoks & _).
        apply elem_of_app in Hin as [Hin|Hin].
        { rewrite Forall_forall in Hoks. by apply Hoks in Hin. }
        apply elem_of_cons in Hin as [?|Hin]; [done|].
        by apply first_conversion_events_are in Hin as [[? ?]|(? & ? & ?)]. }
    split; [by apply Forall_forall; intros a Ha%list_elem_of_In;
            rewrite forallb_forall in Hall; apply Hall|].
    split; [done|]. unfold in_types_of.
    rewrite take_app_length'; [done|by rewrite length_fmap].
Qed.

(** Case analysis on membership in a list of events given as such. *)
Ltac elem_cases H :=
  repeat match type of H with
  | _ ∈ _ :: _ => apply elem_of_cons in H as [H|H]
  | _ ∈ _ ++ _ => apply elem_of_app in H as [H|H]
  | _ ∈ [] => by inversion H
  end.

Lemma released_app evs evs' :
  released (evs ++ evs') = released evs ++ released evs'.
Proof. apply omap_app. Qed.

Lemma allocated_app evs evs' :
  allocated (evs ++ evs') = allocated evs ++ allocated evs'.
Proof. apply omap_app. Qed.

Lemma alloc_ok_events oks :
  Forall is_alloc_ok oks ->
  released oks = [] /\ deleted_types oks = []
  /\ (forall t, Ev_rb_xnd_empty_from_type t None ∉ oks)
  /\ (forall thr stack rc, Ev_gm_apply thr stack rc ∉ oks).
Proof.
  induction 1 as [|e oks He _ (IH1 & IH2 & IH3 & IH4)].
  - repeat split; try done; intros; by apply not_elem_of_nil.
  - destruct e as [|? [?|]| | | | | |]; try done.
    repeat split; try done.
    + intros t0 [?|?]%elem_of_cons; [done|by eapply IH3].
    + intros ??? [?|?]%elem_of_cons; [done|by eapply IH4].
Qed.

Lemma resolve_events res :
  Forall is_resolve_event res ->
  allocated res = []
  /\ (forall t x, Ev_rb_xnd_empty_from_type t x ∉ res)
  /\ (forall thr stack rc, Ev_gm_apply thr stack rc ∉ res).
Proof.
  induction 1 as [|e res He _ (IH1 & IH2 & IH3)].
  - repeat split; try done; intros; by apply not_elem_of_nil.
  - destruct e; try done; (repeat split; try done;
      [intros ?? [?|?]%elem_of_cons; [done|by eapply IH2]
      |intros ??? [?|?]%elem_of_cons; [done|by eapply IH3]]).
Qed.

Lemma broadcast_dels_events spec nin e :
  e ∈ broadcast_dels spec nin -> exists t, e = Ev_ndt_del t.
Proof.
  unfold broadcast_dels. destruct (bool_decide _).
  - intros (j & -> & _)%list_elem_of_fmap. by eexists.
  - by intros ?%not_elem_of_nil.
Qed.

(** C2, as amended: when an allocation of an output fails, the call raises
    the no-memory error; the failed allocation and the clearing of the
    ApplySpec are the last two calls it makes; no value is returned; and the
    call releases none of the buffers it allocated before: it never calls
    [xnd_del_buffer]. *)
Theorem allocation_failure_raises argv (self : GufuncObject) w t :
  Ev_rb_xnd_empty_from_type t None ∈ call_events argv self w ->
  call_outcome argv self w
    = Stop (Raise (rb_eNoMemError "could not allocate empty XND object."))
  /\ (exists pre,
        call_events argv self w
          = pre ++ [Ev_rb_xnd_empty_from_type t None;
                    Ev_ndt_apply_spec_clear (selection argv self w).1.2]
        /\ forall t', Ev_rb_xnd_empty_from_type t' None ∉ pre)
  /\ released (call_events argv self w) = [].
Proof.
  intros Hin. destruct (call_path_of argv self w) as [_ Hpath].
  destruct Hpath as [| |k s c ? ? ? ?|k s c st oks ? ? Hsel ? Hp
                     |k s c oks st re rc ws c' ? ? ? ? Hp
                     |k s c oks st re rc ws c' res st' re' v ? ? ? ? Hp
                        ? ? Hr
                     |k s c oks st re rc ws c' ? ? ? ? Hp ? ? Hf];
    try (by inversion Hin).
  - exfalso. elem_cases Hin; done.
  - destruct st as [e|]; simpl in Hp.
    + destruct Hp as (oks' & t' & -> & -> & Hoks).
      apply alloc_ok_events in Hoks as (Hrel & _ & Hnf & _).
      assert (t' = t) as ->.
      { elem_cases Hin; try done; try (by inversion Hin).
        by apply Hnf in Hin. }
      rewrite Hsel. simpl. split; [done|]. split.
      * eexists (_ :: oks'). split; [done|].
        intros t' [?|?]%elem_of_cons; [done|by eapply Hnf].
      * simpl. by rewrite released_app, Hrel.
    + exfalso. apply alloc_ok_events in Hp as (_ & _ & Hnf & _).
      elem_cases Hin; [done|by apply Hnf in Hin].
  - exfalso. destruct Hp as (Hoks & _).
    apply alloc_ok_events in Hoks as (_ & _ & Hnf & _).
    elem_cases Hin; try done. by apply Hnf in Hin.
  - exfalso. destruct Hp as (Hoks & _).
    apply alloc_ok_events in Hoks as (_ & _ & Hnf & _).
    destruct Hr as (? & ? & _ & Hres & _).
    apply resolve_events in Hres as (_ & Hna & _).
    elem_cases Hin; try done.
    + by apply Hnf in Hin.
    + by apply Hna in Hin.
    + by apply broadcast_dels_events in Hin as [? ?].
  - exfalso. destruct Hp as (Hoks & _).
    apply alloc_ok_events in Hoks as (_ & _ & Hnf & _).
    elem_cases Hin; try done.
    + by apply Hnf in Hin.
    + by apply first_conversion_events_are in Hin as [[? ?]|(? & ? & ?)].
Qed.

(** C3, as amended: when the kernel run fails (with or without threads) the
    call raises the error that the run left in the context, right after
    recording it, so no value is returned; and no buffer that the call has
    allocated for an output is released by it. *)
Theorem apply_failure_raises argv (self : GufuncObject) w thr stack rc :
  Ev_gm_apply thr stack rc ∈ call_events argv self w -> (rc < 0)%Z ->
  exists pre ctx,
    call_events argv self w = pre ++ [Ev_gm_apply thr stack rc; Ev_seterr ctx]
    /\ (exists ws,
          apply_answer (trace w ++ pre) (selection argv self w).1.1 stack
            (selection argv self w).1.2 (max_threads w) = (rc, ws, ctx))
    /\ call_outcome argv self w = Stop (Raise (rb_errinfo (Some ctx)))
    /\ forall b, b ∈ allocated (call_events argv self w) ->
                 b ∉ released (call_events argv self w).
Proof.
  intros Hin Hneg. destruct (call_path_of argv self w) as [_ Hpath].
  destruct Hpath as [| |k s c ? ? ? ?|k s c st oks ? ? Hsel ? Hp
                     |k s c oks st re rc' ws c' ? ? Hsel ? Hp Hap ?
                     |k s c oks st re rc' ws c' res st' re' v ? ? ? ? Hp
                        ? ? Hr
                     |k s c oks st re rc' ws c' ? ? ? ? Hp ? ? Hf];
    try (by inversion Hin).
  - exfalso. elem_cases Hin; done.
  - exfalso. destruct st as [e|]; simpl in Hp.
    + destruct Hp as (oks' & t' & -> & -> & Hoks).
      apply alloc_ok_events in Hoks as (_ & _ & _ & Hna).
      elem_cases Hin; try done. by apply Hna in Hin.
    + apply alloc_ok_events in Hp as (_ & _ & _ & Hna).
      elem_cases Hin; [done|by apply Hna in Hin].
  - destruct Hp as (Hoks & _).
    apply alloc_ok_events in Hoks as (Hrel & _ & _ & Hna).
    assert (thr = HAVE_PTHREAD_H /\ stack = st /\ rc = rc')
      as (-> & -> & ->).
    { elem_cases Hin; try done; try (by inversion Hin).
      by apply Hna in Hin. }
    eexists (_ :: oks), c'. rewrite Hsel. simpl.
    split; [done|]. split; [by exists ws|]. split; [done|].
    rewrite released_app, Hrel. simpl. intros b _ ?. by eapply not_elem_of_nil.
  - exfalso. destruct Hp as (Hoks & _).
    apply alloc_ok_events in Hoks as (_ & _ & _ & Hna).
    destruct Hr as (? & ? & _ & Hres & _).
    apply resolve_events in Hres as (_ & _ & Hna').
    elem_cases Hin; try done.
    + by apply Hna in Hin.
    + inversion Hin; subst. lia.
    + by apply Hna' in Hin.
    + by apply broadcast_dels_events in Hin as [? ?].
  - exfalso. destruct Hp as (Hoks & _).
    apply alloc_ok_events in Hoks as (_ & _ & _ & Hna).
    elem_cases Hin; try done.
    + by apply Hna in Hin.
    + inversion Hin; subst. lia.
    + by apply first_conversion_events_are in Hin as [[? ?]|(? & ? & ?)].
Qed.

Lemma deleted_types_dels (f : nat -> ndt_ptr) l :
  deleted_types ((fun j => Ev_ndt_del (f j)) <$> l) = f <$> l.
Proof. induction l as [|j l IH]; [done|]. simpl. by f_equal. Qed.

Lemma deleted_types_broadcast_dels spec nin :
  deleted_types (broadcast_dels spec nin)
  = if bool_decide (0 < nbroadcast spec)
    then (fun j => broadcast spec !! j) <$> seq 0 nin else [].
Proof.
  unfold broadcast_dels. destruct (bool_decide _); [|done].
  apply (deleted_types_dels (fun j => broadcast spec !! j)).
Qed.

Lemma lookup_rewritten_stack spec argv i a :
  argv !! i = Some a ->
  rewritten_stack spec argv !! i
  = Some (if bool_decide (0 < nbroadcast spec)
          then set_type (rb_xnd_const_xnd a) (broadcast spec !! i)
          else rb_xnd_const_xnd a).
Proof.
  intros Ha. unfold rewritten_stack, broadcast_stack.
  destruct (bool_decide _).
  - rewrite list_lookup_imap, (lookup_stack_of _ _ _ Ha). simpl.
    rewrite decide_True; [done|by eapply lookup_lt_Some].
  - by apply lookup_stack_of.
Qed.

(** The input slot [i] of the stack that the planning loop finds: the buffer
    of the argument, under the broadcast descriptor when there is one. *)
Lemma input_on_rewritten_stack spec argv i a :
  argv !! i = Some a ->
  exists x,
    rewritten_stack spec argv !! i = Some x
    /\ ptr x = ptr (rb_xnd_const_xnd a)
    /\ type x = if bool_decide (0 < nbroadcast spec)
                then broadcast spec !! i
                else type (rb_xnd_const_xnd a).
Proof.
  intros Ha. rewrite (lookup_rewritten_stack _ _ _ _ Ha).
  eexists. split; [done|]. by destruct (bool_decide _).
Qed.

(** C8: the kernel is run on a stack in which each input slot holds the
    buffer of its argument, and the type of that slot is the selector's
    broadcast descriptor [spec.broadcast[i]] if [spec.nbroadcast > 0] and
    the type the argument came with otherwise; and the descriptors that the
    call itself deletes are, when it returns, those of the abstract outputs,
    followed by the broadcast descriptors of the inputs if and only if
    [spec.nbroadcast > 0], and none at all when the call raises. *)
Theorem broadcast_rewrite_iff_nbroadcast argv (self : GufuncObject) w
    kernel spec ctx :
  selection argv self w = (kernel, spec, ctx) ->
  (forall thr stack rc,
     Ev_gm_apply thr stack rc ∈ call_events argv self w ->
     forall i a, argv !! i = Some a ->
       exists x,
         stack !! i = Some x
         /\ ptr x = ptr (rb_xnd_const_xnd a)
         /\ type x = if bool_decide (0 < nbroadcast spec)
                     then broadcast spec !! i
                     else type (rb_xnd_const_xnd a))
  /\ (forall v, call_outcome argv self w = Return v ->
      deleted_types (call_events argv self w)
      = (Some <$> List.filter ndt_is_abstract (take (nout spec) (out spec)))
        ++ (if bool_decide (0 < nbroadcast spec)
            then (fun j => broadcast spec !! j) <$> seq 0 (length argv)
            else []))
  /\ (forall e, call_outcome argv self w = Stop (Raise e) ->
      deleted_types (call_events argv self w) = []).
Proof.
  intros Hsel0. destruct (call_path_of argv self w) as [_ Hpath].
  destruct Hpath as [| |k s c ? ? ? ?|k s c st oks ? ? Hsel ? Hp
                     |k s c oks st re rc' ws c' ? ? Hsel ? Hp Hap ?
                     |k s c oks st re rc' ws c' res st' re' v ? ? Hsel ? Hp
                        ? ? Hr ?
                     |k s c oks st re rc' ws c' ? ? Hsel ? Hp ? ? Hf].
  - split; [|done]. intros ??? Hin. inversion Hin.
  - split; [|done]. intros ??? Hin. inversion Hin.
  - split; [|done]. intros ??? Hin. elem_cases Hin; done.
  - destruct st as [e|]; simpl in Hp.
    + destruct Hp as (oks' & t' & -> & -> & Hoks).
      apply alloc_ok_events in Hoks as (_ & Hdel & _ & Hna).
      split.
      * intros ??? Hin. elem_cases Hin; try done. by apply Hna in Hin.
      * split; [done|]. intros _ _. simpl.
        by rewrite deleted_types_app, Hdel.
    + apply alloc_ok_events in Hp as (_ & Hdel & _ & Hna).
      split; [|done].
      intros ??? Hin. elem_cases Hin; try done. by apply Hna in Hin.
  - rewrite Hsel0 in Hsel. injection Hsel as <- <- <-.
    destruct Hp as (Hoks & _ & _ & _ & Hst & _).
    apply alloc_ok_events in Hoks as (_ & Hdel & _ & Hna).
    split.
    + intros thr stack rc Hin i a Ha.
      assert (stack = st) as ->.
      { elem_cases Hin; try done; try (by inversion Hin).
        by apply Hna in Hin. }
      rewrite Hst by (apply lookup_lt_Some in Ha; lia).
      by apply input_on_rewritten_stack.
    + split; [done|]. intros _ _. simpl.
      by rewrite deleted_types_app, Hdel.
  - rewrite Hsel0 in Hsel. injection Hsel as <- <- <-.
    destruct Hp as (Hoks & _ & _ & _ & Hst & _).
    apply alloc_ok_events in Hoks as (_ & Hdel & _ & Hna).
    destruct Hr as (? & ? & _ & Hres & Hd & _).
    apply resolve_events in Hres as (_ & _ & Hna').
    split.
    + intros thr stack rc Hin i a Ha.
      assert (stack = st) as ->.
      { elem_cases Hin; try done; try (by inversion Hin).
        - by apply Hna in Hin.
        - by apply Hna' in Hin.
        - by apply broadcast_dels_events in Hin as [? ?]. }
      rewrite Hst by (apply lookup_lt_Some in Ha; lia).
      by apply input_on_rewritten_stack.
    + split; [|done]. intros _ _. simpl.
      rewrite deleted_types_app, Hdel. simpl.
      rewrite deleted_types_app, Hd, deleted_types_broadcast_dels. done.
  - rewrite Hsel0 in Hsel. injection Hsel as <- <- <-.
    destruct Hp as (Hoks & _ & _ & _ & Hst & _).
    apply alloc_ok_events in Hoks as (_ & Hdel & _ & Hna).
    split; [|done].
    intros thr stack rc Hin i a Ha.
    assert (stack = st) as ->.
    { elem_cases Hin; try done; try (by inversion Hin).
      - by apply Hna in Hin.
      - by apply first_conversion_events_are in Hin as [[? ?]|(? & ? & ?)]. }
    rewrite Hst by (apply lookup_lt_Some in Ha; lia).
    by apply input_on_rewritten_stack.
Qed.

Lemma concrete_not_abstract t :
  ndt_is_concrete t = negb (ndt_is_abstract t).
Proof. unfold ndt_is_concrete, ndt_is_abstract. by destruct (access t). Qed.

Lemma pack_result_values n result v :
  n <= length result ->
  pack_result n result = Some v -> v = pack_values (take n result).
Proof.
  intros Hn. unfold pack_result.
  destruct n as [|[|n]].
  - by intros [= <-].
  - destruct result as [|r result]; [done|]. by intros [= <-].
  - intros [= <-].
    destruct result as [|r1 [|r2 result]]; simpl in Hn; [lia|lia|done].
Qed.

(** C7: a call that returns hands back as many values as the ApplySpec has
    outputs: [nil] when there is none, the value itself when there is one,
    and otherwise an array of them in the order of the outputs, the value at
    index [i] being the buffer allocated for output [i] if its type is
    concrete and the conversion of its stack slot if it is abstract.  When
    no conversion has failed, every one of them is an XND buffer. *)
Theorem results_match_outputs argv (self : GufuncObject) w v kernel spec ctx :
  call_outcome argv self w = Return v ->
  selection argv self w = (kernel, spec, ctx) ->
  exists rs,
    length rs = nout spec
    /\ v = pack_values rs
    /\ (forall i, i < nout spec ->
          exists t, out spec !! i = Some t
            /\ output_slot (call_events argv self w) (length argv) i t
                 (rs !! i))
    /\ ((forall slot x,
           Ev_rb_xnd_from_xnd slot x None ∉ call_events argv self w) ->
        Forall (fun r => exists b, r = RXnd b) rs).
Proof.
  intros Hret Hsel0. destruct (call_path_of argv self w) as [_ Hpath].
  rewrite Hret in Hpath. remember (Return v) as o eqn:Ho.
  destruct Hpath as [| |k s c ? ? ? ?|k s c st oks ? ? Hsel ? Hp
                     |k s c oks st re rc' ws c' ? ? Hsel ? Hp Hap ?
                     |k s c oks st re rc' ws c' res st' re' v' ? ? Hsel ? Hp
                        ? ? Hr Hpack
                     |k s c oks st re rc' ws c' ? ? Hsel ? Hp ? ? Hf];
    try done.
  injection Ho as ->.
  rewrite Hsel0 in Hsel. injection Hsel as <- <- <-.
  destruct Hp as (_ & _ & Hlre & Hb & _ & _ & Hsl).
  destruct Hr as (? & ? & [= <- <-] & _ & _ & _ & Hlre' & _ & Hsl').
  assert (nout spec <= length re') as Hn by (destruct Hb; lia).
  assert (forall i, i < nout spec ->
            exists t, out spec !! i = Some t
              /\ output_slot
                   (Ev_gm_select (guobj_name self) (in_types_of argv)
                      (length argv) kernel spec
                    :: oks ++ [Ev_gm_apply HAVE_PTHREAD_H st rc'] ++ res
                         ++ broadcast_dels spec (length argv))
                   (length argv) i t (re' !! i)) as Hslots.
  { intros i Hi.
    destruct (Hsl i ltac:(lia)) as (t & Ht & Hplan).
    destruct (Hsl' i ltac:(lia)) as (t' & Ht' & Hres).
    rewrite Ht in Ht'. injection Ht' as <-. exists t. split; [done|].
    unfold planned_slot in Hplan. unfold resolved_slot in Hres.
    unfold output_slot. rewrite concrete_not_abstract in *.
    destruct (ndt_is_abstract t); simpl in *.
    - destruct Hres as (x & cv & Hin & ->). exists x, cv. split; [|done].
      apply elem_of_cons. right. apply elem_of_app. right.
      apply elem_of_cons. right. apply elem_of_app. by left.
    - destruct Hplan as (b & Hin & Hb' & _). exists b.
      split; [|by rewrite Hres].
      apply elem_of_cons. right. apply elem_of_app. by left. }
  exists (take (nout spec) re').
  split; [rewrite length_take; lia|].
  split; [by apply pack_result_values|].
  split.
  { intros i Hi. destruct (Hslots i Hi) as (t & Ht & Hs). exists t.
    split; [done|]. by rewrite lookup_take_lt. }
  intros Hconv. apply Forall_lookup_2. intros i r Hr.
  assert (i < nout spec) as Hi.
  { apply lookup_lt_Some in Hr. rewrite length_take in Hr. lia. }
  rewrite lookup_take_lt in Hr by done.
  destruct (Hslots i Hi) as (t & _ & Hs). unfold output_slot in Hs.
  destruct (ndt_is_concrete t).
  - destruct Hs as (b & _ & Hb'). rewrite Hr in Hb'. injection Hb' as ->.
    by exists b.
  - destruct Hs as (x & [b|] & Hin & Hb'); [|by apply Hconv in Hin].
    rewrite Hr in Hb'. injection Hb' as ->. by exists b.
Qed.

(** ** Further properties of the call *)

Lemma extend_inj w evs evs' : extend w evs = extend w evs' -> evs = evs'.
Proof. intros [= H]. by apply app_inv_head in H. Qed.

Lemma call_result argv self w o evs :
  Gumath_GufuncObject_call argv self w = (o, extend w evs) ->
  call_outcome argv self w = o /\ call_events argv self w = evs.
Proof.
  intros H. unfold call_outcome, call_events. rewrite H. simpl.
  by rewrite drop_app_length.
Qed.

(** A call that gets past the selection goes through the stages of
    [call_stage], each tied to the run of its loop. *)
Lemma call_stages argv (self : GufuncObject) w kernel spec ctx :
  length argv <= NDT_MAX_ARGS ->
  forallb rb_xnd_check_type argv = true ->
  selection argv self w = (kernel, spec, ctx) ->
  set kernel <> None ->
  exists o evs,
    Gumath_GufuncObject_call argv self w
      = (o, extend w (Ev_gm_select (guobj_name self) (in_types_of argv)
                        (length argv) kernel spec :: evs))
    /\ call_stage argv w kernel spec
         (Ev_gm_select (guobj_name self) (in_types_of argv) (length argv)
            kernel spec) o evs.
Proof.
  intros Hmax Hxnd Hsel Hset.
  unfold Gumath_GufuncObject_call. mrun.
  rewrite bool_decide_eq_false_2 by lia.
  mrun. rewrite args_loop by done. rewrite Hxnd.
  mrun. unfold GET_GUOBJ, call_gm_select. mrun.
  unfold selection in Hsel. rewrite Hsel.
  mrun. rewrite log_extend.
  rewrite bool_decide_eq_false_2 by done.
  mrun. rewrite rewrite_run by done. mrun.
  fold (plan_run argv spec).
  set (sel := Ev_gm_select (guobj_name self) (in_types_of argv) (length argv)
                kernel spec).
  destruct (plan_run argv spec (extend w [sel])) as [o1 w2] eqn:Hplan.
  pose proof Hplan as Hplan'.
  apply plan_loop_from in Hplan' as (oks & -> & Hpost);
    [|by apply length_rewritten_stack|by apply length_replicate].
  rewrite extend_extend in *. simpl app in *.
  destruct o1 as [[stack result]|s].
  2:{ eexists _, _. split; [done|]. by apply stage_plan_stopped. }
  pose proof Hpost as (Hoks & Hls & Hlr & Hb & Hst & Hre & Hsl).
  mrun. unfold call_gm_apply. mrun.
  match goal with
  | |- context [gm_apply lib (trace ?w1)] =>
      change (if HAVE_PTHREAD_H
              then gm_apply_thread lib (trace w1) kernel stack
                     (outer_dims spec) (flags spec) (max_threads w1)
              else gm_apply lib (trace w1) kernel stack (outer_dims spec))
        with (apply_answer (trace w ++ sel :: oks) kernel stack spec
                (max_threads w))
  end.
  destruct (apply_answer _ kernel stack spec (max_threads w))
    as [[rc ws] ctx'] eqn:Hap.
  mrun. rewrite log_extend, extend_extend.
  destruct (bool_decide (rc < 0)%Z) eqn:Hrc.
  { apply bool_decide_eq_true in Hrc. mrun.
    rewrite log_extend, extend_extend. simpl trace.
    rewrite <- !app_assoc. simpl app.
    rewrite errinfo_app. cbn [errinfo]. rewrite errinfo_app. cbn [errinfo].
    eexists _, _. split; [done|by eapply stage_apply_failed]. }
  apply bool_decide_eq_false in Hrc.
  mrun. fold (resolve_run argv spec (apply_writes ws stack) result).
  assert (forall j, j < nout spec -> is_Some (out spec !! j)) as Hout.
  { intros j ?. destruct (Hsl j ltac:(lia)) as (t & -> & _). by eexists. }
  assert (0 <= rc)%Z by lia.
  destruct (first_conversion_fails spec (length argv) (apply_writes ws stack)
              (trace
                 (extend w ((sel :: oks)
                            ++ [Ev_gm_apply HAVE_PTHREAD_H stack rc]))))
    eqn:Hfirst.
  { unfold resolve_run. rewrite resolve_freed_read;
      [|by rewrite length_apply_writes|done].
    rewrite extend_extend. eexists _, _.
    rewrite <- !app_assoc in *. simpl app in *.
    split; [done|]. by eapply stage_freed_read. }
  destruct (resolve_loop_from spec (length argv) (nout spec) 0
              (apply_writes ws stack) result
              (extend w ((sel :: oks)
                         ++ [Ev_gm_apply HAVE_PTHREAD_H stack rc])))
    as (res & o2 & Hrun & Hres);
    [lia|done|destruct Hb; [by left|right; lia]
    |by rewrite length_apply_writes|done|by right|].
  fold (resolve_run argv spec (apply_writes ws stack) result) in Hrun.
  pose proof Hres as (stack' & result' & -> & Hr & Hd & Hls' & Hlr' & _).
  rewrite Hrun. rewrite extend_extend in *. mrun.
  assert (exists v, pack_result (nout spec) result' = Some v
    /\ forall w1,
         match nout spec with
         | 0 => mret Qnil
         | 1 => load result' 0
         | S (S _) =>
             for_loop 0 (nout spec) (tuple_body result')
               (array_new (nout spec))
             ≫= λ tuple : list VALUE, mret (RArray tuple)
         end w1 = (Return v, w1)) as (v & Hv & Hpack).
  { unfold pack_result. destruct (nout spec) as [|[|n]] eqn:Hn.
    - by exists Qnil.
    - destruct (lookup_lt_is_Some_2 result' 0) as [r Hr0]; [lia|].
      exists r. split; [done|]. intros w1. by apply load_lookup.
    - eexists. split; [done|]. intros w1. mrun.
      unfold array_new. change (@nil VALUE) with (take 0 result').
      rewrite tuple_loop_from by lia. done. }
  assert (forall w1,
            (if bool_decide (0 < nbroadcast spec)
             then for_loop 0 (length argv)
                    (λ (i : nat) (_ : ()), ndt_del (broadcast spec !! i)) ()
             else mret ()) w1
            = (Return (), extend w1 (broadcast_dels spec (length argv))))
    as Hfree.
  { intros w1. unfold broadcast_dels. destruct (bool_decide _).
    - by rewrite free_loop.
    - by rewrite extend_nil. }
  rewrite Hfree, extend_extend. mrun. rewrite Hpack.
  rewrite <- !app_assoc in *. simpl app in *.
  eexists _, _. split; [done|].
  by eapply stage_completed.
Qed.

Lemma allocation_types_app evs evs' :
  allocation_types (evs ++ evs')
  = allocation_types evs ++ allocation_types evs'.
Proof. apply omap_app. Qed.

Lemma conversion_slots_app evs evs' :
  conversion_slots (evs ++ evs')
  = conversion_slots evs ++ conversion_slots evs'.
Proof. apply omap_app. Qed.

(** One round of the planning loop: when it is undefined and what it
    allocates. *)
Lemma plan_body_more spec nin i stack result w o w' :
  length stack = NDT_MAX_ARGS -> length result = NDT_MAX_ARGS ->
  plan_body spec nin i (stack, result) w = (o, w') ->
  exists evs,
    w' = extend w evs
    /\ (i < length (out spec) -> nin + i < NDT_MAX_ARGS ->
        o <> Stop Undefined)
    /\ (forall s, o = Return s ->
        allocation_types evs
        = List.filter ndt_is_concrete (take 1 (drop i (out spec)))).
Proof.
  intros Hls Hlr. unfold plan_body, spec_out.
  destruct (out spec !! i) as [t|] eqn:Ht; mrun.
  2:{ intros [= <- <-]. exists []. rewrite extend_nil.
      split; [done|]. split; [|done].
      intros Hi _. apply lookup_ge_None in Ht. lia. }
  assert (take 1 (drop i (out spec)) = [t]) as ->.
  { rewrite (drop_S _ _ _ Ht). simpl. by rewrite take_0. }
  simpl. destruct (ndt_is_concrete t) eqn:Hc.
  - unfold call_rb_xnd_empty_from_type. mrun.
    destruct (rb_xnd_empty_from_type lib (trace w) t) as [b|] eqn:Hb;
      simpl; mrun.
    + unfold store.
      destruct (decide (i < length result)); mrun.
      2:{ intros [= <- <-]. eexists [_]. split; [done|].
          split; [intros; lia|done]. }
      destruct (decide (nin + i < length stack)); mrun.
      2:{ intros [= <- <-]. eexists [_]. split; [done|].
          split; [intros; lia|done]. }
      intros [= <- <-]. eexists [_]. split; [done|]. split; done.
    + intros [= <- <-]. rewrite !log_extend, extend_extend.
      eexists. split; [done|]. split; done.
  - unfold store.
    destruct (decide (i < length result)); mrun.
    2:{ intros [= <- <-]. exists []. rewrite extend_nil.
        split; [done|]. split; [intros; lia|done]. }
    destruct (decide (nin + i < length stack)); mrun.
    2:{ intros [= <- <-]. exists []. rewrite extend_nil.
        split; [done|]. split; [intros; lia|done]. }
    intros [= <- <-]. exists []. rewrite extend_nil. split; [done|].
    split; done.
Qed.

(** The planning loop, from output [i] on: it stays defined when the
    descriptors are there and the stack has room, and when it runs to its end
    it has asked for one buffer per concrete output, in their order. *)
Lemma plan_loop_more spec nin n : forall i stack result w o w',
  length stack = NDT_MAX_ARGS -> length result = NDT_MAX_ARGS ->
  for_loop i n (plan_body spec nin) (stack, result) w = (o, w') ->
  exists evs,
    w' = extend w evs
    /\ (i + n <= length (out spec) ->
        n = 0 \/ nin + i + n <= NDT_MAX_ARGS ->
        o <> Stop Undefined)
    /\ (forall s, o = Return s ->
        allocation_types evs
        = List.filter ndt_is_concrete (take n (drop i (out spec)))).
Proof.
  induction n as [|n IH]; intros i stack result w o w' Hls Hlr Hrun.
  - inversion Hrun; subst. exists []. rewrite extend_nil.
    split; [done|]. split; [done|]. intros _ _. by rewrite take_0.
  - rewrite for_loop_S in Hrun.
    destruct (plan_body spec nin i (stack, result) w) as [o1 w1] eqn:Hb.
    pose proof Hb as Hb'.
    apply plan_body_run in Hb' as (ev1' & Hw1 & H1); [|done..].
    apply plan_body_more in Hb as (ev1 & -> & Hdef1 & Hal1); [|done..].
    destruct o1 as [[stack1 result1]|s1].
    + destruct H1 as (_ & Hls1 & Hlr1 & _ & _ & _ & Hsl1).
      destruct (Hsl1 i ltac:(lia)) as (t & Ht & _).
      apply IH in Hrun as (ev2 & -> & Hdef2 & Hal2); [|done..].
      exists (ev1 ++ ev2). rewrite extend_extend. split; [done|].
      split; [intros ? [|?]; [done|apply Hdef2; [lia|right; lia]]|].
      intros s ->. rewrite allocation_types_app, (Hal1 _ eq_refl),
        (Hal2 _ eq_refl).
      rewrite (drop_S _ _ _ Ht). simpl.
      by destruct (ndt_is_concrete t).
    + inversion Hrun; subst. exists ev1. split; [done|].
      split; [|done]. intros ? [|?]; [done|]. apply Hdef1; lia.
Qed.

(** The inner loop of lines 203-207 releases the abstract outputs of its
    range, each once, and nothing else. *)
Lemma cleanup_loop_exact spec nin i stack m : forall k w,
  i < k ->
  m = 0 \/ k + m <= nout spec ->
  (forall j, j < nout spec -> is_Some (out spec !! j)) ->
  nin + nout spec <= length stack ->
  exists evs,
    for_loop k m (cleanup_body spec nin i stack) () w
      = (Return (), extend w evs)
    /\ (forall e, e ∈ evs ->
          exists k' x, e = Ev_xnd_del_buffer (nin + k') x
                       /\ k <= k' < k + m /\ abstract_at spec k' = true)
    /\ (forall k', k <= k' < k + m -> abstract_at spec k' = true ->
          exists x, Ev_xnd_del_buffer (nin + k') x ∈ evs).
Proof.
  induction m as [|m IH]; intros k w Hik Hk Hout Hlen.
  - exists []. rewrite extend_nil. split; [done|].
    split; [by intros e ?%not_elem_of_nil|intros; lia].
  - rewrite for_loop_S. unfold cleanup_body at 1, spec_out.
    rewrite decide_False by lia.
    destruct (Hout k ltac:(lia)) as [t Ht]. rewrite Ht. mrun.
    assert (abstract_at spec k = ndt_is_abstract t) as Hat
      by (unfold abstract_at; by rewrite Ht).
    destruct (ndt_is_abstract t) eqn:Ha.
    + destruct (lookup_lt_is_Some_2 stack (nin + k)) as [x Hx]; [lia|].
      mrun. rewrite (load_lookup _ _ _ _ Hx). mrun. rewrite log_extend.
      destruct (IH (S k) (extend w [Ev_xnd_del_buffer (nin + k) x])
                  ltac:(lia) ltac:(lia) Hout Hlen)
        as (evs & Hrun & Honly & Hall).
      rewrite Hrun, extend_extend. eexists. split; [done|]. split.
      * intros e [->|He]%elem_of_cons.
        -- exists k, x. split; [done|]. split; [lia|done].
        -- destruct (Honly e He) as (k' & x' & -> & ? & ?).
           exists k', x'. split; [done|]. split; [lia|done].
      * intros k' Hk' Hab. destruct (decide (k' = k)) as [->|Hne].
        -- exists x. apply elem_of_cons. by left.
        -- destruct (Hall k' ltac:(lia) Hab) as [x' ?]. exists x'.
           apply elem_of_cons. by right.
    + destruct (IH (S k) w ltac:(lia) ltac:(lia) Hout Hlen)
        as (evs & Hrun & Honly & Hall).
      mrun. rewrite Hrun. exists evs. split; [done|]. split.
      * intros e He. destruct (Honly e He) as (k' & x' & -> & ? & ?).
        exists k', x'. split; [done|]. split; [lia|done].
      * intros k' Hk' Hab. destruct (decide (k' = k)) as [->|Hne].
        -- congruence.
        -- apply Hall; [lia|done].
Qed.

(** One round of the resolving loop, by its calls. *)
Lemma resolve_body_more spec nin i stack result w :
  i < nout spec ->
  (forall j, j < nout spec -> is_Some (out spec !! j)) ->
  nin + nout spec <= NDT_MAX_ARGS ->
  length stack = NDT_MAX_ARGS -> length result = NDT_MAX_ARGS ->
  0 < i \/ first_conversion_fails spec nin stack (trace w) = false ->
  exists evs s,
    resolve_body spec nin i (stack, result) w = (Return s, extend w evs)
    /\ resolve_calls spec nin i 1 evs.
Proof.
  intros Hi Hout Hmax Hls Hlr Hfirst. unfold resolve_body, spec_out.
  destruct (Hout i Hi) as [t Ht]. rewrite Ht. mrun.
  assert (abstract_at spec i = ndt_is_abstract t) as Hat
    by (unfold abstract_at; by rewrite Ht).
  unfold resolve_calls. simpl seq. simpl List.filter. rewrite Hat.
  destruct (ndt_is_abstract t) eqn:Ha.
  - mrun. destruct (lookup_lt_is_Some_2 stack (nin + i)) as [x Hx]; [lia|].
    rewrite (load_lookup _ _ _ _ Hx). unfold call_rb_xnd_from_xnd. mrun.
    pose proof (conversion_of_round _ _ _ _ _ _ _ Hi Ht Ha Hx Hfirst) as Hv.
    revert Hv. same_history w t x.
    generalize (rb_xnd_from_xnd lib (trace w ++ [Ev_ndt_del (Some t)]) x).
    intros v Hv.
    rewrite store_lt by lia. mrun.
    rewrite !log_extend, extend_extend. simpl app.
    destruct v as [b|]; simpl.
    + mrun. rewrite store_lt by lia. mrun.
      eexists _, _. split; [done|]. split; [done|]. split; [|split].
      * intros slot x' Hin. elem_cases Hin; done.
      * intros j x0 k Hin. elem_cases Hin; done.
      * intros x0 Hin. elem_cases Hin; done.
    + destruct Hv as [Hpos|?]; [|done].
      destruct (cleanup_loop_exact spec nin i (<[nin + i:=xnd_error]> stack)
                  (nout spec - (i + i)) (i + i)
                  (extend w [Ev_ndt_del (Some t);
                             Ev_rb_xnd_from_xnd (nin + i) x None]))
        as (cl & Hrun & Honly & Hall);
        [lia|lia|done|rewrite length_insert; lia|].
      rewrite Hrun, extend_extend. mrun. rewrite store_lt by lia. mrun.
      eexists _, _. split; [done|].
      assert (conversion_slots cl = []) as Hcs.
      { clear -Honly. induction cl as [|e cl IH]; [done|].
        destruct (Honly e) as (k' & x' & -> & _); [by left|].
        simpl. apply IH. intros e' He'. apply Honly. by right. }
      split; [simpl; by rewrite Hcs|]. split; [|split].
      * intros slot x' Hin.
        apply elem_of_cons in Hin as [?|Hin]; [done|].
        apply elem_of_cons in Hin as [?|Hin]; [done|].
        destruct (Honly _ Hin) as (k' & x'' & [= -> ->] & ? & ?).
        exists k', i, x. repeat split; try lia; try done.
        apply elem_of_cons. right. apply elem_of_cons. by left.
      * intros j x0 k Hin _ Hk Hab.
        assert (j = i) as ->.
        { apply elem_of_cons in Hin as [?|Hin]; [done|].
          apply elem_of_cons in Hin as [[= ? _]|Hin]; [lia|].
          by destruct (Honly _ Hin) as (? & ? & ? & _). }
        destruct (Hall k ltac:(lia) Hab) as [x' ?]. exists x'.
        apply elem_of_cons. right. apply elem_of_cons. by right.
      * intros x0 Hin.
        apply elem_of_cons in Hin as [?|Hin]; [done|].
        apply elem_of_cons in Hin as [[= ? _]|Hin]; [lia|].
        by destruct (Honly _ Hin) as (? & ? & ? & _).
  - exists [], (stack, result). rewrite extend_nil. split; [done|].
    split; [done|]. split; [|split].
    + by intros ?? ?%not_elem_of_nil.
    + by intros ??? ?%not_elem_of_nil.
    + by intros ? ?%not_elem_of_nil.
Qed.

(** The resolving loop, from output [i] on, by its calls. *)
Lemma resolve_loop_more spec nin n : forall i stack result w,
  i + n <= nout spec ->
  (forall j, j < nout spec -> is_Some (out spec !! j)) ->
  n = 0 \/ nin + nout spec <= NDT_MAX_ARGS ->
  length stack = NDT_MAX_ARGS -> length result = NDT_MAX_ARGS ->
  0 < i \/ first_conversion_fails spec nin stack (trace w) = false ->
  exists evs s,
    for_loop i n (resolve_body spec nin) (stack, result) w
      = (Return s, extend w evs)
    /\ resolve_calls spec nin i n evs.
Proof.
  induction n as [|n IH]; intros i stack result w Hi Hout Hmax Hls Hlr Hfirst.
  - exists [], (stack, result). rewrite extend_nil. split; [done|].
    split; [done|]. split; [|split].
    + by intros ?? ?%not_elem_of_nil.
    + by intros ??? ?%not_elem_of_nil.
    + by intros ? ?%not_elem_of_nil.
  - destruct Hmax as [|Hmax]; [done|].
    destruct (resolve_body_run spec nin i stack result w)
      as (ev1' & o1 & Hb' & (stack1 & result1 & -> & _ & _ & Hls1 & Hlr1
                            & _)); [lia|done..|].
    destruct (resolve_body_more spec nin i stack result w)
      as (ev1 & s1 & Hb & Ha1 & Hb1 & Hc1 & Hd1); [lia|done..|].
    rewrite Hb in Hb'. injection Hb' as -> _.
    destruct (IH (S i) stack1 result1 (extend w ev1))
      as (ev2 & s2 & Hrun & Ha2 & Hb2 & Hc2 & Hd2);
      [lia|done|by right|done|done|left; lia|].
    rewrite for_loop_S, Hb, Hrun, extend_extend.
    eexists _, _. split; [done|]. split; [|split; [|split]].
    + rewrite conversion_slots_app, Ha1, Ha2. simpl.
      by destruct (abstract_at spec i).
    + intros slot x [Hin|Hin]%elem_of_app.
      * destruct (Hb1 _ _ Hin) as (k & j & x0 & ? & ? & ? & ? & ? & ? & ?).
        exists k, j, x0. repeat split; try lia; try done.
        apply elem_of_app. by left.
      * destruct (Hb2 _ _ Hin) as (k & j & x0 & ? & ? & ? & ? & ? & ? & ?).
        exists k, j, x0. repeat split; try lia; try done.
        apply elem_of_app. by right.
    + intros j x0 k [Hin|Hin]%elem_of_app Hj Hk Hab.
      * destruct (Hc1 _ _ _ Hin Hj Hk Hab) as [x ?]. exists x.
        apply elem_of_app. by left.
      * destruct (Hc2 _ _ _ Hin Hj Hk Hab) as [x ?]. exists x.
        apply elem_of_app. by right.
    + intros x0 [Hin|Hin]%elem_of_app; [by eapply Hd1|by eapply Hd2].
Qed.

(** The planning loop raises only when an allocation fails. *)
Lemma plan_loop_no_raise spec nin n : forall i stack result w o w',
  (forall h t, rb_xnd_empty_from_type lib h t <> None) ->
  length stack = NDT_MAX_ARGS -> length result = NDT_MAX_ARGS ->
  for_loop i n (plan_body spec nin) (stack, result) w = (o, w') ->
  forall e, o <> Stop (Raise e).
Proof.
  induction n as [|n IH]; intros i stack result w o w' Hal Hls Hlr Hrun e.
  - by inversion Hrun.
  - rewrite for_loop_S in Hrun.
    destruct (plan_body spec nin i (stack, result) w) as [o1 w1] eqn:Hb.
    pose proof Hb as Hb'.
    apply plan_body_run in Hb' as (ev1 & -> & H1); [|done..].
    destruct o1 as [[stack1 result1]|s1].
    + destruct H1 as (_ & Hls1 & Hlr1 & _). by eapply IH.
    + inversion Hrun; subst. intros [= ->]. revert Hb.
      unfold plan_body, spec_out.
      destruct (out spec !! i) as [t|]; mrun; [|done].
      destruct (ndt_is_concrete t).
      * unfold call_rb_xnd_empty_from_type. mrun.
        specialize (Hal (trace w) t).
        destruct (rb_xnd_empty_from_type lib (trace w) t); [|done].
        simpl. mrun. unfold store.
        repeat (case_decide; mrun); done.
      * unfold store. repeat (case_decide; mrun); done.
Qed.

Lemma alloc_ok_quiet oks :
  Forall is_alloc_ok oks ->
  selected_specs oks = [] /\ kernel_runs oks = []
  /\ conversion_slots oks = [].
Proof.
  induction 1 as [|e oks He _ (IH1 & IH2 & IH3)]; [done|].
  by destruct e as [|? [?|]| | | | | |].
Qed.

Lemma resolve_quiet res :
  Forall is_resolve_event res ->
  selected_specs res = [] /\ kernel_runs res = []
  /\ allocation_types res = [].
Proof.
  induction 1 as [|e res He _ (IH1 & IH2 & IH3)]; [done|].
  by destruct e.
Qed.

Lemma broadcast_dels_quiet spec nin :
  selected_specs (broadcast_dels spec nin) = []
  /\ kernel_runs (broadcast_dels spec nin) = []
  /\ allocation_types (broadcast_dels spec nin) = []
  /\ conversion_slots (broadcast_dels spec nin) = []
  /\ released (broadcast_dels spec nin) = [].
Proof.
  unfold broadcast_dels. destruct (bool_decide _); [|done].
  induction (seq 0 nin) as [|j l IH]; [done|]. simpl. exact IH.
Qed.

(** What is known when the kernel has been run. *)
Lemma kernel_run_stage argv (self : GufuncObject) w kernel spec ctx
    thr stack rc :
  selection argv self w = (kernel, spec, ctx) ->
  Ev_gm_apply thr stack rc ∈ call_events argv self w ->
  length argv <= NDT_MAX_ARGS
  /\ forallb rb_xnd_check_type argv = true
  /\ set kernel <> None
  /\ thr = HAVE_PTHREAD_H
  /\ exists oks result rest,
       plan_post spec (length argv) 0 (nout spec) (rewritten_stack spec argv)
         (replicate NDT_MAX_ARGS result_indet) oks (Return (stack, result))
       /\ call_events argv self w
          = Ev_gm_select (guobj_name self) (in_types_of argv) (length argv)
              kernel spec :: oks ++ Ev_gm_apply thr stack rc :: rest.
Proof.
  intros Hsel0 Hin. destruct (call_path_of argv self w) as [_ Hpath].
  destruct Hpath as [| |k s c ? ? ? ?|k s c st oks ? ? Hsel ? Hp
                     |k s c oks st re rc' ws c' ? ? Hsel ? Hp Hap ?
                     |k s c oks st re rc' ws c' res st' re' v ? ? Hsel ? Hp
                        ? ? Hr ?
                     |k s c oks st re rc' ws c' ? ? Hsel ? Hp ? ? Hf];
    try (by inversion Hin).
  - exfalso. elem_cases Hin; done.
  - exfalso. destruct st as [e|]; simpl in Hp.
    + destruct Hp as (oks' & t' & -> & -> & Hoks).
      apply alloc_ok_events in Hoks as (_ & _ & _ & Hna).
      elem_cases Hin; try done. by apply Hna in Hin.
    + apply alloc_ok_events in Hp as (_ & _ & _ & Hna).
      elem_cases Hin; [done|by apply Hna in Hin].
  - rewrite Hsel0 in Hsel. injection Hsel as <- <- <-.
    pose proof Hp as (Hoks & _).
    apply alloc_ok_events in Hoks as (_ & _ & _ & Hna).
    assert (thr = HAVE_PTHREAD_H /\ stack = st /\ rc = rc')
      as (-> & -> & ->).
    { elem_cases Hin; try done; try (by inversion Hin).
      by apply Hna in Hin. }
    repeat split; try done. by eexists _, _, _.
  - rewrite Hsel0 in Hsel. injection Hsel as <- <- <-.
    pose proof Hp as (Hoks & _).
    apply alloc_ok_events in Hoks as (_ & _ & _ & Hna).
    destruct Hr as (? & ? & _ & Hres & _).
    apply resolve_events in Hres as (_ & _ & Hna').
    assert (thr = HAVE_PTHREAD_H /\ stack = st /\ rc = rc')
      as (-> & -> & ->).
    { elem_cases Hin; try done; try (by inversion Hin).
      - by apply Hna in Hin.
      - by apply Hna' in Hin.
      - by apply broadcast_dels_events in Hin as [? ?]. }
    repeat split; try done. by eexists _, _, _.
  - rewrite Hsel0 in Hsel. injection Hsel as <- <- <-.
    pose proof Hp as (Hoks & _).
    apply alloc_ok_events in Hoks as (_ & _ & _ & Hna).
    assert (thr = HAVE_PTHREAD_H /\ stack = st /\ rc = rc')
      as (-> & -> & ->).
    { elem_cases Hin; try done; try (by inversion Hin).
      - by apply Hna in Hin.
      - by apply first_conversion_events_are in Hin as [[? ?]|(? & ? & ?)]. }
    repeat split; try done. by eexists _, _, _.
Qed.

(** X1: when the selector finds no kernel for arguments that passed the
    checks, the call raises the error that the selector left in the context;
    the selection and the recording of that error are its only calls, so
    nothing was allocated, run, converted or released. *)
Theorem selection_failure_only_raises argv (self : GufuncObject) w
    kernel spec ctx :
  length argv <= NDT_MAX_ARGS ->
  forallb rb_xnd_check_type argv = true ->
  selection argv self w = (kernel, spec, ctx) ->
  set kernel = None ->
  call_outcome argv self w = Stop (Raise (rb_errinfo (Some ctx)))
  /\ call_events argv self w
     = [Ev_gm_select (guobj_name self) (in_types_of argv) (length argv)
          kernel spec;
        Ev_seterr ctx].
Proof.
  intros Hmax Hxnd Hsel0 Hset.
  destruct (call_path_of argv self w) as [_ Hpath].
  destruct Hpath as [| |k s c ? ? Hsel ?|k s c st oks ? ? Hsel ? Hp
                     |k s c oks st re rc' ws c' ? ? Hsel ? Hp Hap ?
                     |k s c oks st re rc' ws c' res st' re' v ? ? Hsel ? Hp
                        ? ? Hr ?
                     |k s c oks st re rc' ws c' ? ? Hsel ? Hp ? ? Hf];
    try lia; try congruence.
  rewrite Hsel0 in Hsel. by injection Hsel as <- <- <-.
Qed.

(** On every path the call leaves the kernel table and [max_threads] as
    they were and only adds to the history of calls. *)
Lemma call_keeps_globals argv self w :
  table (Gumath_GufuncObject_call argv self w).2 = table w
  /\ max_threads (Gumath_GufuncObject_call argv self w).2 = max_threads w
  /\ trace (Gumath_GufuncObject_call argv self w).2
     = trace w ++ call_events argv self w.
Proof.
  destruct self as [[g|tbl]|v].
  - destruct (call_path_of argv g w) as [-> _]. done.
  - destruct (call_other_receiver argv (Unnamed tbl) w) as [-> ->]; [done|].
    simpl. by rewrite app_nil_r.
  - destruct (call_other_receiver argv (untyped v) w) as [-> ->]; [done|].
    simpl. by rewrite app_nil_r.
Qed.

(** X3: the stack that the kernel is run on holds, behind the inputs, for
    each output in order the buffer that was allocated for it with its type
    if that type is concrete, and [xnd_error] if it is abstract. *)
Theorem outputs_on_kernel_stack argv (self : GufuncObject) w kernel spec ctx
    thr stack rc i t :
  selection argv self w = (kernel, spec, ctx) ->
  Ev_gm_apply thr stack rc ∈ call_events argv self w ->
  i < nout spec -> out spec !! i = Some t ->
  if ndt_is_concrete t
  then exists b, Ev_rb_xnd_empty_from_type t (Some b) ∈ call_events argv self w
                 /\ stack !! (length argv + i) = Some b
  else stack !! (length argv + i) = Some xnd_error.
Proof.
  intros Hsel Hin Hi Ht.
  destruct (kernel_run_stage _ _ _ _ _ _ _ _ _ Hsel Hin)
    as (_ & _ & _ & _ & oks & result & rest & Hp & Hev).
  destruct Hp as (_ & _ & _ & _ & _ & _ & Hsl).
  destruct (Hsl i ltac:(lia)) as (t' & Ht' & Hslot).
  rewrite Ht in Ht'. injection Ht' as <-.
  unfold planned_slot in Hslot. destruct (ndt_is_concrete t).
  - destruct Hslot as (b & Hb & _ & Hst). exists b. split; [|done].
    rewrite Hev. apply elem_of_cons. right. apply elem_of_app. by left.
  - by destruct Hslot.
Qed.

Lemma call_staged argv (self : GufuncObject) w kernel spec ctx :
  length argv <= NDT_MAX_ARGS ->
  forallb rb_xnd_check_type argv = true ->
  selection argv self w = (kernel, spec, ctx) ->
  set kernel <> None ->
  exists evs,
    call_events argv self w
    = Ev_gm_select (guobj_name self) (in_types_of argv) (length argv)
        kernel spec :: evs
    /\ call_stage argv w kernel spec
         (Ev_gm_select (guobj_name self) (in_types_of argv) (length argv)
            kernel spec) (call_outcome argv self w) evs.
Proof.
  intros Hmax Hxnd Hsel Hset.
  destruct (call_stages _ _ _ _ _ _ Hmax Hxnd Hsel Hset)
    as (o & evs & Hrun & Hst).
  apply call_result in Hrun as [-> ->]. by exists evs.
Qed.

(** The runs of the two loops, as the call makes them, by their calls. *)
Lemma plan_run_calls argv spec w sel o oks :
  length argv <= NDT_MAX_ARGS ->
  plan_run argv spec (extend w [sel]) = (o, extend w (sel :: oks)) ->
  plan_post spec (length argv) 0 (nout spec) (rewritten_stack spec argv)
    (replicate NDT_MAX_ARGS result_indet) oks o
  /\ (nout spec <= length (out spec) ->
      nout spec = 0 \/ length argv + nout spec <= NDT_MAX_ARGS ->
      o <> Stop Undefined)
  /\ (forall s, o = Return s ->
      allocation_types oks
      = List.filter ndt_is_concrete (take (nout spec) (out spec)))
  /\ ((forall h t, rb_xnd_empty_from_type lib h t <> None) ->
      forall e, o <> Stop (Raise e)).
Proof.
  intros Hmax Hrun. unfold plan_run in Hrun.
  pose proof (length_rewritten_stack spec argv Hmax) as Hls.
  pose proof (length_replicate NDT_MAX_ARGS result_indet) as Hlr.
  destruct (plan_loop_from _ _ _ _ _ _ _ _ _ Hls Hlr Hrun)
    as (ev1 & He1 & Hpost).
  destruct (plan_loop_more _ _ _ _ _ _ _ _ _ Hls Hlr Hrun)
    as (ev2 & He2 & Hdef & Hal).
  rewrite extend_extend in He1, He2.
  apply extend_inj in He1. apply extend_inj in He2.
  injection He1 as <-. injection He2 as <-.
  split; [done|]. split; [intros ? [?|?]; apply Hdef; auto; lia|].
  split; [done|].
  intros Halloc. by eapply plan_loop_no_raise.
Qed.

Lemma resolve_run_calls argv spec stack result w pre s res all :
  all = pre ++ res ->
  (forall j, j < nout spec -> is_Some (out spec !! j)) ->
  nout spec = 0 \/ length argv + nout spec <= NDT_MAX_ARGS ->
  length stack = NDT_MAX_ARGS -> length result = NDT_MAX_ARGS ->
  resolve_run argv spec stack result (extend w pre)
    = (Return s, extend w all) ->
  Forall is_resolve_event res
  /\ resolve_calls spec (length argv) 0 (nout spec) res.
Proof.
  intros -> Hout Hb Hls Hlr Hrun. unfold resolve_run in Hrun.
  assert (first_conversion_fails spec (length argv) stack
            (trace (extend w pre)) = false) as Hfirst.
  { destruct (first_conversion_fails _ _ _ _) eqn:Hf; [|done].
    by rewrite (resolve_freed_read _ _ _ _ _ Hls Hf) in Hrun. }
  destruct (resolve_loop_from spec (length argv) (nout spec) 0 stack result
              (extend w pre)) as (ev1 & o1 & Hr1 & Hpost);
    [lia|done|done|done|done|by right|].
  destruct (resolve_loop_more spec (length argv) (nout spec) 0 stack result
              (extend w pre)) as (ev2 & s2 & Hr2 & Hcalls);
    [lia|done|done|done|done|by right|].
  rewrite Hrun in Hr1, Hr2. rewrite extend_extend in Hr1, Hr2.
  injection Hr1 as _ He1. injection Hr2 as _ He2.
  do 2 apply app_inv_head in He1. do 2 apply app_inv_head in He2.
  subst ev1 ev2.
  split; [|done]. by destruct Hpost as (? & ? & _ & ? & _).
Qed.

Lemma first_conversion_fails_events spec nin stack h :
  first_conversion_fails spec nin stack h = true ->
  exists t x,
    first_conversion_events spec nin stack
    = [Ev_ndt_del (Some t); Ev_rb_xnd_from_xnd nin x None].
Proof.
  unfold first_conversion_fails, first_conversion_events.
  destruct (nout spec); [done|].
  destruct (out spec !! 0) as [t|]; [|done].
  destruct (stack !! nin) as [x|]; [|done]. intros _. by exists t, x.
Qed.


(** X2: the number of outputs is not checked against the room on the stack.
    When the arguments pass the checks, a kernel is selected and no
    allocation fails, but inputs and outputs together are more than
    [NDT_MAX_ARGS], the planning loop writes behind the end of [stack] (or
    reads a descriptor that is not there): the call is undefined. *)
Theorem output_count_unchecked argv (self : GufuncObject) w kernel spec ctx :
  length argv <= NDT_MAX_ARGS ->
  forallb rb_xnd_check_type argv = true ->
  selection argv self w = (kernel, spec, ctx) ->
  set kernel <> None ->
  NDT_MAX_ARGS < length argv + nout spec ->
  (forall h t, rb_xnd_empty_from_type lib h t <> None) ->
  call_outcome argv self w = Stop Undefined.
Proof.
  intros Hmax Hxnd Hsel Hset Hover Halloc.
  destruct (call_staged _ _ _ _ _ _ Hmax Hxnd Hsel Hset) as (evs & _ & Hst).
  destruct Hst as [s oks Hplan
                  |oks st re rc' ws c' Hplan Hap Hneg
                  |oks st re rc' ws c' res st' re' v Hplan Hap Hpos Hres Hv
                  |oks st re rc' ws c' Hplan Hap Hpos Hf];
    [|exfalso..|done].
  - apply plan_run_calls in Hplan as (_ & _ & _ & Hraise); [|done].
    destruct s as [e|]; [|done]. by destruct (Hraise Halloc e).
  - apply plan_run_calls in Hplan as ((_ & _ & _ & Hb & _) & _); [|done].
    lia.
  - apply plan_run_calls in Hplan as ((_ & _ & _ & Hb & _) & _); [|done].
    lia.
Qed.


(** X5: when the kernel has been run, the call has asked for exactly one
    buffer per output of concrete type, in the order of the outputs and with
    the type of each, and every one of these allocations has succeeded. *)
Theorem one_allocation_per_concrete_output argv (self : GufuncObject) w
    kernel spec ctx thr stack rc :
  selection argv self w = (kernel, spec, ctx) ->
  Ev_gm_apply thr stack rc ∈ call_events argv self w ->
  allocation_types (call_events argv self w)
    = List.filter ndt_is_concrete (take (nout spec) (out spec))
  /\ length (allocated (call_events argv self w))
     = length (allocation_types (call_events argv self w)).
Proof.
  intros Hsel Hin.
  destruct (kernel_run_stage _ _ _ _ _ _ _ _ _ Hsel Hin)
    as (Hmax & Hxnd & Hset & _ & _).
  destruct (call_staged _ _ _ _ _ _ Hmax Hxnd Hsel Hset) as (evs & Hev & Hst).
  rewrite Hev in *. clear Hev.
  assert (forall oks : list event, Forall is_alloc_ok oks ->
            length (allocated oks) = length (allocation_types oks)) as Hlen.
  { induction 1 as [|e l He _ IH]; [done|].
    destruct e as [|? [?|]| | | | | |]; try done. simpl. by rewrite IH. }
  destruct Hst as [s oks Hplan
                  |oks st re rc' ws c' Hplan Hap Hneg
                  |oks st re rc' ws c' res st' re' v Hplan Hap Hpos Hres Hv
                  |oks st re rc' ws c' Hplan Hap Hpos Hf].
  - exfalso. apply plan_run_calls in Hplan as (Hp & _); [|done].
    destruct s as [e|]; simpl in Hp.
    + destruct Hp as (oks' & t' & _ & -> & Hoks).
      apply alloc_ok_events in Hoks as (_ & _ & _ & Hna).
      elem_cases Hin; try done. by apply Hna in Hin.
    + apply alloc_ok_events in Hp as (_ & _ & _ & Hna).
      elem_cases Hin; [done|by apply Hna in Hin].
  - apply plan_run_calls in Hplan as (Hp & _ & Hal & _); [|done].
    destruct Hp as (Hoks & _). simpl.
    rewrite allocation_types_app, allocated_app, (Hal _ eq_refl). simpl.
    rewrite !app_nil_r. split; [done|].
    by rewrite (Hlen _ Hoks), (Hal _ eq_refl).
  - pose proof Hplan as Hplan'.
    apply plan_run_calls in Hplan' as (Hp & _ & Hal & _); [|done].
    destruct Hp as (Hoks & Hls & Hlr & Hb & _ & _ & Hsl).
    assert (forall j, j < nout spec -> is_Some (out spec !! j)) as Hout.
    { intros j ?. destruct (Hsl j ltac:(lia)) as (t & -> & _). by eexists. }
    apply (resolve_run_calls _ _ _ _ _ _ _ res) in Hres as (Hr & _);
      [|simpl; by rewrite <- app_assoc|done
       |destruct Hb; [by left|right; lia]
       |by rewrite length_apply_writes|done].
    pose proof (resolve_events _ Hr) as (Har & _).
    apply resolve_quiet in Hr as (_ & _ & Hrt).
    destruct (broadcast_dels_quiet spec (length argv))
      as (_ & _ & Hbt & _ & _).
    assert (allocated (broadcast_dels spec (length argv)) = []) as Hba.
    { unfold broadcast_dels. destruct (bool_decide _); [|done].
      induction (seq 0 (length argv)) as [|j l IH]; [done|]. exact IH. }
    match goal with
    | |- context [allocation_types (?e :: ?l)] =>
        change (e :: l) with ([e] ++ l)
    end.
    rewrite !allocation_types_app, !allocated_app, (Hal _ eq_refl), Hrt, Hbt,
      Har, Hba.
    simpl. rewrite !app_nil_r. split; [done|].
    by rewrite (Hlen _ Hoks), (Hal _ eq_refl).
  - apply first_conversion_fails_events in Hf as (t0 & x0 & ->).
    apply plan_run_calls in Hplan as (Hp & _ & Hal & _); [|done].
    destruct Hp as (Hoks & _). simpl.
    rewrite allocation_types_app, allocated_app, (Hal _ eq_refl). simpl.
    rewrite !app_nil_r. split; [done|].
    by rewrite (Hlen _ Hoks), (Hal _ eq_refl).
Qed.

Lemma no_resolve_call_quiet evs :
  Forall no_resolve_call evs ->
  conversion_slots evs = [] /\ released evs = []
  /\ (forall slot x v, Ev_rb_xnd_from_xnd slot x v ∉ evs)
  /\ (forall slot x, Ev_xnd_del_buffer slot x ∉ evs).
Proof.
  induction 1 as [|e evs He _ (IH1 & IH2 & IH3 & IH4)].
  - repeat split; try done; intros; by apply not_elem_of_nil.
  - destruct e; try done; (repeat split; try done;
      [intros ??? [?|?]%elem_of_cons; [done|by eapply IH3]
      |intros ?? [?|?]%elem_of_cons; [done|by eapply IH4]]).
Qed.

Lemma alloc_ok_no_resolve_call oks :
  Forall is_alloc_ok oks -> Forall no_resolve_call oks.
Proof.
  intros H. eapply Forall_impl; [exact H|]. by intros [].
Qed.

Lemma broadcast_dels_no_resolve_call spec nin :
  Forall no_resolve_call (broadcast_dels spec nin).
Proof.
  apply Forall_forall. by intros e [t ->]%broadcast_dels_events.
Qed.

(** The calls of a call, around those of its resolving loop. *)
Lemma resolve_part argv (self : GufuncObject) w kernel spec ctx :
  selection argv self w = (kernel, spec, ctx) ->
  exists pre res post,
    call_events argv self w = pre ++ res ++ post
    /\ Forall no_resolve_call pre /\ Forall no_resolve_call post
    /\ ((exists v, call_outcome argv self w = Return v)
         /\ resolve_calls spec (length argv) 0 (nout spec) res
        \/ (forall v, call_outcome argv self w <> Return v) /\ res = []
        \/ call_outcome argv self w = Stop Undefined
           /\ exists x, res = [Ev_rb_xnd_from_xnd (length argv) x None]).
Proof.
  intros Hsel0. destruct (call_path_of argv self w) as [_ Hpath].
  assert (length argv <= NDT_MAX_ARGS
          /\ forallb rb_xnd_check_type argv = true /\ set kernel <> None
          \/ exists pre, call_events argv self w = pre
                /\ Forall no_resolve_call pre
                /\ forall v, call_outcome argv self w <> Return v)
    as [(Hmax & Hxnd & Hset)|(pre & He & Hq & Ho)].
  { destruct Hpath as [| |k s c ? ? Hsel ?|k s c st oks ? ? Hsel ? Hp
                       |k s c oks st re rc' ws c' ? ? Hsel ? Hp Hap ?
                       |k s c oks st re rc' ws c' res st' re' v ? ? Hsel ? Hp
                          ? ? Hr ?
                       |k s c oks st re rc' ws c' ? ? Hsel ? Hp ? ? Hf];
      try (rewrite Hsel0 in Hsel; injection Hsel as <- <- <-; by left);
      right; eexists; (split; [done|]); split; try done; by repeat constructor. }
  2:{ exists pre, [], []. rewrite !app_nil_r. split; [done|].
      split; [done|]. split; [constructor|]. right. by left. }
  destruct (call_staged _ _ _ _ _ _ Hmax Hxnd Hsel0 Hset) as (evs & -> & Hst).
  destruct Hst as [s oks Hplan
                  |oks st re rc' ws c' Hplan Hap Hneg
                  |oks st re rc' ws c' res st' re' v Hplan Hap Hpos Hres Hv
                  |oks st re rc' ws c' Hplan Hap Hpos Hf].
  - apply plan_run_calls in Hplan as (Hp & _); [|done].
    eexists (_ :: oks), [], []. rewrite !app_nil_r. split; [done|].
    split; [|split; [constructor|right; by left]].
    constructor; [done|]. destruct s as [e|]; simpl in Hp.
    + destruct Hp as (oks' & t' & _ & -> & Hoks).
      apply Forall_app. split; [by apply alloc_ok_no_resolve_call|].
      by repeat constructor.
    + by apply alloc_ok_no_resolve_call.
  - apply plan_run_calls in Hplan as ((Hoks & _) & _); [|done].
    eexists (_ :: oks ++ [Ev_gm_apply HAVE_PTHREAD_H st rc'; Ev_seterr c']),
      [], [].
    rewrite !app_nil_r. split; [done|].
    split; [|split; [constructor|right; by left]].
    constructor; [done|].
    apply Forall_app. split; [by apply alloc_ok_no_resolve_call|].
    by repeat constructor.
  - apply plan_run_calls in Hplan as (Hp & _); [|done].
    destruct Hp as (Hoks & Hls & Hlr & Hb & _ & _ & Hsl).
    assert (forall j, j < nout spec -> is_Some (out spec !! j)) as Hout.
    { intros j ?. destruct (Hsl j ltac:(lia)) as (t & -> & _). by eexists. }
    apply (resolve_run_calls _ _ _ _ _ _ _ res) in Hres as (_ & Hcalls);
      [|simpl; by rewrite <- app_assoc|done
       |destruct Hb; [by left|right; lia]
       |by rewrite length_apply_writes|done].
    eexists (_ :: oks ++ [_]), res, (broadcast_dels spec (length argv)).
    split; [simpl; by rewrite <- app_assoc|].
    split.
    { constructor; [done|]. apply Forall_app.
      split; [by apply alloc_ok_no_resolve_call|by repeat constructor]. }
    split; [apply broadcast_dels_no_resolve_call|].
    left. split; [by eexists|done].
  - apply first_conversion_fails_events in Hf as (t0 & x0 & ->).
    apply plan_run_calls in Hplan as ((Hoks & _) & _); [|done].
    eexists (_ :: oks ++ [Ev_gm_apply HAVE_PTHREAD_H st rc';
                          Ev_ndt_del (Some t0)]),
      [Ev_rb_xnd_from_xnd (length argv) x0 None], [].
    split; [simpl; by rewrite <- app_assoc|].
    split.
    { constructor; [done|]. apply Forall_app.
      split; [by apply alloc_ok_no_resolve_call|by repeat constructor]. }
    split; [constructor|]. do 2 right. split; [done|]. by exists x0.
Qed.


(** X7: a call that returns has converted each abstract output exactly once,
    from its own stack slot and in the order of the outputs, whether or not
    an earlier conversion failed. *)
Theorem one_conversion_per_abstract_output argv (self : GufuncObject) w
    kernel spec ctx v :
  selection argv self w = (kernel, spec, ctx) ->
  call_outcome argv self w = Return v ->
  conversion_slots (call_events argv self w)
  = (fun j => length argv + j)
      <$> List.filter (abstract_at spec) (seq 0 (nout spec)).
Proof.
  intros Hsel Hret.
  destruct (resolve_part _ _ _ _ _ _ Hsel)
    as (pre & res & post & -> & Hpre & Hpost & Hres).
  apply no_resolve_call_quiet in Hpre as (Hpc & _).
  apply no_resolve_call_quiet in Hpost as (Hqc & _).
  destruct Hres as [(_ & Hconv & _)|[(Hno & _)|(Hundef & _)]];
    [|by apply Hno in Hret|congruence].
  by rewrite !conversion_slots_app, Hpc, Hqc, Hconv, app_nil_r.
Qed.


(** The checks of lines 141-154, which come before any call into a
    collaborator, on any receiver. *)
Lemma early_checks argv (self : receiver) w :
  (NDT_MAX_ARGS < length argv ->
   call_outcome argv self w
   = Stop (Raise (rb_eArgError "too many arguments.")))
  /\ (length argv <= NDT_MAX_ARGS ->
      forallb rb_xnd_check_type argv = false ->
      call_outcome argv self w
      = Stop (Raise (rb_eArgError "Args must be XND.")))
  /\ (forall v, length argv <= NDT_MAX_ARGS ->
      forallb rb_xnd_check_type argv = true -> self = untyped v ->
      call_outcome argv self w = Stop (Raise rb_eTypeError)).
Proof.
  unfold call_outcome, Gumath_GufuncObject_call. mrun.
  split; [|split].
  - intros Hmany. rewrite bool_decide_eq_true_2 by done. by mrun.
  - intros Hmax Hxnd. rewrite bool_decide_eq_false_2 by lia.
    mrun. rewrite args_loop by done. by rewrite Hxnd.
  - intros v Hmax Hxnd ->. rewrite bool_decide_eq_false_2 by lia.
    mrun. rewrite args_loop by done. rewrite Hxnd. by mrun.
Qed.

(** X9: the exceptions of the call and their causes, on any receiver.  It
    raises the argument error for too many arguments exactly when there are
    more than [NDT_MAX_ARGS]; otherwise the argument error of the type check
    when an argument is not an XND object; otherwise [TypeError] when the
    receiver is not a GufuncObject; all three before any call into a
    collaborator.  The only other exceptions are the no-memory error, after
    a failed allocation, and the error of a context, recorded by the last
    call made: [raise_error] is never reached without a recorded error. *)
Theorem raised_errors argv (self : receiver) w :
  (NDT_MAX_ARGS < length argv ->
   call_outcome argv self w
   = Stop (Raise (rb_eArgError "too many arguments.")))
  /\ (length argv <= NDT_MAX_ARGS ->
      forallb rb_xnd_check_type argv = false ->
      call_outcome argv self w
      = Stop (Raise (rb_eArgError "Args must be XND.")))
  /\ (forall v, length argv <= NDT_MAX_ARGS ->
      forallb rb_xnd_check_type argv = true -> self = untyped v ->
      call_outcome argv self w = Stop (Raise rb_eTypeError))
  /\ (forall e,
      call_outcome argv self w = Stop (Raise e) ->
      (e = rb_eArgError "too many arguments."
       /\ NDT_MAX_ARGS < length argv /\ call_events argv self w = [])
      \/ (e = rb_eArgError "Args must be XND."
          /\ length argv <= NDT_MAX_ARGS
          /\ forallb rb_xnd_check_type argv = false
          /\ call_events argv self w = [])
      \/ (e = rb_eTypeError
          /\ length argv <= NDT_MAX_ARGS
          /\ forallb rb_xnd_check_type argv = true
          /\ (exists v, self = untyped v)
          /\ call_events argv self w = [])
      \/ (e = rb_eNoMemError "could not allocate empty XND object."
          /\ exists t,
               Ev_rb_xnd_empty_from_type t None ∈ call_events argv self w)
      \/ (exists ctx pre,
            e = rb_errinfo (Some ctx)
            /\ call_events argv self w = pre ++ [Ev_seterr ctx])).
Proof.
  destruct (early_checks argv self w) as (Hmany & Hxnd & Htype).
  split; [done|]. split; [done|]. split; [done|].
  intros e Hraise.
  assert ((forall g : GufuncObject, self <> g) ->
          call_events argv self w = []
          /\ (NDT_MAX_ARGS < length argv
              \/ length argv <= NDT_MAX_ARGS
                 /\ forallb rb_xnd_check_type argv = false
              \/ length argv <= NDT_MAX_ARGS
                 /\ forallb rb_xnd_check_type argv = true
                 /\ exists v, self = untyped v)) as Hother.
  { intros Hself.
    destruct (call_other_receiver argv self w Hself) as [Hrun Hev].
    split; [done|]. unfold call_outcome in Hraise. rewrite Hrun in Hraise.
    simpl in Hraise. case_bool_decide; [by left|right].
    destruct (forallb rb_xnd_check_type argv); [right|left; split; [lia|done]].
    split; [lia|]. split; [done|].
    destruct self as [?|v]; [done|by exists v]. }
  destruct self as [[self|tbl]|v].
  2,3: destruct Hother as (Hev & [?|[(? & ?)|(? & ? & v' & ?)]]); [done|..];
       [rewrite Hmany in Hraise by done; injection Hraise as <-; by left
       |rewrite Hxnd in Hraise by done; injection Hraise as <-;
        right; by left
       |rewrite (Htype v') in Hraise by done; injection Hraise as <-;
        do 2 right; left; repeat split; try done; by exists v'].
  clear Hother. destruct (call_path_of argv self w) as [_ Hpath].
  rewrite Hraise in Hpath.
  inversion Hpath as [| |k s c ? ? Hsel ?|k s c st oks ? ? Hsel ? Hp
                     |k s c oks st re rc' ws c' ? ? Hsel ? Hp Hap ?| |];
    subst.
  - by left.
  - right. by left.
  - do 4 right. by eexists _, [_].
  - simpl in Hp. destruct Hp as (oks' & t' & -> & -> & _).
    do 3 right. left. split; [done|]. exists t'.
    apply elem_of_cons. right. apply elem_of_app. right.
    apply elem_of_cons. by left.
  - do 4 right. eexists _, (_ :: oks ++ [_]).
    split; [done|]. simpl. by rewrite <- app_assoc.
Qed.

(** X10: on a receiver that is a GufuncObject with a name, the selector is
    consulted exactly when the arguments have passed both checks, then once,
    and the kernel is run at most once in a call; on a receiver that is not
    a GufuncObject no collaborator is called at all. *)
Theorem one_selection_one_kernel_run argv w :
  (forall self : GufuncObject,
     selected_specs (call_events argv self w)
     = (if bool_decide (length argv <= NDT_MAX_ARGS)
           && forallb rb_xnd_check_type argv
        then [(selection argv self w).1.2] else [])
     /\ length (kernel_runs (call_events argv self w)) <= 1)
  /\ (forall v, call_events argv (untyped v) w = []).
Proof.
  split; [|intros v; by apply call_other_receiver].
  intros self.
  destruct (call_path_of argv self w) as [_ Hpath].
  destruct Hpath as [| |k s c ? Hxnd Hsel ?|k s c st oks ? Hxnd Hsel ? Hp
                     |k s c oks st re rc' ws c' ? Hxnd Hsel ? Hp Hap ?
                     |k s c oks st re rc' ws c' res st' re' v ? Hxnd Hsel ? Hp
                        ? ? Hr ?
                     |k s c oks st re rc' ws c' ? Hxnd Hsel ? Hp ? ? Hf].
  - rewrite bool_decide_eq_false_2 by lia. simpl. split; [done|lia].
  - rewrite bool_decide_eq_true_2 by done. simpl.
    match goal with H : forallb _ _ = false |- _ => rewrite H end.
    simpl. split; [done|lia].
  - rewrite bool_decide_eq_true_2, Hxnd, Hsel by done. simpl.
    split; [done|lia].
  - rewrite bool_decide_eq_true_2, Hxnd, Hsel by done.
    assert (selected_specs oks = [] /\ kernel_runs oks = []) as [Hs Hk].
    { destruct st as [e|]; simpl in Hp.
      - destruct Hp as (oks' & t' & _ & -> & Hoks).
        apply alloc_ok_quiet in Hoks as (Hs & Hk & _).
        unfold selected_specs, kernel_runs in *.
        rewrite !omap_app, Hs, Hk. done.
      - by apply alloc_ok_quiet in Hp as (Hs & Hk & _). }
    simpl. rewrite Hs, Hk. split; [done|simpl; lia].
  - rewrite bool_decide_eq_true_2, Hxnd, Hsel by done.
    destruct Hp as (Hoks & _).
    apply alloc_ok_quiet in Hoks as (Hs & Hk & _).
    unfold selected_specs, kernel_runs in *. simpl.
    rewrite !omap_app, Hs, Hk. simpl. split; [done|lia].
  - rewrite bool_decide_eq_true_2, Hxnd, Hsel by done.
    destruct Hp as (Hoks & _).
    apply alloc_ok_quiet in Hoks as (Hs & Hk & _).
    destruct Hr as (? & ? & _ & Hres & _).
    apply resolve_quiet in Hres as (Hs' & Hk' & _).
    destruct (broadcast_dels_quiet s (length argv)) as (Hs'' & Hk'' & _).
    unfold selected_specs, kernel_runs in *. simpl.
    rewrite !omap_app, Hs, Hk. simpl.
    rewrite !omap_app, Hs', Hk', Hs'', Hk''. simpl. split; [done|lia].
  - rewrite bool_decide_eq_true_2, Hxnd, Hsel by done.
    destruct Hp as (Hoks & _).
    apply alloc_ok_quiet in Hoks as (Hs & Hk & _).
    apply first_conversion_fails_events in Hf as (t0 & x0 & ->).
    unfold selected_specs, kernel_runs in *. simpl.
    rewrite !omap_app, Hs, Hk. simpl. split; [done|lia].
Qed.


(** X20: when the conversion of the first output fails, the call is
    undefined: the cleanup of lines 203-207 starts at [k = 0 + 0] and asks
    [spec.out[0]] for its kind, which line 199 has just freed. *)
Theorem failed_first_conversion_is_undefined argv (self : GufuncObject) w x :
  Ev_rb_xnd_from_xnd (length argv) x None ∈ call_events argv self w ->
  call_outcome argv self w = Stop Undefined.
Proof.
  intros Hin.
  destruct (selection argv self w) as [[kernel spec] ctx] eqn:Hsel.
  destruct (resolve_part _ _ _ _ _ _ Hsel)
    as (pre & res & post & He & Hpre & Hpost & Hres).
  rewrite He in Hin. clear He.
  apply no_resolve_call_quiet in Hpre as (_ & _ & Hpc & _).
  apply no_resolve_call_quiet in Hpost as (_ & _ & Hqc & _).
  destruct Hres as [(_ & _ & _ & _ & Hfirst)|[(_ & ->)|(Hundef & _)]];
    [exfalso..|done].
  - elem_cases Hin; [by apply Hpc in Hin|by apply Hfirst in Hin
                    |by apply Hqc in Hin].
  - elem_cases Hin; [by apply Hpc in Hin|by apply Hqc in Hin].
Qed.

(** X12: the object that [add_function] has registered for a function
    whose name could be copied carries the table it was registered from and
    that name, and a call of it with arguments that pass the checks starts
    by asking the selector for that name in that table. *)
Theorem registered_function_dispatches new_obj ndt_strdup f a r rc r' ctx
    argv w :
  add_function new_obj ndt_strdup f a r = Some (rc, r') ->
  ndt_strdup (func_name f) = (Some (func_name f), ctx) ->
  length argv <= NDT_MAX_ARGS ->
  forallb rb_xnd_check_type argv = true ->
  exists g,
    guobjs r' !! new_obj = Some (Named g)
    /\ guobj_table g = map_table a /\ guobj_name g = func_name f
    /\ exists kernel spec ctx' rest,
         gm_select lib (trace w) (map_table a) (func_name f)
           (in_types_of argv) (length argv) (stack_of argv)
         = (kernel, spec, ctx')
         /\ call_events argv g w
            = Ev_gm_select (func_name f) (in_types_of argv) (length argv)
                kernel spec :: rest.
Proof.
  intros Hadd Hdup Hmax Hxnd. unfold add_function, GufuncObject_alloc in Hadd.
  rewrite Hdup in Hadd. simpl in Hadd.
  destruct (function_hash r !! module a) as [h|]; [|done].
  injection Hadd as <- <-. simpl.
  eexists. rewrite lookup_insert_eq. split; [done|]. simpl.
  split; [done|]. split; [done|].
  set (g := {| guobj_table := map_table a; guobj_name := func_name f |}).
  destruct (gm_select lib (trace w) (map_table a) (func_name f)
              (in_types_of argv) (length argv) (stack_of argv))
    as [[kernel spec] ctx'] eqn:Hsel.
  exists kernel, spec, ctx'.
  assert (selection argv g w = (kernel, spec, ctx')) as Hsel' by exact Hsel.
  destruct (call_path_of argv g w) as [_ Hpath].
  destruct Hpath as [| |k s c ? ? Hs ?|k s c st oks ? ? Hs ? Hp
                     |k s c oks st re rc' ws c' ? ? Hs ? Hp Hap ?
                     |k s c oks st re rc' ws c' res st' re' v ? ? Hs ? Hp
                        ? ? Hr ?
                     |k s c oks st re rc' ws c' ? ? Hs ? Hp ? ? Hf];
    try lia; try congruence;
    rewrite Hsel' in Hs; injection Hs as <- <- <-; by eexists.
Qed.

End Gumath.

(** ** The class methods *)

(** C9, at every input: [Gumath_s_unsafe_add_kernel] has an empty body, so it
    raises nothing, hands back no value and leaves the world, and with it the
    kernel table, as it was. *)
Theorem unsafe_add_kernel_does_nothing argv klass w :
  Gumath_s_unsafe_add_kernel argv klass w = (Return None, w).
Proof. reflexivity. Qed.

(** C5, at every input: [Gumath_s_set_max_threads] has an empty body, so for
    any value it raises nothing and [Gumath_s_get_max_threads] afterwards
    still answers with the old [max_threads]. *)
Theorem set_max_threads_does_nothing klass threads w :
  Gumath_s_set_max_threads klass threads w = (Return None, w)
  /\ (Gumath_s_set_max_threads klass threads
        ≫= fun _ => Gumath_s_get_max_threads klass) w
     = (Return (Some (INT2NUM (max_threads w))), w).
Proof. split; reflexivity. Qed.

(** ** The properties on the sample inputs *)

(** C1, at a failing input: with four abstract outputs and one argument, the
    conversion of the third output (slot 3) fails; the cleanup starts at
    [k = 2 + 2], so the fourth output is not released, no error is raised and
    the caller gets an array with a NULL in it. *)
Theorem conversion_failure_skips_next_output :
  let evs := call_events 128 false lib_conversion_fails xnd_error None Qnil
               one_argument sample_self sample_world in
  Ev_rb_xnd_from_xnd 3 (sample_buffer 23) None ∈ evs
  /\ released evs = []
  /\ call_outcome 128 false lib_conversion_fails xnd_error None Qnil
       one_argument sample_self sample_world
     = Return (RArray [RXnd (sample_buffer 21); RXnd (sample_buffer 22);
                       VNULL; RXnd (sample_buffer 24)]).
Proof.
  split; [apply list_elem_of_In; vm_compute; tauto|].
  split; vm_compute; reflexivity.
Qed.

(** C2, a counterexample: the second of two allocations fails; the buffer
    allocated first is not released. *)
Lemma allocation_failure_releases_nothing :
  let evs := call_events 128 true lib_allocation_fails xnd_error None Qnil
               two_arguments sample_self sample_world in
  Ev_rb_xnd_empty_from_type (concrete_type 2) None ∈ evs
  /\ allocated evs = [first_allocated 1]
  /\ released evs = []
  /\ ~ (forall b, b ∈ allocated evs -> b ∈ released evs).
Proof.
  assert (allocated
            (call_events 128 true lib_allocation_fails xnd_error None Qnil
               two_arguments sample_self sample_world)
          = [first_allocated 1]) as Ha by (vm_compute; reflexivity).
  assert (released
            (call_events 128 true lib_allocation_fails xnd_error None Qnil
               two_arguments sample_self sample_world) = []) as Hr
    by (vm_compute; reflexivity).
  cbv zeta. rewrite Ha, Hr.
  split; [apply list_elem_of_In; vm_compute; tauto|].
  split; [done|]. split; [done|].
  intros H. specialize (H (first_allocated 1)).
  eapply not_elem_of_nil, H. apply list_elem_of_singleton. done.
Qed.

(** C3, a counterexample: the threaded kernel run fails after one output
    buffer was allocated; that buffer is not released. *)
Lemma apply_failure_releases_nothing :
  let evs := call_events 128 true lib_apply_fails xnd_error None Qnil
               two_arguments sample_self sample_world in
  Ev_gm_apply true broadcast_apply_stack (-1) ∈ evs
  /\ allocated evs = [first_allocated 1]
  /\ released evs = []
  /\ ~ (forall b, b ∈ allocated evs -> b ∈ released evs).
Proof.
  assert (allocated
            (call_events 128 true lib_apply_fails xnd_error None Qnil
               two_arguments sample_self sample_world)
          = [first_allocated 1]) as Ha by (vm_compute; reflexivity).
  assert (released
            (call_events 128 true lib_apply_fails xnd_error None Qnil
               two_arguments sample_self sample_world) = []) as Hr
    by (vm_compute; reflexivity).
  cbv zeta. rewrite Ha, Hr.
  split; [apply list_elem_of_In; vm_compute; tauto|].
  split; [done|]. split; [done|].
  intros H. specialize (H (first_allocated 1)).
  eapply not_elem_of_nil, H. apply list_elem_of_singleton. done.
Qed.

(** C4, at a failing input: the kernel run fails on a call whose ApplySpec
    holds two broadcast descriptors; the call raises without a call of
    [ndt_apply_spec_clear] or [ndt_del], so the descriptors stay allocated. *)
Theorem apply_failure_keeps_apply_spec :
  let evs := call_events 128 true lib_apply_fails xnd_error None Qnil
               two_arguments sample_self sample_world in
  (selection 128 lib_apply_fails xnd_error None two_arguments sample_self
     sample_world).1.2 = spec_broadcast
  /\ call_outcome 128 true lib_apply_fails xnd_error None Qnil
       two_arguments sample_self sample_world
     = Stop (Raise (rb_errinfo (Some (kernel_context (-1)))))
  /\ cleared_specs evs = []
  /\ deleted_types evs = [].
Proof. repeat split; vm_compute; reflexivity. Qed.

(** The amended C2 on the call whose second allocation fails. *)
Lemma allocation_failure_raises_witness :
  let evs := call_events 128 true lib_allocation_fails xnd_error None Qnil
               two_arguments sample_self sample_world in
  Ev_rb_xnd_empty_from_type (concrete_type 2) None ∈ evs
  /\ call_outcome 128 true lib_allocation_fails xnd_error None Qnil
       two_arguments sample_self sample_world
     = Stop (Raise (rb_eNoMemError "could not allocate empty XND object."))
  /\ released evs = [].
Proof.
  assert (Ev_rb_xnd_empty_from_type (concrete_type 2) None
            ∈ call_events 128 true lib_allocation_fails xnd_error None Qnil
                two_arguments sample_self sample_world) as Hin
    by (apply list_elem_of_In; vm_compute; tauto).
  split; [exact Hin|].
  pose proof (allocation_failure_raises 128 true lib_allocation_fails
                xnd_error None Qnil two_arguments sample_self sample_world
                (concrete_type 2) Hin) as (Ho & _ & Hr).
  split; [exact Ho|exact Hr].
Defined.

(** The amended C3 on the call whose kernel run fails. *)
Lemma apply_failure_raises_witness :
  let evs := call_events 128 true lib_apply_fails xnd_error None Qnil
               two_arguments sample_self sample_world in
  Ev_gm_apply true broadcast_apply_stack (-1) ∈ evs
  /\ (-1 < 0)%Z
  /\ exists pre ctx,
       evs = pre ++ [Ev_gm_apply true broadcast_apply_stack (-1);
                     Ev_seterr ctx]
       /\ call_outcome 128 true lib_apply_fails xnd_error None Qnil
            two_arguments sample_self sample_world
          = Stop (Raise (rb_errinfo (Some ctx)))
       /\ forall b, b ∈ allocated evs -> b ∉ released evs.
Proof.
  assert (Ev_gm_apply true broadcast_apply_stack (-1)
            ∈ call_events 128 true lib_apply_fails xnd_error None Qnil
                two_arguments sample_self sample_world) as Hin
    by (apply list_elem_of_In; vm_compute; tauto).
  assert (-1 < 0)%Z as Hneg by lia.
  split; [exact Hin|]. split; [exact Hneg|].
  destruct (apply_failure_raises 128 true lib_apply_fails xnd_error None Qnil
              two_arguments sample_self sample_world true
              broadcast_apply_stack (-1) Hin Hneg)
    as (pre & ctx & He & _ & Ho & Hrel).
  exists pre, ctx. split; [exact He|]. split; [exact Ho|exact Hrel].
Defined.

(** C6 on a call with 129 arguments. *)
Lemma too_many_arguments_checked_first_witness :
  128 < length (replicate 129 (RXnd (sample_buffer 10)))
  /\ Gumath_GufuncObject_call 128 true lib_succeeds xnd_error None Qnil
       (replicate 129 (RXnd (sample_buffer 10))) sample_self sample_world
     = (Stop (Raise (rb_eArgError "too many arguments.")), sample_world)
  /\ call_events 128 true lib_succeeds xnd_error None Qnil
       (replicate 129 (RXnd (sample_buffer 10))) sample_self sample_world
     = [].
Proof.
  assert (128 < length (replicate 129 (RXnd (sample_buffer 10)))) as H
    by (rewrite length_replicate; lia).
  split; [exact H|].
  exact (too_many_arguments_checked_first 128 true lib_succeeds xnd_error
           None Qnil _ sample_self sample_world H).
Defined.

(** C10 on a call whose second argument is not an XND object, and on a call
    with two XND objects. *)
Lemma arguments_checked_before_selection_witness :
  (exists a, a ∈ [RXnd (sample_buffer 10); RObject 7]
             /\ rb_xnd_check_type a = false)
  /\ (exists m,
        Gumath_GufuncObject_call 128 true lib_succeeds xnd_error None Qnil
          [RXnd (sample_buffer 10); RObject 7] sample_self sample_world
        = (Stop (Raise (rb_eArgError m)), sample_world)
        /\ call_events 128 true lib_succeeds xnd_error None Qnil
             [RXnd (sample_buffer 10); RObject 7] sample_self sample_world
           = []
        /\ (2 <= 128 -> m = "Args must be XND."))
  /\ Ev_gm_select "f"
       ([Some (concrete_type 10); Some (concrete_type 11)]
          ++ replicate 126 None) 2 sample_kernel spec_mixed
     ∈ call_events 128 true lib_succeeds xnd_error None Qnil two_arguments
         sample_self sample_world
  /\ take 2 ([Some (concrete_type 10); Some (concrete_type 11)]
               ++ replicate 126 None)
     = (fun a => type (rb_xnd_const_xnd a)) <$> two_arguments.
Proof.
  assert (exists a, a ∈ [RXnd (sample_buffer 10); RObject 7]
                    /\ rb_xnd_check_type a = false) as Hbad.
  { exists (RObject 7). split; [|reflexivity].
    apply list_elem_of_In. simpl. tauto. }
  assert (Ev_gm_select "f"
            ([Some (concrete_type 10); Some (concrete_type 11)]
               ++ replicate 126 None) 2 sample_kernel spec_mixed
          ∈ call_events 128 true lib_succeeds xnd_error None Qnil
              two_arguments sample_self sample_world) as Hin
    by (apply list_elem_of_In; vm_compute; tauto).
  split; [exact Hbad|].
  split.
  - exact (proj1 (arguments_checked_before_selection 128 true lib_succeeds
                    xnd_error None Qnil _ sample_self sample_world) Hbad).
  - split; [exact Hin|].
    exact (proj2 (proj2 (proj2 (arguments_checked_before_selection 128 true
                    lib_succeeds xnd_error None Qnil two_arguments sample_self
                    sample_world) _ _ _ _ _ Hin))).
Defined.

(** C7 on a call with a concrete and an abstract output. *)
Lemma results_match_outputs_witness :
  let v := RArray [RXnd (first_allocated 1); RXnd (sample_buffer 23)] in
  call_outcome 128 true lib_succeeds xnd_error None Qnil two_arguments
    sample_self sample_world = Return v
  /\ selection 128 lib_succeeds xnd_error None two_arguments sample_self
       sample_world = (sample_kernel, spec_mixed, NDT_STATIC_CONTEXT)
  /\ exists rs, length rs = 2 /\ v = pack_values rs.
Proof.
  assert (call_outcome 128 true lib_succeeds xnd_error None Qnil
            two_arguments sample_self sample_world
          = Return (RArray [RXnd (first_allocated 1);
                            RXnd (sample_buffer 23)])) as Ho
    by (vm_compute; reflexivity).
  assert (selection 128 lib_succeeds xnd_error None two_arguments sample_self
            sample_world = (sample_kernel, spec_mixed, NDT_STATIC_CONTEXT))
    as Hs by (vm_compute; reflexivity).
  split; [exact Ho|]. split; [exact Hs|].
  destruct (results_match_outputs 128 true lib_succeeds xnd_error None Qnil
              two_arguments sample_self sample_world _ _ _ _ Ho Hs)
    as (rs & Hlen & Hv & _).
  exists rs. split; [exact Hlen|exact Hv].
Defined.

(** C8 on the same call, whose ApplySpec has [nbroadcast = 2]: the kernel
    finds the buffer of the first argument, which came with type 10, under
    the broadcast descriptor 31, and the call deletes the descriptor of the
    abstract output and the two broadcast descriptors. *)
Lemma broadcast_rewrite_iff_nbroadcast_witness :
  let evs := call_events 128 true lib_succeeds xnd_error None Qnil
               two_arguments sample_self sample_world in
  selection 128 lib_succeeds xnd_error None two_arguments sample_self
    sample_world = (sample_kernel, spec_mixed, NDT_STATIC_CONTEXT)
  /\ Ev_gm_apply true broadcast_apply_stack 0 ∈ evs
  /\ two_arguments !! 0 = Some (RXnd (sample_buffer 10))
  /\ call_outcome 128 true lib_succeeds xnd_error None Qnil two_arguments
       sample_self sample_world
     = Return (RArray [RXnd (first_allocated 1); RXnd (sample_buffer 23)])
  /\ (exists x,
        broadcast_apply_stack !! 0 = Some x
        /\ ptr x = 10
        /\ type x = Some (concrete_type 31))
  /\ deleted_types evs
     = [Some (abstract_type 2); Some (concrete_type 31);
        Some (concrete_type 32)].
Proof.
  cbv zeta.
  assert (selection 128 lib_succeeds xnd_error None two_arguments sample_self
            sample_world = (sample_kernel, spec_mixed, NDT_STATIC_CONTEXT))
    as Hs by (vm_compute; reflexivity).
  assert (Ev_gm_apply true broadcast_apply_stack 0
            ∈ call_events 128 true lib_succeeds xnd_error None Qnil
                two_arguments sample_self sample_world) as Hin
    by (apply list_elem_of_In; vm_compute; tauto).
  assert (two_arguments !! 0 = Some (RXnd (sample_buffer 10))) as Ha
    by reflexivity.
  assert (call_outcome 128 true lib_succeeds xnd_error None Qnil
            two_arguments sample_self sample_world
          = Return (RArray [RXnd (first_allocated 1);
                            RXnd (sample_buffer 23)])) as Ho
    by (vm_compute; reflexivity).
  split; [exact Hs|]. split; [exact Hin|]. split; [exact Ha|].
  split; [exact Ho|].
  destruct (broadcast_rewrite_iff_nbroadcast 128 true lib_succeeds
              xnd_error None Qnil two_arguments sample_self sample_world
              _ _ _ Hs) as (Hstack & Hdel & _).
  split.
  - exact (Hstack true broadcast_apply_stack 0%Z Hin 0
             (RXnd (sample_buffer 10)) Ha).
  - exact (Hdel _ Ho).
Defined.

(** ** The initialisation and the registration *)

Lemma to_int_int_range z : int_range z -> to_int z = z.
Proof.
  unfold int_range, to_int. intros Hz.
  rewrite Z.mod_small by lia. lia.
Qed.

Lemma get_max_threads_exact klass w :
  int_range (max_threads w) ->
  Gumath_s_get_max_threads klass w
  = (Return (Some (RInteger (max_threads w))), w).
Proof.
  intros Hz. unfold Gumath_s_get_max_threads, INT2NUM.
  by rewrite to_int_int_range.
Qed.

Lemma Init_keeps_process_ok a p :
  (forall z, NUM2INT a (nprocessors a) = Some z -> int_range z) ->
  process_ok p -> process_ok (Init_ruby_gumath a p).2.
Proof.
  intros Hn [Ht Hz].
  unfold Init_ruby_gumath, initialize_once, init_max_threads, process_ok.
  destruct (proc_initialized p) eqn:Hi; simpl;
    [split; [intros _; by apply Ht|done]|].
  destruct (xnd_exists a); simpl; [|by split].
  destruct (ndt_exists a); simpl; [|by split].
  destruct (gm_tbl_new a) as [[t|] ctx]; simpl; [|by split].
  destruct (NUM2INT a (nprocessors a)) as [n|] eqn:En; simpl.
  - split; [by eexists|by apply Hn].
  - by split.
Qed.

(** X13: in every state that initialisations reach from the start, whether
    they have returned or raised, an initialised file has a kernel table and
    [max_threads] fits a C [int], whatever the collaborators answered, as
    long as [NUM2INT] answers with [int]s. *)
Theorem initialised_has_table answers :
  Forall (fun a => forall z, NUM2INT a (nprocessors a) = Some z ->
                             int_range z) answers ->
  process_ok (run_inits answers process_start).
Proof.
  assert (process_ok process_start) as Hstart.
  { split; [done|]. unfold int_range. simpl. lia. }
  revert Hstart. generalize process_start.
  induction answers as [|a rest IH]; intros p Hp Hall; [done|].
  apply Forall_cons in Hall as [Ha Hrest]. simpl.
  apply IH; [|done]. by apply Init_keeps_process_ok.
Qed.

(** X14: an initialisation after one that has returned is inert: whatever
    the collaborators answer now, it returns, makes no further call of
    [gm_init], keeps the kernel table and [max_threads], and only repeats the
    Ruby definitions. *)
Theorem second_init_is_inert a1 a2 p :
  (Init_ruby_gumath a1 p).1 = None ->
  let p1 := (Init_ruby_gumath a1 p).2 in
  let p2 := (Init_ruby_gumath a2 p1).2 in
  (Init_ruby_gumath a2 p1).1 = None
  /\ proc_initialized p1 = true
  /\ proc_table p2 = proc_table p1
  /\ proc_max_threads p2 = proc_max_threads p1
  /\ proc_gm_inits p2 = proc_gm_inits p1
  /\ proc_defined p2 = proc_defined p1 ++ gumath_definitions.
Proof.
  intros Hok. cbv zeta.
  assert (proc_initialized (Init_ruby_gumath a1 p).2 = true) as Hi.
  { revert Hok. unfold Init_ruby_gumath, initialize_once, init_max_threads.
    destruct (proc_initialized p) eqn:Hi; simpl; [done|].
    destruct (xnd_exists a1); simpl; [|done].
    destruct (ndt_exists a1); simpl; [|done].
    destruct (gm_tbl_new a1) as [[t|] ctx]; simpl; [|done].
    by destruct (NUM2INT a1 (nprocessors a1)). }
  revert Hi. generalize (Init_ruby_gumath a1 p).2. intros p1 Hi.
  unfold Init_ruby_gumath. rewrite Hi. done.
Qed.

(** X15: an initialisation that raises leaves [initialized] at 0 and
    [max_threads] as it was and makes no Ruby definition, but it has called
    [gm_init]: the next initialisation starts over. *)
Theorem failed_init_starts_over a p e :
  (Init_ruby_gumath a p).1 = Some e ->
  proc_initialized p = false
  /\ proc_initialized (Init_ruby_gumath a p).2 = false
  /\ proc_max_threads (Init_ruby_gumath a p).2 = proc_max_threads p
  /\ proc_defined (Init_ruby_gumath a p).2 = proc_defined p
  /\ proc_gm_inits (Init_ruby_gumath a p).2 = S (proc_gm_inits p).
Proof.
  unfold Init_ruby_gumath, initialize_once, init_max_threads.
  destruct (proc_initialized p) eqn:Hi; simpl; [done|].
  destruct (xnd_exists a); simpl; [|done].
  destruct (ndt_exists a); simpl; [|done].
  destruct (gm_tbl_new a) as [[t|] ctx]; simpl; [|done].
  by destruct (NUM2INT a (nprocessors a)).
Qed.

(** X16: the first initialisation returns exactly when libxnd and
    libndtypes are there, the kernel table could be made and the number of
    processors converts to an [int]; the file is then initialised with that
    table, and [get_max_threads] answers with that number. *)
Theorem first_init_sets_max_threads a p :
  proc_initialized p = false ->
  (forall z, NUM2INT a (nprocessors a) = Some z -> int_range z) ->
  ((Init_ruby_gumath a p).1 = None
   <-> xnd_exists a = true /\ ndt_exists a = true
       /\ is_Some (gm_tbl_new a).1
       /\ is_Some (NUM2INT a (nprocessors a)))
  /\ ((Init_ruby_gumath a p).1 = None ->
      exists t n,
        (gm_tbl_new a).1 = Some t
        /\ NUM2INT a (nprocessors a) = Some n
        /\ proc_initialized (Init_ruby_gumath a p).2 = true
        /\ forall tr klass,
             process_world (Init_ruby_gumath a p).2 tr
               = Some {| table := t; max_threads := n; trace := tr |}
             /\ Gumath_s_get_max_threads klass
                  {| table := t; max_threads := n; trace := tr |}
                = (Return (Some (RInteger n)),
                   {| table := t; max_threads := n; trace := tr |})).
Proof.
  intros Hi Hn.
  unfold Init_ruby_gumath, initialize_once, init_max_threads.
  rewrite Hi. simpl.
  destruct (xnd_exists a); simpl.
  2:{ split; [split; [done|by intros (? & _)]|done]. }
  destruct (ndt_exists a); simpl.
  2:{ split; [split; [done|by intros (_ & ? & _)]|done]. }
  destruct (gm_tbl_new a) as [[t|] ctx]; simpl.
  2:{ split; [split; [done|by intros (_ & _ & [? ?] & _)]|done]. }
  destruct (NUM2INT a (nprocessors a)) as [n|] eqn:En; simpl.
  2:{ split; [split; [done|by intros (_ & _ & _ & [? ?])]|done]. }
  split; [split; [by intros _; repeat split; eexists|done]|].
  intros _. exists t, n. repeat split; try done.
  apply (get_max_threads_exact klass
           {| table := t; max_threads := n; trace := tr |}).
  by apply Hn.
Qed.

(** X17: [add_function] on a module that has a hash of functions returns 0
    and stores the new object under the name of the function; the other
    names of that hash, the hashes of the other modules and the other
    objects are as before.  This is so whether or not the name could be
    copied. *)
Theorem add_function_registers new_obj ndt_strdup f a r h :
  function_hash r !! module a = Some h ->
  exists r',
    add_function new_obj ndt_strdup f a r = Some (0%Z, r')
    /\ function_hash r' !! module a
       = Some (<[func_name f := RObject new_obj]> h)
    /\ (forall m, m <> module a ->
          function_hash r' !! m = function_hash r !! m)
    /\ (forall o, o <> new_obj -> guobjs r' !! o = guobjs r !! o)
    /\ is_Some (guobjs r' !! new_obj).
Proof.
  intros Hh. unfold add_function, GufuncObject_alloc.
  destruct (ndt_strdup (func_name f)) as [[n|] ctx]; simpl; rewrite Hh;
    (eexists; split; [done|]; simpl;
     split; [by rewrite lookup_insert_eq|];
     split; [by intros m ?; rewrite lookup_insert_ne|];
     split; [by intros o ?; rewrite lookup_insert_ne|];
     rewrite lookup_insert_eq; by eexists).
Qed.

(** X18: two registrations in a row in the same module: the name of the
    second function leads to the second object, and the name of the first
    one to the first object unless both names are the same, in which case
    the second object has taken its place. *)
Theorem add_function_twice o1 o2 ndt_strdup f1 f2 a r h :
  function_hash r !! module a = Some h ->
  exists r1 r2 h2,
    add_function o1 ndt_strdup f1 a r = Some (0%Z, r1)
    /\ add_function o2 ndt_strdup f2 a r1 = Some (0%Z, r2)
    /\ function_hash r2 !! module a = Some h2
    /\ h2 !! func_name f2 = Some (RObject o2)
    /\ h2 !! func_name f1
       = Some (RObject (if decide (func_name f1 = func_name f2)
                        then o2 else o1))
    /\ forall n, n <> func_name f1 -> n <> func_name f2 ->
                 h2 !! n = h !! n.
Proof.
  intros Hh.
  assert (forall o f r h,
            function_hash r !! module a = Some h ->
            exists r',
              add_function o ndt_strdup f a r = Some (0%Z, r')
              /\ function_hash r' !! module a
                 = Some (<[func_name f := RObject o]> h)) as Hadd.
  { clear. intros o f r h Hh. unfold add_function, GufuncObject_alloc.
    destruct (ndt_strdup (func_name f)) as [[n|] ctx]; simpl; rewrite Hh;
      (eexists; split; [done|]; simpl; by rewrite lookup_insert_eq). }
  destruct (Hadd o1 f1 r h Hh) as (r1 & H1 & Hh1).
  destruct (Hadd o2 f2 r1 _ Hh1) as (r2 & H2 & Hh2).
  exists r1, r2. eexists. split; [done|]. split; [done|]. split; [done|].
  split; [by rewrite lookup_insert_eq|]. split.
  - case_decide as Hn.
    + by rewrite Hn, lookup_insert_eq.
    + rewrite lookup_insert_ne by done. by rewrite lookup_insert_eq.
  - intros n ? ?. by rewrite !lookup_insert_ne.
Qed.

(** X19: when the name of the function cannot be copied, [GufuncObject_alloc]
    records the error without raising it, and [add_function] still returns 0
    and registers the object, which has no name. *)
Theorem add_function_ignores_failed_copy new_obj ndt_strdup f a r h ctx :
  function_hash r !! module a = Some h ->
  ndt_strdup (func_name f) = (None, ctx) ->
  exists r' h',
    add_function new_obj ndt_strdup f a r = Some (0%Z, r')
    /\ function_hash r' !! module a = Some h'
    /\ h' !! func_name f = Some (RObject new_obj)
    /\ guobjs r' !! new_obj = Some (Unnamed (map_table a))
    /\ recorded r' = recorded r ++ [ctx].
Proof.
  intros Hh Hdup. unfold add_function, GufuncObject_alloc.
  rewrite Hdup. simpl. rewrite Hh.
  eexists _, _. split; [done|]. simpl.
  rewrite !lookup_insert_eq. done.
Qed.

(** ** The further properties on the sample inputs *)

(** X1 on a call for which the selector finds no kernel. *)
Lemma selection_failure_only_raises_witness :
  length one_argument <= 128
  /\ forallb rb_xnd_check_type one_argument = true
  /\ selection 128 lib_no_kernel xnd_error None one_argument sample_self
       sample_world
     = ({| set := None; flag := 0 |}, ndt_apply_spec_empty,
        {| err := 1; msg := "no kernel" |})
  /\ call_outcome 128 false lib_no_kernel xnd_error None Qnil one_argument
       sample_self sample_world
     = Stop (Raise (rb_errinfo (Some {| err := 1; msg := "no kernel" |})))
  /\ length (call_events 128 false lib_no_kernel xnd_error None Qnil
               one_argument sample_self sample_world) = 2.
Proof.
  assert (length one_argument <= 128) as H1 by (simpl; lia).
  assert (forallb rb_xnd_check_type one_argument = true) as H2
    by reflexivity.
  assert (selection 128 lib_no_kernel xnd_error None one_argument sample_self
            sample_world
          = ({| set := None; flag := 0 |}, ndt_apply_spec_empty,
             {| err := 1; msg := "no kernel" |})) as H3
    by (vm_compute; reflexivity).
  destruct (selection_failure_only_raises 128 false lib_no_kernel xnd_error
              None Qnil one_argument sample_self sample_world _ _ _ H1 H2 H3
              eq_refl) as [Ho He].
  split; [exact H1|]. split; [exact H2|]. split; [exact H3|].
  split; [exact Ho|]. rewrite He. reflexivity.
Defined.

(** X2 on a call with 128 arguments for which the selector plans two
    outputs. *)
Lemma output_count_unchecked_witness :
  length (replicate 128 (RXnd (sample_buffer 10))) <= 128
  /\ forallb rb_xnd_check_type (replicate 128 (RXnd (sample_buffer 10)))
     = true
  /\ selection 128 lib_succeeds xnd_error None
       (replicate 128 (RXnd (sample_buffer 10))) sample_self sample_world
     = (sample_kernel, spec_mixed, NDT_STATIC_CONTEXT)
  /\ set sample_kernel <> None
  /\ 128 < length (replicate 128 (RXnd (sample_buffer 10))) + nout spec_mixed
  /\ (forall h t, rb_xnd_empty_from_type lib_succeeds h t <> None)
  /\ call_outcome 128 false lib_succeeds xnd_error None Qnil
       (replicate 128 (RXnd (sample_buffer 10))) sample_self sample_world
     = Stop Undefined.
Proof.
  assert (length (replicate 128 (RXnd (sample_buffer 10))) <= 128) as H1
    by (rewrite length_replicate; lia).
  assert (forallb rb_xnd_check_type (replicate 128 (RXnd (sample_buffer 10)))
          = true) as H2 by (vm_compute; reflexivity).
  assert (selection 128 lib_succeeds xnd_error None
            (replicate 128 (RXnd (sample_buffer 10))) sample_self
            sample_world
          = (sample_kernel, spec_mixed, NDT_STATIC_CONTEXT)) as H3
    by reflexivity.
  assert (set sample_kernel <> None) as H4 by discriminate.
  assert (128 < length (replicate 128 (RXnd (sample_buffer 10)))
                + nout spec_mixed) as H5
    by (rewrite length_replicate; simpl; lia).
  assert (forall h t, rb_xnd_empty_from_type lib_succeeds h t <> None) as H6
    by (intros h t; simpl; discriminate).
  split; [exact H1|]. split; [exact H2|]. split; [exact H3|].
  split; [exact H4|]. split; [exact H5|]. split; [exact H6|].
  exact (output_count_unchecked 128 false lib_succeeds xnd_error None Qnil
           (replicate 128 (RXnd (sample_buffer 10))) sample_self
           sample_world _ _ _ H1 H2 H3 H4 H5 H6).
Defined.

(** X3 on the call whose kernel run fails. *)
Lemma outputs_on_kernel_stack_witness :
  selection 128 lib_apply_fails xnd_error None two_arguments sample_self
    sample_world
  = (sample_kernel, spec_broadcast, NDT_STATIC_CONTEXT)
  /\ Ev_gm_apply true broadcast_apply_stack (-1)
       ∈ call_events 128 true lib_apply_fails xnd_error None Qnil
           two_arguments sample_self sample_world
  /\ 0 < nout spec_broadcast
  /\ out spec_broadcast !! 0 = Some (concrete_type 1)
  /\ exists b,
       Ev_rb_xnd_empty_from_type (concrete_type 1) (Some b)
         ∈ call_events 128 true lib_apply_fails xnd_error None Qnil
             two_arguments sample_self sample_world
       /\ broadcast_apply_stack !! (length two_arguments + 0) = Some b.
Proof.
  assert (selection 128 lib_apply_fails xnd_error None two_arguments
            sample_self sample_world
          = (sample_kernel, spec_broadcast, NDT_STATIC_CONTEXT)) as Hs
    by (vm_compute; reflexivity).
  assert (Ev_gm_apply true broadcast_apply_stack (-1)
            ∈ call_events 128 true lib_apply_fails xnd_error None Qnil
                two_arguments sample_self sample_world) as Hin
    by (apply list_elem_of_In; vm_compute; tauto).
  assert (0 < nout spec_broadcast) as Hi by (simpl; lia).
  assert (out spec_broadcast !! 0 = Some (concrete_type 1)) as Ht
    by reflexivity.
  split; [exact Hs|]. split; [exact Hin|]. split; [exact Hi|].
  split; [exact Ht|].
  exact (outputs_on_kernel_stack 128 true lib_apply_fails xnd_error None
           Qnil two_arguments sample_self sample_world _ _ _ _ _ _ 0 _
           Hs Hin Hi Ht).
Defined.




(** X5 and X7 on the call in which nothing fails. *)
Lemma one_allocation_per_concrete_output_witness :
  selection 128 lib_succeeds xnd_error None two_arguments sample_self
    sample_world = (sample_kernel, spec_mixed, NDT_STATIC_CONTEXT)
  /\ (exists stack,
        Ev_gm_apply true stack 0
          ∈ call_events 128 true lib_succeeds xnd_error None Qnil
              two_arguments sample_self sample_world)
  /\ allocation_types
       (call_events 128 true lib_succeeds xnd_error None Qnil two_arguments
          sample_self sample_world)
     = [concrete_type 1].
Proof.
  assert (selection 128 lib_succeeds xnd_error None two_arguments sample_self
            sample_world = (sample_kernel, spec_mixed, NDT_STATIC_CONTEXT))
    as Hs by (vm_compute; reflexivity).
  assert (Ev_gm_apply true
            ([ {| type := Some (concrete_type 31); ptr := 10 |};
               {| type := Some (concrete_type 32); ptr := 11 |};
               first_allocated 1 ] ++ replicate 125 xnd_error) 0
            ∈ call_events 128 true lib_succeeds xnd_error None Qnil
                two_arguments sample_self sample_world) as Hin
    by (apply list_elem_of_In; vm_compute; tauto).
  split; [exact Hs|]. split; [eexists; exact Hin|].
  exact (proj1 (one_allocation_per_concrete_output 128 true lib_succeeds
                  xnd_error None Qnil two_arguments sample_self sample_world
                  _ _ _ _ _ _ Hs Hin)).
Defined.

Lemma one_conversion_per_abstract_output_witness :
  selection 128 lib_succeeds xnd_error None two_arguments sample_self
    sample_world = (sample_kernel, spec_mixed, NDT_STATIC_CONTEXT)
  /\ call_outcome 128 true lib_succeeds xnd_error None Qnil two_arguments
       sample_self sample_world
     = Return (RArray [RXnd (first_allocated 1); RXnd (sample_buffer 23)])
  /\ conversion_slots
       (call_events 128 true lib_succeeds xnd_error None Qnil two_arguments
          sample_self sample_world)
     = [3].
Proof.
  assert (selection 128 lib_succeeds xnd_error None two_arguments sample_self
            sample_world = (sample_kernel, spec_mixed, NDT_STATIC_CONTEXT))
    as Hs by (vm_compute; reflexivity).
  assert (call_outcome 128 true lib_succeeds xnd_error None Qnil
            two_arguments sample_self sample_world
          = Return (RArray [RXnd (first_allocated 1);
                            RXnd (sample_buffer 23)])) as Ho
    by (vm_compute; reflexivity).
  split; [exact Hs|]. split; [exact Ho|].
  exact (one_conversion_per_abstract_output 128 true lib_succeeds xnd_error
           None Qnil two_arguments sample_self sample_world _ _ _ _ Hs Ho).
Defined.



(** X9 on a call whose receiver is not a GufuncObject and on the call
    whose second allocation fails. *)
Lemma raised_errors_witness :
  length two_arguments <= 128
  /\ forallb rb_xnd_check_type two_arguments = true
  /\ call_outcome 128 true lib_succeeds xnd_error None Qnil two_arguments
       (untyped (RObject 7)) sample_world
     = Stop (Raise rb_eTypeError)
  /\ call_outcome 128 true lib_allocation_fails xnd_error None Qnil
       two_arguments sample_self sample_world
     = Stop (Raise (rb_eNoMemError "could not allocate empty XND object."))
  /\ exists t,
       Ev_rb_xnd_empty_from_type t None
         ∈ call_events 128 true lib_allocation_fails xnd_error None Qnil
             two_arguments sample_self sample_world.
Proof.
  assert (length two_arguments <= 128) as H1 by (simpl; lia).
  assert (forallb rb_xnd_check_type two_arguments = true) as H2
    by reflexivity.
  assert (call_outcome 128 true lib_allocation_fails xnd_error None Qnil
            two_arguments sample_self sample_world
          = Stop (Raise (rb_eNoMemError
                           "could not allocate empty XND object."))) as Ho
    by (vm_compute; reflexivity).
  split; [exact H1|]. split; [exact H2|].
  split.
  { exact (proj1 (proj2 (proj2 (raised_errors 128 true lib_succeeds xnd_error
                                  None Qnil two_arguments
                                  (untyped (RObject 7)) sample_world)))
             (RObject 7) H1 H2 eq_refl). }
  split; [exact Ho|].
  destruct (proj2 (proj2 (proj2 (raised_errors 128 true lib_allocation_fails
                                   xnd_error None Qnil two_arguments
                                   sample_self sample_world))) _ Ho)
    as [(He & _)|[(He & _)|[(He & _)|[(_ & Ht)|(ctx & pre & He & _)]]]];
    [discriminate He|discriminate He|discriminate He|exact Ht
    |discriminate He].
Defined.

(** X12 on the registration of ["f"] as object 5 and a call of that object
    with two arguments. *)
Lemma registered_function_dispatches_witness :
  add_function 5 strdup_ok {| func_name := "f" |} sample_map_args
    sample_interp
  = Some (0%Z,
          {| guobjs := {[5 := Named sample_self]};
             function_hash := {[1 := {["f" := RObject 5]}]};
             recorded := [] |})
  /\ strdup_ok "f" = (Some "f", NDT_STATIC_CONTEXT)
  /\ length two_arguments <= 128
  /\ forallb rb_xnd_check_type two_arguments = true
  /\ exists rest,
       call_events 128 false lib_succeeds xnd_error None Qnil two_arguments
         sample_self sample_world
       = Ev_gm_select "f" (in_types_of 128 None two_arguments) 2
           sample_kernel spec_mixed :: rest.
Proof.
  assert (add_function 5 strdup_ok {| func_name := "f" |} sample_map_args
            sample_interp
          = Some (0%Z,
                  {| guobjs := {[5 := Named sample_self]};
                     function_hash := {[1 := {["f" := RObject 5]}]};
                     recorded := [] |})) as Ha
    by (vm_compute; reflexivity).
  assert (strdup_ok "f" = (Some "f", NDT_STATIC_CONTEXT)) as Hd
    by reflexivity.
  assert (length two_arguments <= 128) as Hl by (simpl; lia).
  assert (forallb rb_xnd_check_type two_arguments = true) as Hx
    by reflexivity.
  split; [exact Ha|]. split; [exact Hd|]. split; [exact Hl|].
  split; [exact Hx|].
  destruct (registered_function_dispatches 128 false lib_succeeds xnd_error
              None Qnil 5 strdup_ok {| func_name := "f" |} sample_map_args
              sample_interp _ _ _ two_arguments sample_world Ha Hd Hl Hx)
    as (g & Hg & _ & _ & kernel & spec & ctx' & rest & Hsel & Hev).
  assert (Some (Named g) = Some (Named sample_self)) as Heq
    by (rewrite <- Hg; reflexivity).
  injection Heq as ->.
  assert ((kernel, spec, ctx')
          = (sample_kernel, spec_mixed, NDT_STATIC_CONTEXT)) as Hks
    by (rewrite <- Hsel; reflexivity).
  injection Hks as -> -> _.
  exists rest. exact Hev.
Defined.

(** X13 on an initialisation that raises for want of libxnd, followed by
    two that return. *)
Lemma initialised_has_table_witness :
  Forall (fun a => forall z, NUM2INT a (nprocessors a) = Some z ->
                             int_range z)
         [answers_no_xnd; answers_ok; answers_ok]
  /\ proc_initialized
       (run_inits [answers_no_xnd; answers_ok; answers_ok] process_start)
     = true
  /\ process_ok
       (run_inits [answers_no_xnd; answers_ok; answers_ok] process_start).
Proof.
  assert (forall z, NUM2INT answers_ok (nprocessors answers_ok) = Some z ->
                    int_range z) as Hn.
  { intros z Hz. vm_compute in Hz. injection Hz as <-.
    unfold int_range. lia. }
  assert (Forall (fun a => forall z, NUM2INT a (nprocessors a) = Some z ->
                                     int_range z)
                 [answers_no_xnd; answers_ok; answers_ok]) as Hall
    by (constructor; [exact Hn
                     |constructor; [exact Hn|constructor; [exact Hn|constructor]]]).
  split; [exact Hall|]. split; [reflexivity|].
  exact (initialised_has_table [answers_no_xnd; answers_ok; answers_ok] Hall).
Defined.

(** X14 on an initialisation that finds libxnd gone after one that went
    well. *)
Lemma second_init_is_inert_witness :
  (Init_ruby_gumath answers_ok process_start).1 = None
  /\ (Init_ruby_gumath answers_no_xnd
        (Init_ruby_gumath answers_ok process_start).2).1 = None
  /\ proc_gm_inits (Init_ruby_gumath answers_no_xnd
                      (Init_ruby_gumath answers_ok process_start).2).2
     = proc_gm_inits (Init_ruby_gumath answers_ok process_start).2.
Proof.
  assert ((Init_ruby_gumath answers_ok process_start).1 = None) as Hok
    by reflexivity.
  split; [exact Hok|].
  destruct (second_init_is_inert answers_ok answers_no_xnd process_start Hok)
    as (Hret & _ & _ & _ & Hinits & _).
  split; [exact Hret|exact Hinits].
Defined.

(** X15 on an initialisation without libxnd. *)
Lemma failed_init_starts_over_witness :
  (Init_ruby_gumath answers_no_xnd process_start).1
  = Some (rb_eLoadError "Need XND for gumath.")
  /\ proc_initialized (Init_ruby_gumath answers_no_xnd process_start).2
     = false
  /\ proc_defined (Init_ruby_gumath answers_no_xnd process_start).2
     = proc_defined process_start
  /\ proc_gm_inits (Init_ruby_gumath answers_no_xnd process_start).2
     = S (proc_gm_inits process_start).
Proof.
  assert ((Init_ruby_gumath answers_no_xnd process_start).1
          = Some (rb_eLoadError "Need XND for gumath.")) as He
    by reflexivity.
  split; [exact He|].
  destruct (failed_init_starts_over answers_no_xnd process_start _ He)
    as (_ & Hi & _ & Hd & Hg).
  split; [exact Hi|]. split; [exact Hd|exact Hg].
Defined.

(** X16 on the first initialisation on a machine with 8 processors. *)
Lemma first_init_sets_max_threads_witness :
  proc_initialized process_start = false
  /\ (forall z, NUM2INT answers_ok (nprocessors answers_ok) = Some z ->
                int_range z)
  /\ ((Init_ruby_gumath answers_ok process_start).1 = None ->
      exists t n,
        (gm_tbl_new answers_ok).1 = Some t
        /\ NUM2INT answers_ok (nprocessors answers_ok) = Some n
        /\ proc_initialized (Init_ruby_gumath answers_ok process_start).2
           = true
        /\ forall tr klass,
             process_world (Init_ruby_gumath answers_ok process_start).2 tr
               = Some {| table := t; max_threads := n; trace := tr |}
             /\ Gumath_s_get_max_threads klass
                  {| table := t; max_threads := n; trace := tr |}
                = (Return (Some (RInteger n)),
                   {| table := t; max_threads := n; trace := tr |})).
Proof.
  assert (proc_initialized process_start = false) as Hi by reflexivity.
  assert (forall z, NUM2INT answers_ok (nprocessors answers_ok) = Some z ->
                    int_range z) as Hn.
  { intros z Hz. vm_compute in Hz. injection Hz as <-.
    unfold int_range. lia. }
  split; [exact Hi|]. split; [exact Hn|].
  exact (proj2 (first_init_sets_max_threads answers_ok process_start Hi Hn)).
Defined.

(** X17 on the registration of ["f"] as object 5 in the sample module. *)
Lemma add_function_registers_witness :
  function_hash sample_interp !! module sample_map_args = Some ∅
  /\ exists r',
       add_function 5 strdup_ok {| func_name := "f" |} sample_map_args
         sample_interp = Some (0%Z, r')
       /\ function_hash r' !! module sample_map_args
          = Some (<["f" := RObject 5]> ∅).
Proof.
  assert (function_hash sample_interp !! module sample_map_args = Some ∅)
    as Hh by reflexivity.
  split; [exact Hh|].
  destruct (add_function_registers 5 strdup_ok {| func_name := "f" |}
              sample_map_args sample_interp ∅ Hh)
    as (r' & Ha & Hf & _).
  exists r'. split; [exact Ha|exact Hf].
Defined.

(** X18 on the registrations of ["f"] as object 5 and of ["g"] as
    object 6. *)
Lemma add_function_twice_witness :
  function_hash sample_interp !! module sample_map_args = Some ∅
  /\ exists r1 r2 h2,
       add_function 5 strdup_ok {| func_name := "f" |} sample_map_args
         sample_interp = Some (0%Z, r1)
       /\ add_function 6 strdup_ok {| func_name := "g" |} sample_map_args r1
          = Some (0%Z, r2)
       /\ function_hash r2 !! module sample_map_args = Some h2
       /\ h2 !! "g" = Some (RObject 6)
       /\ h2 !! "f" = Some (RObject 5).
Proof.
  assert (function_hash sample_interp !! module sample_map_args = Some ∅)
    as Hh by reflexivity.
  split; [exact Hh|].
  destruct (add_function_twice 5 6 strdup_ok {| func_name := "f" |}
              {| func_name := "g" |} sample_map_args sample_interp ∅ Hh)
    as (r1 & r2 & h2 & H1 & H2 & Hh2 & Hg & Hf & _).
  exists r1, r2, h2. split; [exact H1|]. split; [exact H2|].
  split; [exact Hh2|]. split; [exact Hg|exact Hf].
Defined.

(** X19 on the registration of ["f"] when its name cannot be copied. *)
Lemma add_function_ignores_failed_copy_witness :
  function_hash sample_interp !! module sample_map_args = Some ∅
  /\ strdup_fails "f" = (None, {| err := 3; msg := "out of memory" |})
  /\ exists r' h',
       add_function 5 strdup_fails {| func_name := "f" |} sample_map_args
         sample_interp = Some (0%Z, r')
       /\ function_hash r' !! module sample_map_args = Some h'
       /\ h' !! "f" = Some (RObject 5)
       /\ guobjs r' !! 5 = Some (Unnamed (map_table sample_map_args))
       /\ recorded r'
          = recorded sample_interp
            ++ [{| err := 3; msg := "out of memory" |}].
Proof.
  assert (function_hash sample_interp !! module sample_map_args = Some ∅)
    as Hh by reflexivity.
  assert (strdup_fails "f" = (None, {| err := 3; msg := "out of memory" |}))
    as Hd by reflexivity.
  split; [exact Hh|]. split; [exact Hd|].
  exact (add_function_ignores_failed_copy 5 strdup_fails
           {| func_name := "f" |} sample_map_args sample_interp ∅ _ Hh Hd).
Defined.

(** X20 on a call with four abstract outputs in which the conversion of the
    first one fails. *)
Lemma failed_first_conversion_is_undefined_witness :
  Ev_rb_xnd_from_xnd (length one_argument) (sample_buffer 21) None
    ∈ call_events 128 false lib_first_conversion_fails xnd_error None Qnil
        one_argument sample_self sample_world
  /\ call_outcome 128 false lib_first_conversion_fails xnd_error None Qnil
       one_argument sample_self sample_world
     = Stop Undefined.
Proof.
  assert (Ev_rb_xnd_from_xnd (length one_argument) (sample_buffer 21) None
            ∈ call_events 128 false lib_first_conversion_fails xnd_error
                None Qnil one_argument sample_self sample_world) as Hin
    by (apply list_elem_of_In; vm_compute; tauto).
  split; [exact Hin|].
  exact (failed_first_conversion_is_undefined 128 false
           lib_first_conversion_fails xnd_error None Qnil one_argument
           sample_self sample_world _ Hin).
Defined.
